(** * A shallow embedding of [isofit/instrument.py]

    The module models the spectrometer: its noise covariance [Sy], the prior
    covariance [Sa], the resampling operator [sample], the two Jacobians
    [dmeas_dinstrument] and [dmeas_dinstrumentb], and the constructor
    [__init__] that assembles the object from a configuration dictionary.

    Numbers.  numpy's float64 values are modelled as real numbers ([R]); the
    development is about the arithmetic the code asks for, not about rounding.
    Where numpy yields NaN and the reals have no such value (the square root of
    a negative number in the band-count test) the case is written out.

    Exceptions.  Python exceptions are values of [exn]; a computation that may
    raise returns a [result].

    Arrays.  A numpy array is a [Scalar] (0-d), a [Vec] (1-d) or a [Mat] (2-d,
    a list of rows).  The caller's measurement array, which [Sy] overwrites, is
    held in a [store] indexed by the identity of the array. *)

From Stdlib Require Import String Ascii DecimalString.
From Stdlib Require Import Reals Lra Lia ZArith Bool Arith List.
Import ListNotations.

Local Open Scope string_scope.
Local Open Scope list_scope.
Local Open Scope R_scope.

(** ** Exceptions and the error monad *)

Inductive exn : Set :=
  | ValueError
  | KeyError
  | TypeError
  | AttributeError
  | IndexError
  | ZeroDivisionError.

Inductive result (A : Type) : Type :=
  | Ok (a : A)
  | Err (e : exn).

Arguments Ok {A} a.
Arguments Err {A} e.

Definition bind {A B : Type} (m : result A) (k : A -> result B) : result B :=
  match m with
  | Ok a => k a
  | Err e => Err e
  end.

Notation "x <- m ;; k" := (bind m (fun x => k))
  (at level 61, m at next level, right associativity).
Notation "' pat <- m ;; k" := (bind m (fun x => match x with pat => k end))
  (at level 61, pat pattern, m at next level, right associativity).

(** [d[key]] on a dictionary entry that may be absent, and [self.name] on an
    attribute that may never have been assigned. *)
Definition getitem {A : Type} (o : option A) : result A :=
  match o with
  | Some a => Ok a
  | None => Err KeyError
  end.

Definition getattr {A : Type} (o : option A) : result A :=
  match o with
  | Some a => Ok a
  | None => Err AttributeError
  end.

Fixpoint mapM {A B : Type} (f : A -> result B) (l : list A) : result (list B) :=
  match l with
  | [] => Ok []
  | a :: l' => b <- f a ;; bs <- mapM f l' ;; Ok (b :: bs)
  end.

(** ** Real comparisons as booleans *)

Definition Rltb (x y : R) : bool := if Rlt_dec x y then true else false.
Definition Rgtb (x y : R) : bool := Rltb y x.

(** ** Arrays *)

Definition vector := list R.
Definition matrix := list (list R).

Inductive ndarray : Type :=
  | Scalar (r : R)
  | Vec (v : vector)
  | Mat (rows : matrix).

Definition ravel (a : ndarray) : vector :=
  match a with
  | Scalar r => [r]
  | Vec v => v
  | Mat rows => concat rows
  end.

Definition nd_map (f : R -> R) (a : ndarray) : ndarray :=
  match a with
  | Scalar r => Scalar (f r)
  | Vec v => Vec (map f v)
  | Mat rows => Mat (map (map f) rows)
  end.

Definition zeros (n : nat) : vector := repeat 0 n.
Definition ones (n : nat) : vector := repeat 1 n.
Definition zeros2 (r c : nat) : matrix := repeat (zeros c) r.

(** [s.diagflat(v)] for a flat [v]. *)
Fixpoint diagflat (v : vector) : matrix :=
  match v with
  | [] => []
  | x :: v' => (x :: zeros (length v')) :: map (cons 0) (diagflat v')
  end.

(** [pow(M, k)] on an array is element-wise. *)
Definition mat_pow (m : matrix) (k : nat) : matrix := map (map (fun x => x ^ k)) m.

Fixpoint map2 {A B C : Type} (f : A -> B -> C) (l : list A) (l' : list B) : list C :=
  match l, l' with
  | a :: t, b :: t' => f a b :: map2 f t t'
  | _, _ => []
  end.

(** Element-wise binary operation on two 1-d arrays under numpy's broadcasting
    rule: equal lengths, or one side of length one; anything else raises. *)
Definition broadcast2 (f : R -> R -> R) (a b : vector) : result vector :=
  if (length a =? length b)%nat then Ok (map2 f a b)
  else match a, b with
       | [x], _ => Ok (map (f x) b)
       | _, [y] => Ok (map (fun x => f x y) a)
       | _, _ => Err ValueError
       end.

Definition nd_zip (f : R -> R -> R) (a b : ndarray) : result ndarray :=
  match a, b with
  | Scalar x, _ => Ok (nd_map (f x) b)
  | _, Scalar y => Ok (nd_map (fun x => f x y) a)
  | Vec u, Vec v => w <- broadcast2 f u v ;; Ok (Vec w)
  | Vec u, Mat rows => m <- mapM (broadcast2 f u) rows ;; Ok (Mat m)
  | Mat rows, Vec v => m <- mapM (fun r => broadcast2 f r v) rows ;; Ok (Mat m)
  | Mat r1, Mat r2 =>
      if (length r1 =? length r2)%nat
      then m <- mapM (fun p => broadcast2 f (fst p) (snd p)) (combine r1 r2) ;; Ok (Mat m)
      else Err ValueError
  end.

(** Python indexing of a sequence: a negative index counts from the end, an
    index outside the sequence raises [IndexError]. *)
Definition py_pos (len : nat) (i : Z) : result nat :=
  let n := Z.of_nat len in
  let k := if (i <? 0)%Z then (i + n)%Z else i in
  if ((0 <=? k) && (k <? n))%Z then Ok (Z.to_nat k) else Err IndexError.

Definition py_index {A : Type} (l : list A) (i : Z) : result A :=
  k <- py_pos (length l) i ;;
  match nth_error l k with
  | Some a => Ok a
  | None => Err IndexError
  end.

Fixpoint set_nth {A : Type} (l : list A) (i : nat) (a : A) : list A :=
  match l, i with
  | [], _ => []
  | _ :: t, O => a :: t
  | h :: t, S i' => h :: set_nth t i' a
  end.

(** [s.hstack((A, B))] of two 2-d arrays: the row counts must agree. *)
Definition hstack (a b : matrix) : result matrix :=
  if (length a =? length b)%nat then Ok (map2 (@app R) a b) else Err ValueError.

(** [J[:, k] = value] on a matrix with [ncols] columns: the column index
    follows Python indexing and the value is broadcast to the rows. *)
Definition assign_col (ncols : nat) (J : matrix) (k : Z) (value : ndarray)
  : result matrix :=
  c <- py_pos ncols k ;;
  match value with
  | Scalar r => Ok (map (fun row => set_nth row c r) J)
  | Vec [r] => Ok (map (fun row => set_nth row c r) J)
  | Vec v =>
      if (length v =? length J)%nat
      then Ok (map2 (fun row r => set_nth row c r) J v)
      else Err ValueError
  | Mat [[r]] => Ok (map (fun row => set_nth row c r) J)
  | Mat [v] =>
      if (length v =? length J)%nat
      then Ok (map2 (fun row r => set_nth row c r) J v)
      else Err ValueError
  | Mat _ => Err ValueError
  end.

(** [s.diff(v)]: first differences of a 1-d array. *)
Fixpoint diff (v : vector) : vector :=
  match v with
  | x :: ((y :: _) as t) => (y - x) :: diff t
  | _ => []
  end.

(** [s.hstack((s.diff(a), s.array([0])))]: [s.diff] rejects a 0-d array and
    [s.hstack] rejects the mix of a 2-d and a 1-d array. *)
Definition diff_pad (a : ndarray) : result ndarray :=
  match a with
  | Vec v => Ok (Vec (diff v ++ [0]))
  | _ => Err ValueError
  end.

(** [s.arange(lo, hi)] on integers, as floats. *)
Definition arange (lo hi : Z) : vector :=
  map (fun k => IZR (lo + Z.of_nat k)) (seq 0 (Z.to_nat (hi - lo))).

(** [s.squeeze]: dimensions of extent one are dropped. *)
Definition squeeze (a : ndarray) : ndarray :=
  match a with
  | Scalar r => Scalar r
  | Vec [x] => Scalar x
  | Vec v => Vec v
  | Mat [[x]] => Scalar x
  | Mat [row] => Vec row
  | Mat [] => Mat []
  | Mat rows =>
      if forallb (fun r => (length r =? 1)%nat) rows then Vec (concat rows) else Mat rows
  end.

(** [covs.mean(axis=0)] of a stack of [n] by [n] matrices: the running sum
    over the leading axis divided by its extent. *)
Definition mat_add (a b : matrix) : matrix := map2 (map2 Rplus) a b.

Definition sum_axis0 (n : nat) (covs : list matrix) : matrix :=
  fold_left mat_add covs (zeros2 n n).

Definition mean_axis0 (n : nat) (covs : list matrix) : matrix :=
  map (map (fun s => s / INR (length covs))) (sum_axis0 n covs).

(** [flat.reshape((a, b, c))] in row-major order. *)
Fixpoint chunks {A : Type} (size count : nat) (l : list A) : list (list A) :=
  match count with
  | O => []
  | S count' => firstn size l :: chunks size count' (skipn size l)
  end.

Definition reshape3 (a b c : nat) (flat : vector) : result (list matrix) :=
  if (length flat =? a * b * c)%nat
  then Ok (map (chunks c b) (chunks (b * c) a flat))
  else Err ValueError.

(** ** Strings *)

Definition mem (k : string) (l : list string) : bool := existsb (String.eqb k) l.

Fixpoint index_of (k : string) (l : list string) : option nat :=
  match l with
  | [] => None
  | h :: t => if String.eqb k h then Some O else option_map S (index_of k t)
  end.

Definition endswith (s suffix : string) : bool :=
  let n := String.length s in
  let m := String.length suffix in
  (m <=? n)%nat && String.eqb (substring (n - m) m s) suffix.

Fixpoint lookup {A : Type} (k : string) (d : list (string * A)) : option A :=
  match d with
  | [] => None
  | (k', a) :: t => if String.eqb k k' then Some a else lookup k t
  end.

(** ['%04i' % z]: decimal, zero-padded to width four, sign included. *)
Fixpoint repeat_string (s : string) (n : nat) : string :=
  match n with
  | O => EmptyString
  | S n' => s ++ repeat_string s n'
  end.

Definition zfill (width : nat) (s : string) : string :=
  repeat_string "0" (width - String.length s) ++ s.

Definition digits (z : Z) : string := NilZero.string_of_uint (N.to_uint (Z.to_N z)).

Definition format_04i (z : Z) : string :=
  if (z <? 0)%Z then "-" ++ zfill 3 (digits (Z.abs z)) else zfill 4 (digits z).

(** [int(w)] truncates toward zero. *)
Definition int_of_float (w : R) : Z :=
  if Rle_dec 0 w then Int_part w else (- Int_part (- w))%Z.

(** ** The caller's arrays *)

(** A numpy array passed to a method is passed by identity.  The store gives
    the current contents of every array the caller holds. *)
Definition loc := nat.
Definition store := loc -> vector.

Definition upd (st : store) (l : loc) (v : vector) : store :=
  fun l' => if (l' =? l)%nat then v else st l'.

(** A method that may write to the caller's arrays and may raise: the store
    it leaves behind is returned also when it raises. *)
Definition M (A : Type) := store -> result A * store.

(** ** Collaborators

    [instrument.py] imports [eps], [srf], [load_wavelen] and
    [resample_spectrum] from [common], and uses scipy's [loadtxt], [loadmat],
    [interp1d] and [convolve].  They are taken as given. *)

(** The fields of the matrix container read by the constructor:
    [D['columns'][0,0]], [D['bands'][0,0]] and [D['covariances']], the last one
    flattened in row-major order. *)
Record MatFile := {
  columns : nat;
  bands : Z;
  covariances : vector
}.

Class Collaborators := {
  (** finite-difference step *)
  eps : R;
  (** [srf(x, mu, sigma)]: spectral response function sampled at [x] *)
  srf : vector -> R -> R -> vector;
  (** [resample_spectrum(x, wl, wl2, fwhm2)] *)
  resample_spectrum : vector -> vector -> vector -> vector -> result vector;
  (** [load_wavelen(file)]: centre wavelengths and FWHMs *)
  load_wavelen : string -> result (vector * vector);
  (** [s.loadtxt(file, delimiter=..., comments='#')] *)
  loadtxt : string -> option string -> result ndarray;
  (** [loadmat(file)] *)
  loadmat : string -> result MatFile;
  (** [interp1d(x, y, fill_value='extrapolate')], then evaluated at a point *)
  interp1d : vector -> vector -> result (R -> R);
  (** [convolve(a, kernel, mode='same')] on 1-d arrays *)
  convolve : vector -> vector -> vector
}.

(** ** The configuration dictionary *)

Module Config.

(** One entry of [config['statevector']]. *)
Record statevar := {
  init : R;
  bounds : R * R;
  scale : R
}.

(** One value of [config['unknowns']]: the name of a file ([type(val) is
    str]) or a number. *)
Inductive unknown :=
  | File (path : string)
  | Value (v : R).

(** The keys the constructor reads, each possibly absent, and the names of
    whatever other keys the dictionary holds.  The two nested dictionaries
    keep their insertion order. *)
Record t := {
  wavelength_file : option string;
  statevector : option (list (string * statevar));
  SNR : option R;
  noise_file : option string;
  integrations : option R;
  unknowns : option (list (string * unknown));
  other_keys : list string
}.

Definition is_some {A : Type} (o : option A) : bool :=
  match o with Some _ => true | None => false end.

(** [key in config] *)
Definition contains (config : t) (key : string) : bool :=
  (String.eqb key "wavelength_file" && is_some (wavelength_file config))
  || (String.eqb key "statevector" && is_some (statevector config))
  || (String.eqb key "SNR" && is_some (SNR config))
  || (String.eqb key "noise_file" && is_some (noise_file config))
  || (String.eqb key "integrations" && is_some (integrations config))
  || (String.eqb key "unknowns" && is_some (unknowns config))
  || mem key (other_keys config).

End Config.

(** ** The instrument object *)

(** [self.model_type] together with the attributes that the selected branch of
    the constructor assigns. *)
Inductive noise_model :=
  | SNR (snr : R)
  | parametric (noise : list (R * R * R))
  | pushbroom (ncols : nat) (covs : list matrix).

(** The attributes of an [Instrument].  [model_type] is absent when the noise
    file has neither of the two known suffixes; [prior_sigma] is read by [Sa]
    and is assigned nowhere in the class. *)
Record Instrument := {
  wl_init : vector;
  fwhm_init : vector;
  n_chan : nat;
  bounds : list (R * R);
  scale : vector;
  statevec : list string;
  init_val : vector;
  n_state : nat;
  noise_file : option string;
  model_type : option noise_model;
  integrations : R;
  bvec : list string;
  bval : vector;
  calibration_fixed : bool;
  prior_sigma : option vector
}.

(** The geometry object: [geom.pushbroom_column] is [None] or an integer. *)
Record Geometry := {
  pushbroom_column : option Z
}.

(** Max. wavelength difference (nm) that does not trigger expensive resampling *)
Definition wl_tol : R := 0.01.

(** What [range] may be handed. *)
Inductive pyobj :=
  | PyInt (n : Z)
  | PyList (l : list string).

(** [range(o)]: only an integer is accepted. *)
Definition range (o : pyobj) : result (list nat) :=
  match o with
  | PyInt n => Ok (seq 0 (Z.to_nat n))
  | PyList _ => Err TypeError
  end.

(** ** The constructor *)

Section Model.

Context {ext : Collaborators}.

(** [self.n_chan != s.sqrt(D['bands'][0, 0])]; the square root of a negative
    number is NaN, which differs from every number. *)
Definition band_mismatch (n_chan : nat) (bands : Z) : bool :=
  if (bands <? 0)%Z then true
  else if Req_dec_T (INR n_chan) (sqrt (IZR bands)) then false else true.

(** [coeffs[:, k]] of the coefficient table. *)
Definition table_column (coeffs : ndarray) (k : nat) : result vector :=
  match coeffs with
  | Mat rows =>
      mapM (fun row => match nth_error row k with
                       | Some x => Ok x
                       | None => Err IndexError
                       end) rows
  | _ => Err IndexError
  end.

(** Lines 54-81: the noise model. *)
Definition init_noise (config : Config.t) (wl_init : vector) (n_chan : nat)
  : result (option string * option noise_model) :=
  match Config.SNR config with
  | Some v => Ok (None, Some (SNR v))
  | None =>
      file <- getitem (Config.noise_file config) ;;
      if endswith file ".txt" then
        coeffs <- loadtxt file (Some " ") ;;
        c0 <- table_column coeffs 0 ;;
        c1 <- table_column coeffs 1 ;;
        p_a <- interp1d c0 c1 ;;
        c0 <- table_column coeffs 0 ;;
        c2 <- table_column coeffs 2 ;;
        p_b <- interp1d c0 c2 ;;
        c0 <- table_column coeffs 0 ;;
        c3 <- table_column coeffs 3 ;;
        p_c <- interp1d c0 c3 ;;
        Ok (Some file, Some (parametric (map (fun w => (p_a w, p_b w, p_c w)) wl_init)))
      else if endswith file ".mat" then
        D <- loadmat file ;;
        let ncols := columns D in
        if band_mismatch n_chan (bands D) then Err ValueError
        else
          covs <- reshape3 ncols n_chan n_chan (covariances D) ;;
          Ok (Some file, Some (pushbroom ncols covs))
      else Ok (Some file, None)
  end.

Definition special_unknowns : list string := ["wavelength_calibration_uncertainty"].

(** Lines 94-99: the uncertainty array of one radiometric unknown.  A file
    gives a 0-d, 1-d or 2-d array; [u.shape[1]] raises on a 1-d array. *)
Definition load_unknown (n_chan : nat) (val : Config.unknown) : result ndarray :=
  match val with
  | Config.File path =>
      u <- loadtxt path None ;;
      match u with
      | Scalar r => Ok (Scalar r)
      | Vec _ => Err IndexError
      | Mat rows =>
          if (1 <? length (hd [] rows))%nat
          then Ok (Vec (map (fun row => nth 1 row 0) rows))
          else Ok (Mat rows)
      end
  | Config.Value v => Ok (Vec (map (fun o => o * v) (ones n_chan)))
  end.

(** Line 100: [bval[:n_chan] + pow(u, 2)], which must fit back into
    [bval[:n_chan]]. *)
Definition accumulate (rad : vector) (u : ndarray) : result vector :=
  match u with
  | Scalar r => Ok (map (fun b => b + r ^ 2) rad)
  | Vec v =>
      s <- broadcast2 Rplus rad (map (fun x => x ^ 2) v) ;;
      if (length s =? length rad)%nat then Ok s else Err ValueError
  | Mat [[x]] => Ok (map (fun b => b + x ^ 2) rad)
  | Mat _ => Err ValueError
  end.

(** Lines 91-100: the loop over [config['unknowns'].items()]. *)
Fixpoint rss_loop (n_chan : nat) (items : list (string * Config.unknown))
  (bval : vector) : result vector :=
  match items with
  | [] => Ok bval
  | (key, val) :: rest =>
      if mem key special_unknowns then rss_loop n_chan rest bval
      else
        u <- load_unknown n_chan val ;;
        s <- accumulate (firstn n_chan bval) u ;;
        rss_loop n_chan rest (s ++ skipn n_chan bval)
  end.

(** [bval[k] = val] for a scalar slot: a number is stored, a file name is not
    a number. *)
Definition assign_scalar (bval : vector) (k : Z) (val : Config.unknown)
  : result vector :=
  match val with
  | Config.Value v => i <- py_pos (length bval) k ;; Ok (set_nth bval i v)
  | Config.File _ => Err ValueError
  end.

(** Lines 87-108: the bias magnitudes. *)
Definition init_bval (config : Config.t) (n_chan : nat) : result vector :=
  let bval := zeros (n_chan + 2) in
  match Config.unknowns config with
  | None => Ok bval
  | Some unknowns =>
      bval <- rss_loop n_chan unknowns bval ;;
      let bval := map sqrt (firstn n_chan bval) ++ skipn n_chan bval in
      bval <-
        (if mem "wavelength_calibration_uncertainty" (map fst unknowns) then
           val <- getitem (lookup "wavelength_calibration_uncertainty" unknowns) ;;
           assign_scalar bval (-2) val
         else Ok bval) ;;
      if Config.contains config "stray_srf_uncertainty" then
        val <- getitem (lookup "stray_srf_uncertainty" unknowns) ;;
        assign_scalar bval (-1) val
      else Ok bval
  end.

Definition __init__ (config : Config.t) : result Instrument :=
  file <- getitem (Config.wavelength_file config) ;;
  ' (wl_init, fwhm_init) <- load_wavelen file ;;
  let n_chan := length wl_init in
  let entries :=
    match Config.statevector config with
    | Some sv => sv
    | None => []
    end in
  let statevec := map fst entries in
  let init_val := map (fun e => Config.init (snd e)) entries in
  let bounds := map (fun e => Config.bounds (snd e)) entries in
  let scale := map (fun e => Config.scale (snd e)) entries in
  let n_state := length statevec in
  ' (noise_file, model_type) <- init_noise config wl_init n_chan ;;
  integrations <- getitem (Config.integrations config) ;;
  let bvec :=
    map (fun w => ("Cal_Relative_" ++ format_04i (int_of_float w))%string) wl_init
    ++ ["Cal_Spectral"; "Cal_Stray_SRF"] in
  bval <- init_bval config n_chan ;;
  let calibration_fixed :=
    negb (mem "FWHM_SCL" statevec) && negb (mem "WL_SHIFT" statevec) in
  Ok {| wl_init := wl_init; fwhm_init := fwhm_init; n_chan := n_chan;
        bounds := bounds; scale := scale; statevec := statevec;
        init_val := init_val; n_state := n_state;
        noise_file := noise_file; model_type := model_type;
        integrations := integrations; bvec := bvec; bval := bval;
        calibration_fixed := calibration_fixed;
        prior_sigma := None |}.

(** ** Prior *)


Definition Sa (self : Instrument) : result matrix :=
  if (n_state self =? 0)%nat then Ok (zeros2 0 0)
  else
    sigma <- getattr (prior_sigma self) ;;
    Ok (diagflat (map (fun x => x ^ 2) sigma)).

(** ** Measurement noise *)

(** Lines 135-137: [nedl] of the parametric model.  [self.noise[:, k]] needs a
    2-d table, and the table of an instrument without channels is 1-d. *)
Definition parametric_nedl (noise : list (R * R * R)) (integrations : R)
  (meas : vector) : result vector :=
  match noise with
  | [] => Err IndexError
  | _ =>
      let a := map (fun row => fst (fst row)) noise in
      let b := map (fun row => snd (fst row)) noise in
      let c := map (fun row => snd row) noise in
      s <- broadcast2 Rplus b meas ;;
      t <- broadcast2 Rmult a (map sqrt s) ;;
      u <- broadcast2 Rplus t c ;;
      let nedl := map Rabs u in
      Ok (map (fun x => x / sqrt integrations) nedl)
  end.

Definition Sy (self : Instrument) (meas : loc) (geom : Geometry) : M ndarray :=
  fun st =>
  match model_type self with
  | None => (Err AttributeError, st)
  | Some (SNR snr) =>
      (* bad = meas < 1e-5; meas[bad] = 1e-5 *)
      let m := map (fun x => if Rlt_dec x 1e-5 then 1e-5 else x) (st meas) in
      let st := upd st meas m in
      if Req_dec_T snr 0 then (Err ZeroDivisionError, st)
      else
        let nedl := map (fun x => (1 / snr) * x) m in
        (Ok (Mat (mat_pow (diagflat nedl) 2)), st)
  | Some (parametric noise) =>
      (nedl <- parametric_nedl noise (integrations self) (st meas) ;;
       Ok (Mat (mat_pow (diagflat nedl) 2)), st)
  | Some (pushbroom ncols covs) =>
      (C <- match pushbroom_column geom with
            | None => Ok (squeeze (Mat (mean_axis0 (n_chan self) covs)))
            | Some column => slice <- py_index covs column ;; Ok (Mat slice)
            end ;;
       Ok (nd_map (fun x => x / sqrt (integrations self)) C), st)
  end.

(** ** Calibration and sampling *)

Definition calibration (self : Instrument) (x_instrument : vector)
  : result (vector * vector) :=
  let wl := wl_init self in
  let fwhm := fwhm_init self in
  fwhm <-
    (if mem "FWHM_SCL" (statevec self) then
       ind <- match index_of "FWHM_SCL" (statevec self) with
              | Some i => Ok i
              | None => Err ValueError
              end ;;
       x <- py_index x_instrument (Z.of_nat ind) ;;
       Ok (map (fun f => f + x) fwhm)
     else Ok fwhm) ;;
  wl <-
    (if mem "WL_SHIFT" (statevec self) then
       ind <- match index_of "WL_SHIFT" (statevec self) with
              | Some i => Ok i
              | None => Err ValueError
              end ;;
       x <- py_index x_instrument (Z.of_nat ind) ;;
       Ok (map (fun w => w + x) (wl_init self))
     else Ok wl) ;;
  Ok (wl, fwhm).

Definition sample (self : Instrument) (x_instrument wl_hi : vector)
  (rdn_hi : ndarray) : result ndarray :=
  fast <-
    (if calibration_fixed self then
       d <- broadcast2 Rminus (wl_init self) wl_hi ;;
       Ok (forallb (fun e => Rltb e wl_tol) d)
     else Ok false) ;;
  if (fast : bool) then Ok rdn_hi
  else
    ' (wl, fwhm) <- calibration self x_instrument ;;
    match rdn_hi with
    | Vec r => v <- resample_spectrum r wl_hi wl fwhm ;; Ok (Vec v)
    | Mat rows =>
        resamp <- mapM (fun r => resample_spectrum r wl_hi wl fwhm) rows ;;
        Ok (Mat resamp)
    | Scalar _ => Err TypeError
    end.

(** ** Jacobians *)

Definition dmeas_dinstrument (self : Instrument) (x_instrument wl_hi : vector)
  (rdn_hi : ndarray) : result matrix :=
  let J := zeros2 (n_chan self) (n_state self) in
  if (n_state self =? 0)%nat then Ok J
  else
    meas <- sample self x_instrument wl_hi rdn_hi ;;
    inds <- range (PyList (statevec self)) ;;
    fold_left
      (fun acc ind =>
         J <- acc ;;
         x <- py_index x_instrument (Z.of_nat ind) ;;
         let x_instrument_perturb := set_nth x_instrument ind (x + eps) in
         meas_perturb <- sample self x_instrument_perturb wl_hi rdn_hi ;;
         d <- nd_zip Rminus meas_perturb meas ;;
         assign_col (n_state self) J (Z.of_nat ind) (nd_map (fun v => v / eps) d))
      inds (Ok J).

(** [convolve(meas, ssrf, mode='same')]: both arguments must have the same
    number of dimensions, and [ssrf] is 1-d. *)
Definition convolve_same (meas : ndarray) (ssrf : vector) : result ndarray :=
  match meas with
  | Vec m => Ok (Vec (convolve m ssrf))
  | _ => Err ValueError
  end.

Definition dmeas_dinstrumentb (self : Instrument) (x_instrument wl_hi : vector)
  (rdn_hi : ndarray) : result matrix :=
  meas <- sample self x_instrument wl_hi rdn_hi ;;
  J <- hstack (diagflat (ravel meas)) (zeros2 (n_chan self) 2) ;;
  spectral <- py_index (bval self) (-2) ;;
  J <-
    (if Rgtb spectral 1e-6 then
       d <- diff_pad rdn_hi ;;
       column <- sample self x_instrument wl_hi d ;;
       assign_col (n_chan self + 2) J (-2) column
     else Ok J) ;;
  stray <- py_index (bval self) (-1) ;;
  J <-
    (if Rgtb stray 1e-6 then
       let ssrf := srf (arange (-10) 11) 0 4 in
       blur <- convolve_same meas ssrf ;;
       d <- nd_zip Rminus blur meas ;;
       assign_col (n_chan self + 2) J (-1) d
     else Ok J) ;;
  Ok J.

End Model.

(** ** The measurement simulator *)

Section Simulator.

(** [numpy.random.multivariate_normal], imported as [mvn]: given the state of
    the random generator, a mean and a covariance, it returns a draw (or
    raises) and the next state of the generator. *)
Variable rng : Type.
Variable mvn : rng -> vector -> ndarray -> result vector * rng.

(** The simulator reads the caller's array after [Sy] has run on it. *)
Definition simulate_measurement (self : Instrument) (meas : loc) (geom : Geometry)
  (st : store) (g : rng) : result vector * store * rng :=
  match Sy self meas geom st with
  | (Err e, st) => (Err e, st, g)
  | (Ok Sy, st) =>
      let mu := zeros (length (st meas)) in
      match mvn g mu Sy with
      | (Err e, g) => (Err e, st, g)
      | (Ok noise, g) => (broadcast2 Rplus (st meas) noise, st, g)
      end
  end.

End Simulator.

(** ** Reading a state vector *)

(** The entry of the state vector that belongs to a named state variable;
    zero when the variable is not retrieved. *)
Definition state_value (self : Instrument) (x_instrument : vector) (name : string) : R :=
  match index_of name (statevec self) with
  | Some i => nth i x_instrument 0
  | None => 0
  end.

(** ** Reading the unknowns *)

(** An unknown given as a number, and its value. *)
Definition is_number (u : Config.unknown) : Prop := exists v, u = Config.Value v.

Definition unknown_value (u : Config.unknown) : R :=
  match u with
  | Config.Value v => v
  | Config.File _ => 0
  end.

(** The sum of the squares of the unknowns that the loop of the constructor
    does not skip. *)
Definition radiometric_sum_sq (unknowns : list (string * Config.unknown)) : R :=
  fold_right Rplus 0
    (map (fun kv => unknown_value (snd kv) ^ 2)
         (filter (fun kv => negb (mem (fst kv) special_unknowns)) unknowns)).

(** A configuration with every key of [config] but with [noise_file] set
    anew. *)
Definition with_noise_file (config : Config.t) (file : option string) : Config.t := {|
  Config.wavelength_file := Config.wavelength_file config;
  Config.statevector := Config.statevector config;
  Config.SNR := Config.SNR config;
  Config.noise_file := file;
  Config.integrations := Config.integrations config;
  Config.unknowns := Config.unknowns config;
  Config.other_keys := Config.other_keys config
|}.

(** ** Reading results *)

(** Entry [(i, j)] of an array that stands for a matrix; a 0-d array stands
    for a 1 by 1 matrix. *)
Definition entry (a : ndarray) (i j : nat) : option R :=
  match a with
  | Scalar r => if ((i =? 0) && (j =? 0))%nat then Some r else None
  | Vec _ => None
  | Mat rows =>
      match nth_error rows i with
      | Some row => nth_error row j
      | None => None
      end
  end.

(** Entry [(i, j)] of a matrix, zero outside. *)
Definition get (m : matrix) (i j : nat) : R := nth j (nth i m []) 0.

(** A stack of [n] by [n] matrices. *)
Definition square (n : nat) (m : matrix) : Prop :=
  length m = n /\ Forall (fun row => length row = n) m.

Definition well_shaped (n : nat) (covs : list matrix) : Prop :=
  Forall (square n) covs.

(** The sum of entry [(i, j)] over the slices of a stack. *)
Definition entry_sum (covs : list matrix) (i j : nat) : R :=
  fold_right Rplus 0 (map (fun slice => get slice i j) covs).

(** ** Example objects *)

(** Three channels, no calibration state, a signal-to-noise ratio of 100. *)
Definition snr_instrument : Instrument := {|
  wl_init := [500; 510; 520];
  fwhm_init := [10; 10; 10];
  n_chan := 3;
  bounds := [];
  scale := [];
  statevec := [];
  init_val := [];
  n_state := 0;
  noise_file := None;
  model_type := Some (SNR 100);
  integrations := 1;
  bvec := ["Cal_Relative_0500"; "Cal_Relative_0510"; "Cal_Relative_0520";
           "Cal_Spectral"; "Cal_Stray_SRF"];
  bval := [0; 0; 0; 0; 0];
  calibration_fixed := true;
  prior_sigma := None
|}.

Definition nadir : Geometry := {| pushbroom_column := None |}.

(** The caller holds the measurement [[0.2, 0.3, 0.4]] as array 0 and a
    measurement with a negative and a tiny radiance as array 1. *)
Definition caller_store : store :=
  fun l =>
    match l with
    | O => [0.2; 0.3; 0.4]
    | S O => [-1; 1e-6; 0.5]
    | _ => []
    end.

(** Two channels, two spatial columns with measured covariances, four
    integrations. *)
Definition pushbroom_covs : list matrix :=
  [ [[4; 2]; [2; 6]];
    [[8; 0]; [0; 2]] ].

Definition pushbroom_instrument : Instrument := {|
  wl_init := [500; 510];
  fwhm_init := [10; 10];
  n_chan := 2;
  bounds := [];
  scale := [];
  statevec := [];
  init_val := [];
  n_state := 0;
  noise_file := Some "noise.mat";
  model_type := Some (pushbroom 2 pushbroom_covs);
  integrations := 4;
  bvec := ["Cal_Relative_0500"; "Cal_Relative_0510"; "Cal_Spectral"; "Cal_Stray_SRF"];
  bval := [0; 0; 0; 0];
  calibration_fixed := true;
  prior_sigma := None
|}.

Definition second_column : Geometry := {| pushbroom_column := Some 1%Z |}.

(** The coefficients [(a, b, c)] of two channels. *)
Definition noise_table : list (R * R * R) := [(1, 0, 0.5); (2, 1, 0)].

(** Two channels under the parametric model, with [k] integrations. *)
Definition parametric_instrument (k : R) : Instrument := {|
  wl_init := [500; 510];
  fwhm_init := [10; 10];
  n_chan := 2;
  bounds := [];
  scale := [];
  statevec := [];
  init_val := [];
  n_state := 0;
  noise_file := Some "noise.txt";
  model_type := Some (parametric noise_table);
  integrations := k;
  bvec := ["Cal_Relative_0500"; "Cal_Relative_0510"; "Cal_Spectral"; "Cal_Stray_SRF"];
  bval := [0; 0; 0; 0];
  calibration_fixed := true;
  prior_sigma := None
|}.

(** The caller's arrays when the instrument has two channels. *)
Definition two_channel_store : store :=
  fun l =>
    match l with
    | O => [4; 3]
    | _ => []
    end.

(** Collaborators for the examples: three channels at 500, 510 and 520 nm; a
    resampler that gives every channel the mean of the first and the last
    sample of the spectrum; a flat stray-light kernel; a convolution that
    halves; two matrix containers, one with nine bands and one with four. *)
Definition nine_bands : MatFile :=
  {| columns := 2; bands := 9; covariances := repeat 1 18 |}.

Definition four_bands : MatFile :=
  {| columns := 2; bands := 4; covariances := repeat 1 18 |}.

Definition example_collaborators : Collaborators := {|
  eps := 1e-5;
  srf := fun x _ _ => map (fun _ => 1 / 21) x;
  resample_spectrum :=
    fun x _ wl2 _ => Ok (map (fun _ => (hd 0 x + last x 0) / 2) wl2);
  load_wavelen := fun _ => Ok ([500; 510; 520], [10; 10; 10]);
  loadtxt := fun _ _ => Err ValueError;
  loadmat :=
    fun file =>
      if String.eqb file "four_bands.mat" then Ok four_bands else Ok nine_bands;
  interp1d := fun _ _ => Ok (fun _ => 0);
  convolve := fun a _ => map (fun v => v / 2) a
|}.

(** A configuration that retrieves a wavelength shift. *)
Definition shift_config : Config.t := {|
  Config.wavelength_file := Some "wavelengths.txt";
  Config.statevector :=
    Some [("WL_SHIFT", {| Config.init := 0; Config.bounds := (-1, 1); Config.scale := 0.1 |})];
  Config.SNR := Some 100;
  Config.noise_file := None;
  Config.integrations := Some 1;
  Config.unknowns := None;
  Config.other_keys := []
|}.

(** The object the constructor builds from [shift_config] with the example
    collaborators. *)
Definition shift_instrument : Instrument := {|
  wl_init := [500; 510; 520];
  fwhm_init := [10; 10; 10];
  n_chan := 3;
  bounds := [(-1, 1)];
  scale := [0.1];
  statevec := ["WL_SHIFT"];
  init_val := [0];
  n_state := 1;
  noise_file := None;
  model_type := Some (SNR 100);
  integrations := 1;
  bvec :=
    map (fun w => ("Cal_Relative_" ++ format_04i (int_of_float w))%string) [500; 510; 520]
    ++ ["Cal_Spectral"; "Cal_Stray_SRF"];
  bval := [0; 0; 0; 0; 0];
  calibration_fixed := false;
  prior_sigma := None
|}.

(** A high-resolution grid and a radiance spectrum on it. *)
Definition fine_grid : vector := [495; 500; 505; 510; 515; 520; 525].
Definition fine_radiance : vector := [1; 2; 4; 8; 4; 2; 1].

(** A configuration with a pushbroom noise file. *)
Definition pushbroom_config (file : string) : Config.t := {|
  Config.wavelength_file := Some "wavelengths.txt";
  Config.statevector := None;
  Config.SNR := None;
  Config.noise_file := Some file;
  Config.integrations := Some 4;
  Config.unknowns := None;
  Config.other_keys := []
|}.

(** A configuration that declares a stray-light uncertainty among the
    unknowns, and the object the constructor builds from it with the example
    collaborators. *)
Definition stray_config : Config.t := {|
  Config.wavelength_file := Some "wavelengths.txt";
  Config.statevector := None;
  Config.SNR := Some 100;
  Config.noise_file := None;
  Config.integrations := Some 1;
  Config.unknowns :=
    Some [("wavelength_calibration_uncertainty", Config.Value 0.02);
          ("stray_srf_uncertainty", Config.Value 0.01)];
  Config.other_keys := []
|}.

Definition stray_instrument : Instrument := {|
  wl_init := [500; 510; 520];
  fwhm_init := [10; 10; 10];
  n_chan := 3;
  bounds := [];
  scale := [];
  statevec := [];
  init_val := [];
  n_state := 0;
  noise_file := None;
  model_type := Some (SNR 100);
  integrations := 1;
  bvec :=
    map (fun w => ("Cal_Relative_" ++ format_04i (int_of_float w))%string) [500; 510; 520]
    ++ ["Cal_Spectral"; "Cal_Stray_SRF"];
  bval := [sqrt (0 + (1 * 0.01) ^ 2); sqrt (0 + (1 * 0.01) ^ 2);
           sqrt (0 + (1 * 0.01) ^ 2); 0.02; 0];
  calibration_fixed := true;
  prior_sigma := None
|}.

(** An instrument that retrieves a wavelength shift and carries a
    spectral-calibration uncertainty but no stray-light uncertainty. *)
Definition biased_instrument : Instrument := {|
  wl_init := [500; 510; 520];
  fwhm_init := [10; 10; 10];
  n_chan := 3;
  bounds := [(-1, 1)];
  scale := [0.1];
  statevec := ["WL_SHIFT"];
  init_val := [0];
  n_state := 1;
  noise_file := None;
  model_type := Some (SNR 100);
  integrations := 1;
  bvec := ["Cal_Relative_0500"; "Cal_Relative_0510"; "Cal_Relative_0520";
           "Cal_Spectral"; "Cal_Stray_SRF"];
  bval := [0.01; 0.01; 0.01; 0.02; 0];
  calibration_fixed := false;
  prior_sigma := None
|}.

(** [J'] is [J] with column [c] overwritten. *)
Definition col_written (c : nat) (J J' : matrix) : Prop :=
  length J' = length J
  /\ forall i j, j <> c -> get J' i j = get J i j.

(** The three-channel instrument with a signal-to-noise ratio of 400. *)
Definition sensitive_instrument : Instrument := {|
  wl_init := [500; 510; 520];
  fwhm_init := [10; 10; 10];
  n_chan := 3;
  bounds := [];
  scale := [];
  statevec := [];
  init_val := [];
  n_state := 0;
  noise_file := None;
  model_type := Some (SNR 400);
  integrations := 1;
  bvec := ["Cal_Relative_0500"; "Cal_Relative_0510"; "Cal_Relative_0520";
           "Cal_Spectral"; "Cal_Stray_SRF"];
  bval := [0; 0; 0; 0; 0];
  calibration_fixed := true;
  prior_sigma := None
|}.

(** A configuration whose noise file has neither of the two known suffixes,
    and the object the constructor builds from it. *)
Definition csv_config : Config.t := {|
  Config.wavelength_file := Some "wavelengths.txt";
  Config.statevector := None;
  Config.SNR := None;
  Config.noise_file := Some "noise.csv";
  Config.integrations := Some 1;
  Config.unknowns := None;
  Config.other_keys := []
|}.

Definition csv_instrument : Instrument := {|
  wl_init := [500; 510; 520];
  fwhm_init := [10; 10; 10];
  n_chan := 3;
  bounds := [];
  scale := [];
  statevec := [];
  init_val := [];
  n_state := 0;
  noise_file := Some "noise.csv";
  model_type := None;
  integrations := 1;
  bvec :=
    map (fun w => ("Cal_Relative_" ++ format_04i (int_of_float w))%string) [500; 510; 520]
    ++ ["Cal_Spectral"; "Cal_Stray_SRF"];
  bval := [0; 0; 0; 0; 0];
  calibration_fixed := true;
  prior_sigma := None
|}.

(** The three-channel instrument with a signal-to-noise ratio of zero. *)
Definition blind_instrument : Instrument := {|
  wl_init := [500; 510; 520];
  fwhm_init := [10; 10; 10];
  n_chan := 3;
  bounds := [];
  scale := [];
  statevec := [];
  init_val := [];
  n_state := 0;
  noise_file := None;
  model_type := Some (SNR 0);
  integrations := 1;
  bvec := ["Cal_Relative_0500"; "Cal_Relative_0510"; "Cal_Relative_0520";
           "Cal_Spectral"; "Cal_Stray_SRF"];
  bval := [0; 0; 0; 0; 0];
  calibration_fixed := true;
  prior_sigma := None
|}.

Definition last_column : Geometry := {| pushbroom_column := Some (-1)%Z |}.
Definition third_column : Geometry := {| pushbroom_column := Some 2%Z |}.

(** A generator of random numbers that counts its draws and always draws the
    same noise, one entry per entry of the mean. *)
Definition counting_mvn (g : nat) (mu : vector) (cov : ndarray)
  : result vector * nat :=
  (Ok (map (fun _ => 0.25) mu), S g).

(** Collaborators that read a coefficient table of two rows and a 1-d
    uncertainty file, and interpolate by the mean of the table's column. *)
Definition table_collaborators : Collaborators := {|
  eps := 1e-5;
  srf := fun x _ _ => map (fun _ => 1 / 21) x;
  resample_spectrum :=
    fun x _ wl2 _ => Ok (map (fun _ => (hd 0 x + last x 0) / 2) wl2);
  load_wavelen := fun _ => Ok ([500; 510; 520], [10; 10; 10]);
  loadtxt :=
    fun file _ =>
      if String.eqb file "noise.txt"
      then Ok (Mat [[400; 1; 0; 0.5]; [600; 3; 2; 1.5]])
      else Ok (Vec [0.01; 0.01; 0.01]);
  loadmat := fun _ => Ok nine_bands;
  interp1d := fun _ y => Ok (fun _ => (hd 0 y + last y 0) / 2);
  convolve := fun a _ => map (fun v => v / 2) a
|}.

(** Configurations: two radiometric unknowns and a wavelength-calibration
    uncertainty; an unknown given by a 1-d file; a parametric noise file; no
    wavelength file; a stray-light key at the top level and in the
    unknowns. *)
Definition rss_config : Config.t := {|
  Config.wavelength_file := Some "wavelengths.txt";
  Config.statevector := None;
  Config.SNR := Some 100;
  Config.noise_file := None;
  Config.integrations := Some 1;
  Config.unknowns :=
    Some [("flat_field", Config.Value 0.03);
          ("wavelength_calibration_uncertainty", Config.Value 0.02);
          ("linearity", Config.Value 0.04)];
  Config.other_keys := []
|}.

Definition file_unknown_config : Config.t := {|
  Config.wavelength_file := Some "wavelengths.txt";
  Config.statevector := None;
  Config.SNR := Some 100;
  Config.noise_file := None;
  Config.integrations := Some 1;
  Config.unknowns :=
    Some [("flat_field", Config.Value 0.03);
          ("channelized", Config.File "uncertainty.txt")];
  Config.other_keys := []
|}.

Definition parametric_config : Config.t := {|
  Config.wavelength_file := Some "wavelengths.txt";
  Config.statevector := None;
  Config.SNR := None;
  Config.noise_file := Some "noise.txt";
  Config.integrations := Some 4;
  Config.unknowns := None;
  Config.other_keys := []
|}.

Definition stray_both_config : Config.t := {|
  Config.wavelength_file := Some "wavelengths.txt";
  Config.statevector := None;
  Config.SNR := Some 100;
  Config.noise_file := None;
  Config.integrations := Some 1;
  Config.unknowns := Some [("stray_srf_uncertainty", Config.Value 0.01)];
  Config.other_keys := ["stray_srf_uncertainty"]
|}.

Definition stray_both_instrument : Instrument := {|
  wl_init := [500; 510; 520];
  fwhm_init := [10; 10; 10];
  n_chan := 3;
  bounds := [];
  scale := [];
  statevec := [];
  init_val := [];
  n_state := 0;
  noise_file := None;
  model_type := Some (SNR 100);
  integrations := 1;
  bvec :=
    map (fun w => ("Cal_Relative_" ++ format_04i (int_of_float w))%string) [500; 510; 520]
    ++ ["Cal_Spectral"; "Cal_Stray_SRF"];
  bval := [sqrt (0 + (1 * 0.01) ^ 2); sqrt (0 + (1 * 0.01) ^ 2);
           sqrt (0 + (1 * 0.01) ^ 2); 0; 0.01];
  calibration_fixed := true;
  prior_sigma := None
|}.

Definition rss_instrument : Instrument := {|
  wl_init := [500; 510; 520];
  fwhm_init := [10; 10; 10];
  n_chan := 3;
  bounds := [];
  scale := [];
  statevec := [];
  init_val := [];
  n_state := 0;
  noise_file := None;
  model_type := Some (SNR 100);
  integrations := 1;
  bvec :=
    map (fun w => ("Cal_Relative_" ++ format_04i (int_of_float w))%string) [500; 510; 520]
    ++ ["Cal_Spectral"; "Cal_Stray_SRF"];
  bval := [sqrt (0 + (1 * 0.03) ^ 2 + (1 * 0.04) ^ 2);
           sqrt (0 + (1 * 0.03) ^ 2 + (1 * 0.04) ^ 2);
           sqrt (0 + (1 * 0.03) ^ 2 + (1 * 0.04) ^ 2); 0.02; 0];
  calibration_fixed := true;
  prior_sigma := None
|}.

(** A pushbroom instrument with a single spatial column. *)
Definition single_column_instrument : Instrument := {|
  wl_init := [500; 510];
  fwhm_init := [10; 10];
  n_chan := 2;
  bounds := [];
  scale := [];
  statevec := [];
  init_val := [];
  n_state := 0;
  noise_file := Some "noise.mat";
  model_type := Some (pushbroom 1 [ [[4; 2]; [2; 6]] ]);
  integrations := 4;
  bvec := ["Cal_Relative_0500"; "Cal_Relative_0510"; "Cal_Spectral"; "Cal_Stray_SRF"];
  bval := [0; 0; 0; 0];
  calibration_fixed := true;
  prior_sigma := None
|}.

Definition first_column : Geometry := {| pushbroom_column := Some 0%Z |}.

(** A matrix that equals its transpose on the leading [n] by [n] block. *)
Definition symmetric (n : nat) (m : matrix) : Prop :=
  forall i j, (i < n)%nat -> (j < n)%nat -> get m i j = get m j i.

(** ** List lemmas *)

Lemma map2_length {A B C : Type} (f : A -> B -> C) (l : list A) (l' : list B) :
  length (map2 f l l') = Nat.min (length l) (length l').
Proof.
  revert l'; induction l as [|a l IH]; intros [|b l']; simpl; auto.
Qed.

Lemma map2_nth {A B C : Type} (f : A -> B -> C) (l : list A) (l' : list B)
  (i : nat) (da : A) (db : B) (dc : C) :
  (i < length l)%nat -> (i < length l')%nat ->
  nth i (map2 f l l') dc = f (nth i l da) (nth i l' db).
Proof.
  revert l' i; induction l as [|a l IH]; intros [|b l'] [|i]; simpl; intros; try lia; auto.
  apply IH; lia.
Qed.

Lemma map2_same {A C : Type} (f : A -> A -> C) (l : list A) :
  map2 f l l = map (fun a => f a a) l.
Proof.
  induction l as [|a l IH]; simpl; congruence.
Qed.

Lemma nth_map_lt {A B : Type} (f : A -> B) (l : list A) (i : nat) (db : B) (da : A) :
  (i < length l)%nat -> nth i (map f l) db = f (nth i l da).
Proof.
  revert i; induction l as [|a l IH]; intros [|i]; simpl; intros; try lia; auto.
  apply IH; lia.
Qed.

Lemma set_nth_length {A : Type} (l : list A) (i : nat) (a : A) :
  length (set_nth l i a) = length l.
Proof.
  revert i; induction l as [|h t IH]; intros [|i]; simpl; auto.
Qed.

Lemma set_nth_other {A : Type} (l : list A) (i j : nat) (a d : A) :
  i <> j -> nth j (set_nth l i a) d = nth j l d.
Proof.
  revert i j; induction l as [|h t IH]; intros [|i] [|j]; simpl; intros; auto; try lia.
Qed.

Lemma set_nth_same {A : Type} (l : list A) (i : nat) (a d : A) :
  (i < length l)%nat -> nth i (set_nth l i a) d = a.
Proof.
  revert i; induction l as [|h t IH]; intros [|i]; simpl; intros; auto; try lia.
  apply IH; lia.
Qed.

Lemma zeros_length (n : nat) : length (zeros n) = n.
Proof. apply repeat_length. Qed.

Lemma zeros_nth (n i : nat) : nth i (zeros n) 0 = 0.
Proof.
  unfold zeros. revert i; induction n; intros [|i]; simpl; auto.
Qed.

Lemma zeros2_length (r c : nat) : length (zeros2 r c) = r.
Proof. apply repeat_length. Qed.

Lemma zeros2_get (r c i j : nat) : get (zeros2 r c) i j = 0.
Proof.
  unfold get, zeros2.
  destruct (Nat.lt_ge_cases i r) as [Hi|Hi].
  - rewrite nth_repeat_lt by exact Hi. apply zeros_nth.
  - rewrite (nth_overflow (repeat (zeros c) r) [])
      by (rewrite repeat_length; exact Hi).
    now destruct j.
Qed.

(** ** The diagonal matrix *)

Lemma diagflat_length (v : vector) : length (diagflat v) = length v.
Proof.
  induction v as [|x v IH]; simpl; [reflexivity|].
  now rewrite length_map, IH.
Qed.

Lemma diagflat_rows (v : vector) :
  Forall (fun row => length row = length v) (diagflat v).
Proof.
  induction v as [|x v IH]; simpl; constructor.
  - simpl. now rewrite zeros_length.
  - apply Forall_map. eapply Forall_impl; [|exact IH].
    intros row Hrow. simpl. now rewrite Hrow.
Qed.

Lemma diagflat_get (v : vector) (i j : nat) :
  (i < length v)%nat -> (j < length v)%nat ->
  get (diagflat v) i j = if (i =? j)%nat then nth i v 0 else 0.
Proof.
  unfold get. revert i j.
  induction v as [|x v IH]; simpl; intros i j Hi Hj; [lia|].
  destruct i as [|i], j as [|j]; simpl; auto.
  - apply zeros_nth.
  - rewrite nth_indep with (d' := 0 :: [])
      by (rewrite length_map, diagflat_length; lia).
    now rewrite map_nth.
  - rewrite nth_indep with (d' := 0 :: [])
      by (rewrite length_map, diagflat_length; lia).
    rewrite map_nth. simpl. apply IH; lia.
Qed.

Lemma mat_pow_length (m : matrix) (k : nat) : length (mat_pow m k) = length m.
Proof. apply length_map. Qed.

Lemma mat_pow_get (m : matrix) (k i j : nat) :
  (i < length m)%nat -> (j < length (nth i m []))%nat ->
  get (mat_pow m k) i j = get m i j ^ k.
Proof.
  unfold get, mat_pow. intros Hi Hj.
  rewrite (nth_map_lt (map (fun x => x ^ k)) m i _ []) by exact Hi.
  now rewrite (nth_map_lt (fun x => x ^ k) _ j _ 0) by exact Hj.
Qed.

(** ** The signal-to-noise model *)

Lemma clamp_Rmax (x : R) : (if Rlt_dec x 1e-5 then 1e-5 else x) = Rmax x 1e-5.
Proof.
  destruct (Rlt_dec x 1e-5) as [Hlt|Hge].
  - rewrite Rmax_right; lra.
  - rewrite Rmax_left; lra.
Qed.

(** C1.  Under the signal-to-noise model with a non-zero ratio [snr], [Sy]
    returns a square matrix of the size of the measurement whose entry [(i, i)]
    is [(max(meas[i], 1e-5) / snr)^2] and whose other entries are zero: the
    measurement is clamped from below at [1e-5], divided by [snr], and the
    diagonal matrix of the quotients is squared.  With [snr = 100] and the
    measurement [[0.2, 0.3, 0.4]] the result is
    [diag([4e-6, 9e-6, 1.6e-5])]. *)
Theorem Sy_snr_diagonal (self : Instrument) (snr : R) (meas : loc)
  (geom : Geometry) (st : store) :
  model_type self = Some (SNR snr) ->
  snr <> 0 ->
  exists S : matrix,
    fst (Sy self meas geom st) = Ok (Mat S)
    /\ length S = length (st meas)
    /\ Forall (fun row => length row = length (st meas)) S
    /\ (forall i j, (i < length (st meas))%nat -> (j < length (st meas))%nat ->
          get S i j =
          if (i =? j)%nat then (Rmax (nth i (st meas) 0) 1e-5 / snr) ^ 2 else 0)
    /\ (snr = 100 -> st meas = [0.2; 0.3; 0.4] ->
          S = [[4e-6; 0; 0]; [0; 9e-6; 0]; [0; 0; 1.6e-5]]).
Proof.
  intros Hmodel Hsnr. unfold Sy. rewrite Hmodel.
  destruct (Req_dec_T snr 0) as [Hz|_]; [contradiction|]. cbn [fst].
  eexists. split; [reflexivity|].
  set (m := map (fun x => if Rlt_dec x 1e-5 then 1e-5 else x) (st meas)).
  set (nedl := map (fun x => 1 / snr * x) m).
  assert (Hlen : length nedl = length (st meas))
    by (unfold nedl, m; now rewrite !length_map).
  split; [now rewrite mat_pow_length, diagflat_length|].
  split.
  { unfold mat_pow. apply Forall_map.
    eapply Forall_impl; [|apply diagflat_rows].
    intros row Hrow. simpl. now rewrite length_map, Hrow. }
  split.
  - intros i j Hi Hj.
    assert (Hrow : length (nth i (diagflat nedl) []) = length nedl).
    { pose proof (diagflat_rows nedl) as Hall. rewrite Forall_forall in Hall.
      apply Hall, nth_In. rewrite diagflat_length. lia. }
    rewrite mat_pow_get by (rewrite ?diagflat_length, ?Hrow; lia).
    rewrite diagflat_get by lia.
    destruct (i =? j)%nat; [|simpl; lra].
    unfold nedl, m.
    rewrite (nth_map_lt _ _ i _ 0) by (rewrite length_map; lia).
    rewrite (nth_map_lt _ _ i _ 0) by lia.
    rewrite clamp_Rmax. f_equal. unfold Rdiv. ring.
  - intros -> Hmeas. unfold nedl, m. rewrite Hmeas. simpl.
    repeat match goal with
           | |- context [Rlt_dec ?a ?b] => destruct (Rlt_dec a b); [lra|]
           end.
    repeat (f_equal; try lra).
Qed.

Lemma Sy_snr_diagonal_example :
  exists S : matrix,
    fst (Sy snr_instrument 0%nat nadir caller_store) = Ok (Mat S)
    /\ length S = length (caller_store 0%nat)
    /\ Forall (fun row => length row = length (caller_store 0%nat)) S
    /\ (forall i j, (i < length (caller_store 0%nat))%nat ->
                    (j < length (caller_store 0%nat))%nat ->
          get S i j =
          if (i =? j)%nat then (Rmax (nth i (caller_store 0%nat) 0) 1e-5 / 100) ^ 2 else 0)
    /\ (100 = 100 -> caller_store 0%nat = [0.2; 0.3; 0.4] ->
          S = [[4e-6; 0; 0]; [0; 9e-6; 0]; [0; 0; 1.6e-5]]).
Proof.
  apply (Sy_snr_diagonal snr_instrument 100 0%nat nadir caller_store).
  - reflexivity.
  - lra.
Defined.

Lemma upd_same (st : store) (l : loc) (v : vector) : upd st l v l = v.
Proof. unfold upd. now rewrite Nat.eqb_refl. Qed.

Lemma upd_other (st : store) (l l' : loc) (v : vector) :
  l' <> l -> upd st l v l' = st l'.
Proof.
  intros Hne. unfold upd. destruct (Nat.eqb_spec l' l); [contradiction|reflexivity].
Qed.

Lemma Sy_snr_store (self : Instrument) (snr : R) (meas : loc) (geom : Geometry)
  (st : store) :
  model_type self = Some (SNR snr) ->
  snd (Sy self meas geom st) =
  upd st meas (map (fun x => if Rlt_dec x 1e-5 then 1e-5 else x) (st meas)).
Proof.
  intros Hmodel. unfold Sy. rewrite Hmodel.
  now destruct (Req_dec_T snr 0).
Qed.

(** The other two models, and an object without a model, leave the caller's
    arrays alone. *)
Lemma Sy_other_store (self : Instrument) (meas : loc) (geom : Geometry) (st : store) :
  (forall snr, model_type self <> Some (SNR snr)) ->
  snd (Sy self meas geom st) = st.
Proof.
  intros Hmodel. unfold Sy.
  destruct (model_type self) as [[snr|noise|ncols covs]|]; try reflexivity.
  now destruct (Hmodel snr).
Qed.

(** C10.  Under the signal-to-noise model [Sy] writes to the caller's
    measurement array: after the call the array has the same length, every
    entry that was below [1e-5] reads [1e-5], every other entry is what it was,
    and every other array of the caller is untouched.  This holds whether the
    call returns or raises.  The instrument itself is a value that [Sy] only
    reads. *)
Theorem Sy_snr_clamps_in_place (self : Instrument) (snr : R) (meas : loc)
  (geom : Geometry) (st : store) :
  model_type self = Some (SNR snr) ->
  length (snd (Sy self meas geom st) meas) = length (st meas)
  /\ (forall i, (i < length (st meas))%nat ->
        (nth i (st meas) 0 < 1e-5 -> nth i (snd (Sy self meas geom st) meas) 0 = 1e-5)
        /\ (~ nth i (st meas) 0 < 1e-5 ->
            nth i (snd (Sy self meas geom st) meas) 0 = nth i (st meas) 0))
  /\ (forall l, l <> meas -> snd (Sy self meas geom st) l = st l).
Proof.
  intros Hmodel. rewrite (Sy_snr_store self snr meas geom st Hmodel).
  rewrite upd_same. split; [apply length_map|]. split.
  - intros i Hi. rewrite (nth_map_lt _ _ i _ 0) by exact Hi.
    destruct (Rlt_dec (nth i (st meas) 0) 1e-5); split; intros; tauto.
  - intros l Hl. now apply upd_other.
Qed.

Lemma Sy_snr_clamps_in_place_example :
  length (snd (Sy snr_instrument 1%nat nadir caller_store) 1%nat)
  = length (caller_store 1%nat)
  /\ (forall i, (i < length (caller_store 1%nat))%nat ->
        (nth i (caller_store 1%nat) 0 < 1e-5 ->
         nth i (snd (Sy snr_instrument 1%nat nadir caller_store) 1%nat) 0 = 1e-5)
        /\ (~ nth i (caller_store 1%nat) 0 < 1e-5 ->
            nth i (snd (Sy snr_instrument 1%nat nadir caller_store) 1%nat) 0
            = nth i (caller_store 1%nat) 0))
  /\ (forall l, l <> 1%nat ->
        snd (Sy snr_instrument 1%nat nadir caller_store) l = caller_store l).
Proof.
  apply (Sy_snr_clamps_in_place snr_instrument 100 1%nat nadir caller_store).
  reflexivity.
Defined.

(** What the caller reads back in the example: the two entries below the
    floor have been replaced. *)
Lemma Sy_snr_clamps_in_place_values :
  snd (Sy snr_instrument 1%nat nadir caller_store) 1%nat = [1e-5; 1e-5; 0.5].
Proof.
  rewrite (Sy_snr_store snr_instrument 100 1%nat nadir caller_store eq_refl).
  rewrite upd_same. simpl.
  repeat match goal with
         | |- context [Rlt_dec ?a ?b] => destruct (Rlt_dec a b); try lra
         end.
  reflexivity.
Qed.

(** ** The pushbroom model *)

Lemma square_row (n : nat) (m : matrix) (i : nat) :
  square n m -> (i < n)%nat -> length (nth i m []) = n.
Proof.
  intros [Hlen Hrows] Hi. rewrite Forall_forall in Hrows.
  apply Hrows, nth_In. lia.
Qed.

Lemma zeros2_square (n : nat) : square n (zeros2 n n).
Proof.
  split; [apply zeros2_length|].
  apply Forall_forall. intros row Hin.
  apply repeat_spec in Hin. subst row. apply zeros_length.
Qed.

Lemma mat_add_rows (n : nat) (a b : matrix) :
  Forall (fun row => length row = n) a ->
  Forall (fun row => length row = n) b ->
  Forall (fun row => length row = n) (mat_add a b).
Proof.
  unfold mat_add. intros Ha; revert b.
  induction Ha as [|ra a Hra Ha IH]; intros b Hb; simpl; [constructor|].
  destruct Hb as [|rb b Hrb Hb]; constructor.
  - rewrite map2_length. lia.
  - now apply IH.
Qed.

Lemma mat_add_square (n : nat) (a b : matrix) :
  square n a -> square n b -> square n (mat_add a b).
Proof.
  intros [Ha Hra] [Hb Hrb]. split.
  - unfold mat_add. rewrite map2_length. lia.
  - now apply mat_add_rows.
Qed.

Lemma mat_add_get (n : nat) (a b : matrix) (i j : nat) :
  square n a -> square n b -> (i < n)%nat -> (j < n)%nat ->
  get (mat_add a b) i j = get a i j + get b i j.
Proof.
  intros Ha Hb Hi Hj. unfold get, mat_add.
  rewrite (map2_nth _ a b i [] [] []) by (destruct Ha, Hb; lia).
  apply map2_nth; rewrite (square_row n); auto.
Qed.

Lemma sum_axis0_acc (n : nat) (covs : list matrix) (acc : matrix) :
  well_shaped n covs -> square n acc ->
  square n (fold_left mat_add covs acc)
  /\ forall i j, (i < n)%nat -> (j < n)%nat ->
       get (fold_left mat_add covs acc) i j = get acc i j + entry_sum covs i j.
Proof.
  unfold well_shaped, entry_sum.
  revert acc; induction covs as [|c covs IH]; intros acc Hcovs Hacc; simpl.
  - split; [exact Hacc|]. intros; lra.
  - inversion Hcovs as [|? ? Hc Hrest]; subst.
    destruct (IH (mat_add acc c) Hrest (mat_add_square n acc c Hacc Hc)) as [Hsq Hget].
    split; [exact Hsq|]. intros i j Hi Hj.
    rewrite Hget by assumption.
    rewrite (mat_add_get n) by assumption. lra.
Qed.

Lemma mean_axis0_square (n : nat) (covs : list matrix) :
  well_shaped n covs -> square n (mean_axis0 n covs).
Proof.
  intros Hcovs.
  destruct (sum_axis0_acc n covs (zeros2 n n) Hcovs (zeros2_square n)) as [[Hlen Hrows] _].
  unfold mean_axis0, sum_axis0. split.
  - now rewrite length_map.
  - apply Forall_map. eapply Forall_impl; [|exact Hrows].
    intros row Hrow. simpl. now rewrite length_map.
Qed.

Lemma mean_axis0_get (n : nat) (covs : list matrix) (i j : nat) :
  well_shaped n covs -> (i < n)%nat -> (j < n)%nat ->
  get (mean_axis0 n covs) i j = entry_sum covs i j / INR (length covs).
Proof.
  intros Hcovs Hi Hj.
  destruct (sum_axis0_acc n covs (zeros2 n n) Hcovs (zeros2_square n)) as [Hsq Hget].
  unfold mean_axis0, sum_axis0, get.
  rewrite (nth_map_lt _ _ i _ []) by (destruct Hsq; lia).
  rewrite (nth_map_lt _ _ j _ 0) by (rewrite (square_row n); auto).
  f_equal. fold (get (fold_left mat_add covs (zeros2 n n)) i j).
  rewrite Hget by assumption. rewrite zeros2_get. lra.
Qed.

Lemma entry_Mat (n : nat) (m : matrix) (i j : nat) :
  square n m -> (i < n)%nat -> (j < n)%nat ->
  entry (Mat m) i j = Some (get m i j).
Proof.
  intros Hsq Hi Hj. unfold entry, get.
  rewrite (nth_error_nth' m []) by (destruct Hsq; lia).
  apply nth_error_nth'. rewrite (square_row n); auto.
Qed.

(** Squeezing a square matrix keeps its entries: only the 1 by 1 matrix
    changes its shape, to a 0-d array. *)
Lemma entry_squeeze (n : nat) (m : matrix) (i j : nat) :
  square n m -> (i < n)%nat -> (j < n)%nat ->
  entry (squeeze (Mat m)) i j = Some (get m i j).
Proof.
  intros Hsq Hi Hj. pose proof Hsq as [Hlen Hrows].
  destruct m as [|r1 [|r2 rest]]; simpl in Hlen.
  - lia.
  - subst n. inversion Hrows as [|? ? Hr1 _]; subst.
    destruct r1 as [|x [|y r1]]; simpl in Hr1; try lia.
    assert (i = 0%nat) by lia. assert (j = 0%nat) by lia. subst. reflexivity.
  - inversion Hrows as [|? ? Hr1 _]; subst.
    assert (Hsq' : squeeze (Mat (r1 :: r2 :: rest)) = Mat (r1 :: r2 :: rest)).
    { destruct r1 as [|x [|y r1]]; simpl in Hr1; try lia. reflexivity. }
    rewrite Hsq'. eapply entry_Mat; eassumption.
Qed.

Lemma entry_nd_map (f : R -> R) (a : ndarray) (i j : nat) :
  entry (nd_map f a) i j = option_map f (entry a i j).
Proof.
  destruct a as [r|v|rows]; simpl.
  - now destruct ((i =? 0) && (j =? 0))%nat.
  - reflexivity.
  - rewrite nth_error_map. destruct (nth_error rows i) as [row|]; simpl; [|reflexivity].
    apply nth_error_map.
Qed.

Lemma py_index_nonneg {A : Type} (l : list A) (i : Z) (d : A) :
  (0 <= i < Z.of_nat (length l))%Z ->
  py_index l i = Ok (nth (Z.to_nat i) l d).
Proof.
  intros Hi. unfold py_index, py_pos.
  destruct (Z.ltb_spec i 0); [lia|].
  destruct (Z.leb_spec 0 i); [|lia].
  destruct (Z.ltb_spec i (Z.of_nat (length l))); [|lia]. simpl.
  rewrite (nth_error_nth' l d) by lia. reflexivity.
Qed.

(** C4.  Under the pushbroom model, with a positive number of integrations
    and a non-empty stack of [n_chan] by [n_chan] covariance matrices: when
    the geometry names no column, every entry of the result is the mean of
    that entry over the columns, times [1 / sqrt(integrations)]; when it names
    a column of the stack, the result is that slice of the stack, every entry
    times [1 / sqrt(integrations)].  The caller's arrays are left as they
    were, and the result does not depend on the measurement. *)
Theorem Sy_pushbroom_mean_or_slice (self : Instrument) (ncols : nat)
  (covs : list matrix) (meas : loc) (geom : Geometry) (st : store) :
  model_type self = Some (pushbroom ncols covs) ->
  well_shaped (n_chan self) covs ->
  covs <> [] ->
  0 < integrations self ->
  (pushbroom_column geom = None ->
     exists C : ndarray,
       fst (Sy self meas geom st) = Ok C
       /\ forall i j, (i < n_chan self)%nat -> (j < n_chan self)%nat ->
            entry C i j =
            Some (entry_sum covs i j / INR (length covs)
                  * (1 / sqrt (integrations self))))
  /\ (forall column : Z,
        pushbroom_column geom = Some column ->
        (0 <= column < Z.of_nat (length covs))%Z ->
        fst (Sy self meas geom st) =
        Ok (Mat (map (map (fun x => x * (1 / sqrt (integrations self))))
                     (nth (Z.to_nat column) covs []))))
  /\ snd (Sy self meas geom st) = st
  /\ (forall (meas' : loc) (st' : store),
        fst (Sy self meas' geom st') = fst (Sy self meas geom st)).
Proof.
  intros Hmodel Hshape Hne Hpos.
  assert (Hscale : forall x,
             x / sqrt (integrations self) = x * (1 / sqrt (integrations self)))
    by (intros x; unfold Rdiv; ring).
  repeat split.
  - intros Hcol. unfold Sy. rewrite Hmodel, Hcol. cbn [fst bind].
    eexists. split; [reflexivity|]. intros i j Hi Hj.
    rewrite entry_nd_map.
    rewrite (entry_squeeze (n_chan self))
      by (auto using mean_axis0_square).
    rewrite mean_axis0_get by assumption. simpl. now rewrite Hscale.
  - intros column Hcol Hrange. unfold Sy. rewrite Hmodel, Hcol. cbn [fst].
    rewrite (py_index_nonneg covs column []) by exact Hrange. cbn [bind nd_map].
    do 2 f_equal. apply map_ext. intros row. apply map_ext. exact Hscale.
  - unfold Sy. now rewrite Hmodel.
  - intros meas' st'. unfold Sy. now rewrite Hmodel.
Qed.

Lemma pushbroom_covs_well_shaped : well_shaped 2 pushbroom_covs.
Proof.
  repeat constructor.
Qed.

Lemma Sy_pushbroom_mean_or_slice_example :
  (pushbroom_column second_column = None ->
     exists C : ndarray,
       fst (Sy pushbroom_instrument 0%nat second_column caller_store) = Ok C
       /\ forall i j, (i < n_chan pushbroom_instrument)%nat ->
                      (j < n_chan pushbroom_instrument)%nat ->
            entry C i j =
            Some (entry_sum pushbroom_covs i j / INR (length pushbroom_covs)
                  * (1 / sqrt (integrations pushbroom_instrument))))
  /\ (forall column : Z,
        pushbroom_column second_column = Some column ->
        (0 <= column < Z.of_nat (length pushbroom_covs))%Z ->
        fst (Sy pushbroom_instrument 0%nat second_column caller_store) =
        Ok (Mat (map (map (fun x => x * (1 / sqrt (integrations pushbroom_instrument))))
                     (nth (Z.to_nat column) pushbroom_covs []))))
  /\ snd (Sy pushbroom_instrument 0%nat second_column caller_store) = caller_store
  /\ (forall (meas' : loc) (st' : store),
        fst (Sy pushbroom_instrument meas' second_column st')
        = fst (Sy pushbroom_instrument 0%nat second_column caller_store)).
Proof.
  apply (Sy_pushbroom_mean_or_slice pushbroom_instrument 2 pushbroom_covs
           0%nat second_column caller_store).
  - reflexivity.
  - exact pushbroom_covs_well_shaped.
  - discriminate.
  - simpl. lra.
Defined.

Lemma sqrt_4 : sqrt 4 = 2.
Proof.
  replace 4 with (2 * 2) by lra. apply sqrt_square. lra.
Qed.

(** The two ways of calling the example: the column mean, halved, and the
    second slice, halved. *)
Lemma Sy_pushbroom_mean_values :
  fst (Sy pushbroom_instrument 0%nat nadir caller_store)
  = Ok (Mat [[3; 1 / 2]; [1 / 2; 2]]).
Proof.
  unfold Sy. simpl. rewrite sqrt_4.
  do 2 f_equal. repeat (f_equal; try lra).
Qed.

Lemma Sy_pushbroom_slice_values :
  fst (Sy pushbroom_instrument 0%nat second_column caller_store)
  = Ok (Mat [[4; 0]; [0; 1]]).
Proof.
  unfold Sy. simpl. rewrite sqrt_4.
  do 2 f_equal. repeat (f_equal; try lra).
Qed.

(** ** The parametric model *)

Lemma sqrt_times_4 (k : R) : 0 <= k -> sqrt (4 * k) = 2 * sqrt k.
Proof.
  intros Hk. rewrite sqrt_mult_alt by lra. now rewrite sqrt_4.
Qed.

Lemma nedl_halved (k : R) (u : vector) :
  0 < k ->
  map (fun x => x / sqrt (4 * k)) u = map (fun x => x / 2) (map (fun x => x / sqrt k) u).
Proof.
  intros Hk. rewrite map_map. apply map_ext. intros x.
  rewrite sqrt_times_4 by lra.
  assert (0 < sqrt k) by (apply sqrt_lt_R0; exact Hk).
  field. lra.
Qed.

Lemma parametric_nedl_times_4 (noise : list (R * R * R)) (k : R) (meas : vector) :
  0 < k ->
  parametric_nedl noise (4 * k) meas =
  match parametric_nedl noise k meas with
  | Ok nedl => Ok (map (fun x => x / 2) nedl)
  | Err e => Err e
  end.
Proof.
  intros Hk. unfold parametric_nedl.
  destruct noise as [|row noise]; [reflexivity|].
  destruct (broadcast2 Rplus _ meas) as [s|e]; [|reflexivity]. cbn [bind].
  destruct (broadcast2 Rmult _ (map sqrt s)) as [t|e]; [|reflexivity]. cbn [bind].
  destruct (broadcast2 Rplus t _) as [u|e]; [|reflexivity]. cbn [bind].
  now rewrite nedl_halved.
Qed.

Lemma broadcast2_same_length (f : R -> R -> R) (a b : vector) :
  length a = length b -> broadcast2 f a b = Ok (map2 f a b).
Proof.
  intros Hlen. unfold broadcast2. now rewrite Hlen, Nat.eqb_refl.
Qed.

(** With one measurement per channel the parametric [nedl] is defined, and
    channel [i] reads [|a * sqrt(b + meas[i]) + c| / sqrt(integrations)]. *)
Lemma parametric_nedl_defined (noise : list (R * R * R)) (k : R) (meas : vector) :
  noise <> [] ->
  length meas = length noise ->
  exists nedl : vector,
    parametric_nedl noise k meas = Ok nedl
    /\ length nedl = length noise
    /\ forall i, (i < length noise)%nat ->
         nth i nedl 0 =
         Rabs (fst (fst (nth i noise (0, 0, 0)))
               * sqrt (snd (fst (nth i noise (0, 0, 0))) + nth i meas 0)
               + snd (nth i noise (0, 0, 0)))
         / sqrt k.
Proof.
  intros Hne Hlen. unfold parametric_nedl.
  destruct noise as [|row noise]; [contradiction|].
  set (rows := row :: noise) in *.
  rewrite broadcast2_same_length by (now rewrite length_map). cbn [bind].
  rewrite broadcast2_same_length
    by (rewrite !length_map, map2_length, length_map; lia). cbn [bind].
  rewrite broadcast2_same_length
    by (rewrite map2_length, !length_map, map2_length, length_map; lia). cbn [bind].
  eexists. split; [reflexivity|]. split.
  - rewrite !length_map, !map2_length, !length_map, map2_length, length_map. lia.
  - intros i Hi.
    rewrite (nth_map_lt _ _ i _ 0)
      by (rewrite length_map, !map2_length, !length_map, map2_length, length_map; lia).
    rewrite (nth_map_lt _ _ i _ 0)
      by (rewrite !map2_length, !length_map, map2_length, length_map; lia).
    rewrite (map2_nth _ _ _ i 0 0 0)
      by (rewrite ?map2_length, ?length_map, ?map2_length, ?length_map; lia).
    rewrite (map2_nth _ _ _ i 0 0 0)
      by (rewrite ?map2_length, ?length_map, ?map2_length, ?length_map; lia).
    rewrite (nth_map_lt _ _ i _ 0) by (rewrite map2_length, length_map; lia).
    rewrite (map2_nth _ _ _ i 0 0 0) by (rewrite ?length_map; lia).
    now rewrite !(nth_map_lt _ rows i _ (0, 0, 0)) by exact Hi.
Qed.

(** C6.  Under the parametric model with a positive number of integrations,
    for a fixed coefficient table and a fixed measurement with one entry per
    channel: an instrument with four times the integrations has every entry of
    [nedl] divided by 2, and every entry of [Sy], the diagonal ones included,
    multiplied by 1/4. *)
Theorem Sy_parametric_four_integrations (self self4 : Instrument)
  (noise : list (R * R * R)) (meas : loc) (geom : Geometry) (st : store) :
  model_type self = Some (parametric noise) ->
  model_type self4 = Some (parametric noise) ->
  0 < integrations self ->
  integrations self4 = 4 * integrations self ->
  noise <> [] ->
  length (st meas) = length noise ->
  exists (nedl : vector) (S S4 : matrix),
    parametric_nedl noise (integrations self) (st meas) = Ok nedl
    /\ parametric_nedl noise (integrations self4) (st meas)
       = Ok (map (fun x => x / 2) nedl)
    /\ length nedl = length noise
    /\ fst (Sy self meas geom st) = Ok (Mat S)
    /\ fst (Sy self4 meas geom st) = Ok (Mat S4)
    /\ (forall i, (i < length noise)%nat ->
          get S i i = nth i nedl 0 ^ 2 /\ get S4 i i = 1 / 4 * get S i i)
    /\ (forall i j, (i < length noise)%nat -> (j < length noise)%nat ->
          get S4 i j = 1 / 4 * get S i j).
Proof.
  intros Hmodel Hmodel4 Hpos Hfour Hne Hlen.
  destruct (parametric_nedl_defined noise (integrations self) (st meas) Hne Hlen)
    as (nedl & Hnedl & Hlen_nedl & _).
  assert (Hnedl4 : parametric_nedl noise (integrations self4) (st meas)
                   = Ok (map (fun x => x / 2) nedl)).
  { rewrite Hfour, parametric_nedl_times_4 by exact Hpos. now rewrite Hnedl. }
  exists nedl, (mat_pow (diagflat nedl) 2),
    (mat_pow (diagflat (map (fun x => x / 2) nedl)) 2).
  assert (Hentry : forall (v : vector) i j,
             (i < length v)%nat -> (j < length v)%nat ->
             get (mat_pow (diagflat v) 2) i j
             = if (i =? j)%nat then nth i v 0 ^ 2 else 0).
  { intros v i j Hi Hj.
    assert (Hrow : length (nth i (diagflat v) []) = length v).
    { pose proof (diagflat_rows v) as Hall. rewrite Forall_forall in Hall.
      apply Hall, nth_In. rewrite diagflat_length. lia. }
    rewrite mat_pow_get by (rewrite ?diagflat_length, ?Hrow; lia).
    rewrite diagflat_get by lia.
    destruct (i =? j)%nat; [reflexivity|simpl; lra]. }
  assert (Hquarter : forall i j, (i < length noise)%nat -> (j < length noise)%nat ->
             get (mat_pow (diagflat (map (fun x => x / 2) nedl)) 2) i j
             = 1 / 4 * get (mat_pow (diagflat nedl) 2) i j).
  { intros i j Hi Hj.
    rewrite !Hentry by (rewrite ?length_map; lia).
    destruct (i =? j)%nat; [|lra].
    rewrite (nth_map_lt _ _ i _ 0) by lia. simpl. lra. }
  repeat split; auto.
  - unfold Sy. rewrite Hmodel. cbn [fst]. now rewrite Hnedl.
  - unfold Sy. rewrite Hmodel4. cbn [fst]. now rewrite Hnedl4.
  - rewrite Hentry by lia. now rewrite Nat.eqb_refl.
Qed.

Lemma Sy_parametric_four_integrations_example :
  exists (nedl : vector) (S S4 : matrix),
    parametric_nedl noise_table
      (integrations (parametric_instrument 1)) (two_channel_store 0%nat) = Ok nedl
    /\ parametric_nedl noise_table
         (integrations (parametric_instrument 4)) (two_channel_store 0%nat)
       = Ok (map (fun x => x / 2) nedl)
    /\ length nedl = length noise_table
    /\ fst (Sy (parametric_instrument 1) 0%nat nadir two_channel_store) = Ok (Mat S)
    /\ fst (Sy (parametric_instrument 4) 0%nat nadir two_channel_store) = Ok (Mat S4)
    /\ (forall i, (i < length noise_table)%nat ->
          get S i i = nth i nedl 0 ^ 2 /\ get S4 i i = 1 / 4 * get S i i)
    /\ (forall i j, (i < length noise_table)%nat ->
                    (j < length noise_table)%nat ->
          get S4 i j = 1 / 4 * get S i j).
Proof.
  apply (Sy_parametric_four_integrations (parametric_instrument 1)
           (parametric_instrument 4) noise_table 0%nat nadir
           two_channel_store).
  - reflexivity.
  - reflexivity.
  - simpl. lra.
  - simpl. lra.
  - discriminate.
  - reflexivity.
Defined.

(** ** Inverting the error monad *)

Lemma bind_Ok {A B : Type} (m : result A) (k : A -> result B) (b : B) :
  bind m k = Ok b -> exists a, m = Ok a /\ k a = Ok b.
Proof.
  destruct m as [a|e]; simpl; intros H; [eauto|discriminate].
Qed.

Ltac inv_bind H :=
  let a := fresh "a" in
  let Ha := fresh "Ha" in
  apply bind_Ok in H; destruct H as (a & Ha & H).

(** ** The constructor *)

Section Constructor.

Context {ext : Collaborators}.

Lemma init_inv (config : Config.t) (self : Instrument) :
  __init__ config = Ok self ->
  exists file wl fwhm nf mt k bv,
    Config.wavelength_file config = Some file
    /\ load_wavelen file = Ok (wl, fwhm)
    /\ init_noise config wl (length wl) = Ok (nf, mt)
    /\ Config.integrations config = Some k
    /\ init_bval config (length wl) = Ok bv
    /\ wl_init self = wl
    /\ n_chan self = length wl
    /\ statevec self =
       map fst (match Config.statevector config with Some sv => sv | None => [] end)
    /\ scale self =
       map (fun e => Config.scale (snd e))
           (match Config.statevector config with Some sv => sv | None => [] end)
    /\ n_state self = length (statevec self)
    /\ model_type self = mt
    /\ integrations self = k
    /\ bval self = bv
    /\ prior_sigma self = None.
Proof.
  unfold __init__. intros H.
  inv_bind H. destruct (Config.wavelength_file config) as [file|]; [|discriminate].
  injection Ha as <-.
  inv_bind H. destruct a as [wl fwhm].
  inv_bind H. destruct a as [nf mt].
  inv_bind H. destruct (Config.integrations config) as [k|]; [|discriminate].
  injection Ha1 as <-.
  inv_bind H. injection H as <-.
  exists file, wl, fwhm, nf, mt, k, a. simpl. repeat split; auto.
Qed.

End Constructor.

(** ** The prior covariance *)

(** Without calibration state [Sa] is the empty matrix. *)
Lemma Sa_no_state (self : Instrument) :
  n_state self = 0%nat -> Sa self = Ok [].
Proof.
  intros H. unfold Sa. now rewrite H.
Qed.

(** What [Sa] would return if [prior_sigma] had been assigned the scales: the
    diagonal matrix of their squares. *)
Lemma Sa_with_prior_sigma (self : Instrument) (sigma : vector) (i j : nat) :
  n_state self <> 0%nat ->
  prior_sigma self = Some sigma ->
  (i < length sigma)%nat -> (j < length sigma)%nat ->
  exists S, Sa self = Ok S
            /\ get S i j = if (i =? j)%nat then nth i sigma 0 ^ 2 else 0.
Proof.
  intros Hn Hsigma Hi Hj. unfold Sa.
  destruct (Nat.eqb_spec (n_state self) 0); [contradiction|].
  rewrite Hsigma. cbn [getattr bind]. eexists. split; [reflexivity|].
  rewrite diagflat_get by (rewrite length_map; assumption).
  destruct (i =? j)%nat; [|reflexivity].
  now rewrite (nth_map_lt _ _ i _ 0).
Qed.

(** C3.  The constructor never assigns [prior_sigma], so for every
    constructed instrument with at least one state variable [Sa] raises
    [AttributeError]; it does not return the diagonal matrix of the squared
    scales. *)
Theorem Sa_raises_AttributeError {ext : Collaborators} (config : Config.t)
  (self : Instrument) :
  __init__ config = Ok self ->
  n_state self <> 0%nat ->
  Sa self = Err AttributeError.
Proof.
  intros Hinit Hn.
  destruct (init_inv config self Hinit)
    as (file & wl & fwhm & nf & mt & k & bv & H).
  decompose [and] H.
  unfold Sa. destruct (Nat.eqb_spec (n_state self) 0); [contradiction|].
  match goal with Hp : prior_sigma self = None |- _ => now rewrite Hp end.
Qed.

Lemma shift_instrument_constructed :
  __init__ (ext := example_collaborators) shift_config = Ok shift_instrument.
Proof. reflexivity. Qed.

Lemma Sa_raises_AttributeError_example :
  scale shift_instrument = [0.1] /\ Sa shift_instrument = Err AttributeError.
Proof.
  split; [reflexivity|].
  apply (Sa_raises_AttributeError (ext := example_collaborators)
           shift_config shift_instrument).
  - reflexivity.
  - discriminate.
Defined.

(** ** The finite-difference Jacobian *)

Section Jacobian.

Context {ext : Collaborators}.

(** Without calibration state the Jacobian has [n_chan] rows and no column. *)
Lemma dmeas_dinstrument_no_state (self : Instrument) (x wl_hi : vector)
  (rdn_hi : ndarray) :
  n_state self = 0%nat ->
  dmeas_dinstrument self x wl_hi rdn_hi = Ok (repeat [] (n_chan self)).
Proof.
  intros H. unfold dmeas_dinstrument. now rewrite H.
Qed.

(** C2.  With at least one state variable [dmeas_dinstrument] never returns a
    Jacobian: once the unperturbed measurement has been sampled,
    [range(self.statevec)] is handed a list and raises [TypeError], so no
    column is ever filled with a finite difference. *)
Theorem dmeas_dinstrument_raises_TypeError (self : Instrument) (x wl_hi : vector)
  (rdn_hi : ndarray) :
  n_state self <> 0%nat ->
  (forall J, dmeas_dinstrument self x wl_hi rdn_hi <> Ok J)
  /\ (forall meas, sample self x wl_hi rdn_hi = Ok meas ->
        dmeas_dinstrument self x wl_hi rdn_hi = Err TypeError).
Proof.
  intros Hn. unfold dmeas_dinstrument.
  destruct (Nat.eqb_spec (n_state self) 0); [contradiction|].
  split.
  - intros J. destruct (sample self x wl_hi rdn_hi); discriminate.
  - intros meas Hmeas. now rewrite Hmeas.
Qed.

End Jacobian.

Lemma dmeas_dinstrument_raises_TypeError_example :
  (forall J, dmeas_dinstrument (ext := example_collaborators)
               shift_instrument [0] fine_grid (Vec fine_radiance) <> Ok J)
  /\ (forall meas,
        sample (ext := example_collaborators)
          shift_instrument [0] fine_grid (Vec fine_radiance) = Ok meas ->
        dmeas_dinstrument (ext := example_collaborators)
          shift_instrument [0] fine_grid (Vec fine_radiance) = Err TypeError).
Proof.
  apply (dmeas_dinstrument_raises_TypeError (ext := example_collaborators)
           shift_instrument [0] fine_grid (Vec fine_radiance)).
  discriminate.
Defined.

(** The example evaluated: the two samples that the finite difference needs
    exist, and the call raises all the same. *)
Lemma dmeas_dinstrument_example_values :
  sample (ext := example_collaborators) shift_instrument [0] fine_grid
    (Vec fine_radiance) = Ok (Vec [(1 + 1) / 2; (1 + 1) / 2; (1 + 1) / 2])
  /\ sample (ext := example_collaborators) shift_instrument [0 + 1e-5] fine_grid
       (Vec fine_radiance) = Ok (Vec [(1 + 1) / 2; (1 + 1) / 2; (1 + 1) / 2])
  /\ dmeas_dinstrument (ext := example_collaborators) shift_instrument [0]
       fine_grid (Vec fine_radiance) = Err TypeError.
Proof.
  repeat split; reflexivity.
Qed.

(** ** Sampling *)

Section Sampling.

Context {ext : Collaborators}.

Lemma map2_forallb {A B C : Type} (f : A -> B -> C) (p : C -> bool)
  (l : list A) (l' : list B) (da : A) (db : B) :
  length l = length l' ->
  (forall i, (i < length l)%nat -> p (f (nth i l da) (nth i l' db)) = true) ->
  forallb p (map2 f l l') = true.
Proof.
  revert l'; induction l as [|a l IH]; intros [|b l'] Hlen Hall; simpl in *;
    try reflexivity; try discriminate.
  rewrite (Hall 0%nat) by lia. simpl.
  apply IH; [lia|]. intros i Hi. apply (Hall (S i)). lia.
Qed.

Lemma Rltb_true (x y : R) : x < y -> Rltb x y = true.
Proof.
  intros H. unfold Rltb. now destruct (Rlt_dec x y).
Qed.

Lemma Rltb_false (x y : R) : ~ x < y -> Rltb x y = false.
Proof.
  intros H. unfold Rltb. now destruct (Rlt_dec x y).
Qed.

Lemma sample_within_tolerance (self : Instrument) (x wl_hi : vector)
  (rdn_hi : ndarray) :
  calibration_fixed self = true ->
  length wl_hi = length (wl_init self) ->
  (forall i, (i < length wl_hi)%nat ->
     nth i (wl_init self) 0 - nth i wl_hi 0 < wl_tol) ->
  sample self x wl_hi rdn_hi = Ok rdn_hi.
Proof.
  intros Hfixed Hlen Hall. unfold sample. rewrite Hfixed.
  rewrite broadcast2_same_length by auto. cbn [bind].
  rewrite (map2_forallb _ _ _ _ 0 0); [reflexivity|auto|].
  intros i Hi. apply Rltb_true, Hall. lia.
Qed.

(** C7.  When the calibration is fixed, [sample] returns the radiance it was
    given, whatever the state and the radiance are, if the high-resolution
    grid is the instrument's own grid, and more generally if the two grids
    have the same length and every entry of [wl_init - wl_hi] is below
    [wl_tol = 0.01]. *)
Theorem sample_identity_when_fixed (self : Instrument) (x wl_hi : vector)
  (rdn_hi : ndarray) :
  calibration_fixed self = true ->
  wl_tol = 0.01
  /\ (wl_hi = wl_init self -> sample self x wl_hi rdn_hi = Ok rdn_hi)
  /\ (length wl_hi = length (wl_init self) ->
      (forall i, (i < length wl_hi)%nat ->
         nth i (wl_init self) 0 - nth i wl_hi 0 < wl_tol) ->
      sample self x wl_hi rdn_hi = Ok rdn_hi).
Proof.
  intros Hfixed. split; [reflexivity|]. split.
  - intros ->. apply sample_within_tolerance; auto.
    intros i _. unfold wl_tol. lra.
  - now apply sample_within_tolerance.
Qed.

End Sampling.

Lemma sample_identity_when_fixed_example :
  wl_tol = 0.01
  /\ ([500; 510; 520] = wl_init snr_instrument ->
      sample (ext := example_collaborators) snr_instrument [] [500; 510; 520]
        (Vec [0.2; 0.3; 0.4]) = Ok (Vec [0.2; 0.3; 0.4]))
  /\ (length [500; 510; 520] = length (wl_init snr_instrument) ->
      (forall i, (i < length [500; 510; 520])%nat ->
         nth i (wl_init snr_instrument) 0 - nth i [500; 510; 520] 0 < wl_tol) ->
      sample (ext := example_collaborators) snr_instrument [] [500; 510; 520]
        (Vec [0.2; 0.3; 0.4]) = Ok (Vec [0.2; 0.3; 0.4])).
Proof.
  apply (sample_identity_when_fixed (ext := example_collaborators)
           snr_instrument [] [500; 510; 520] (Vec [0.2; 0.3; 0.4])).
  reflexivity.
Defined.

(** The test has no absolute value: a grid that lies above the instrument's
    by more than the tolerance also takes the short cut. *)
Lemma sample_identity_grid_above :
  sample (ext := example_collaborators) snr_instrument [] [600; 610; 620]
    (Vec [0.2; 0.3; 0.4]) = Ok (Vec [0.2; 0.3; 0.4]).
Proof.
  apply sample_within_tolerance; [reflexivity|reflexivity|].
  intros i Hi. unfold wl_tol.
  destruct i as [|[|[|i]]]; simpl in *; try lra; lia.
Qed.

(** A grid that lies below the instrument's by more than the tolerance is
    resampled. *)
Lemma sample_resamples_grid_below :
  sample (ext := example_collaborators) snr_instrument [] [400; 410; 420]
    (Vec [0.2; 0.3; 0.4])
  = Ok (Vec [(0.2 + 0.4) / 2; (0.2 + 0.4) / 2; (0.2 + 0.4) / 2]).
Proof.
  unfold sample. cbn.
  rewrite (Rltb_false (500 - 400) wl_tol) by (unfold wl_tol; lra).
  reflexivity.
Qed.

(** ** Reshaping *)

Lemma chunks_length {A : Type} (size count : nat) (l : list A) :
  length (chunks size count l) = count.
Proof.
  revert l; induction count as [|count IH]; intros l; simpl; auto.
Qed.

Lemma chunks_rows {A : Type} (size count : nat) (l : list A) :
  length l = (count * size)%nat ->
  Forall (fun c => length c = size) (chunks size count l).
Proof.
  revert l; induction count as [|count IH]; intros l Hlen; simpl; constructor.
  - rewrite length_firstn. simpl in Hlen. lia.
  - apply IH. rewrite length_skipn. simpl in Hlen. lia.
Qed.

Lemma chunks_concat {A : Type} (size count : nat) (l : list A) :
  length l = (count * size)%nat ->
  concat (chunks size count l) = l.
Proof.
  revert l; induction count as [|count IH]; intros l Hlen; simpl.
  - simpl in Hlen. now destruct l.
  - rewrite IH by (rewrite length_skipn; simpl in Hlen; lia).
    apply firstn_skipn.
Qed.

(** A flat array of [a * b * b] numbers reshapes to [a] matrices of [b] by
    [b], and flattening them again gives the array back. *)
Lemma reshape3_ok (a b : nat) (flat : vector) :
  length flat = (a * b * b)%nat ->
  exists covs,
    reshape3 a b b flat = Ok covs
    /\ length covs = a
    /\ well_shaped b covs
    /\ concat (concat covs) = flat.
Proof.
  intros Hlen. unfold reshape3. rewrite Hlen, Nat.eqb_refl.
  eexists. split; [reflexivity|].
  assert (Hflat : length flat = (a * (b * b))%nat) by lia.
  pose proof (chunks_rows (b * b) a flat Hflat) as Hslices.
  split; [now rewrite length_map, chunks_length|]. split.
  - unfold well_shaped. apply Forall_map.
    eapply Forall_impl; [|exact Hslices].
    intros slice Hslice. split; [apply chunks_length|].
    now apply chunks_rows.
  - rewrite <- (chunks_concat (b * b) a flat Hflat) at 2.
    induction Hslices as [|slice slices Hslice _ IH]; [reflexivity|].
    simpl. rewrite concat_app, IH. f_equal.
    now apply chunks_concat.
Qed.

(** ** The band count *)

(** The test [n_chan != sqrt(bands)] fires exactly when [bands] is not
    [n_chan^2]. *)
Lemma band_mismatch_iff (n : nat) (b : Z) :
  band_mismatch n b = true <-> b <> Z.of_nat (n * n).
Proof.
  unfold band_mismatch.
  destruct (Z.ltb_spec b 0) as [Hneg|Hpos].
  - split; [intros _; lia|reflexivity].
  - destruct (Req_dec_T (INR n) (sqrt (IZR b))) as [Heq|Hne].
    + split; [discriminate|]. intros Hb. exfalso. apply Hb.
      apply eq_IZR. rewrite <- (sqrt_sqrt (IZR b)) by (apply IZR_le; exact Hpos).
      rewrite <- Heq, Nat2Z.inj_mul, mult_IZR. now rewrite <- INR_IZR_INZ.
    + split; [|reflexivity]. intros _ Hb. apply Hne.
      rewrite Hb, Nat2Z.inj_mul, mult_IZR, <- INR_IZR_INZ.
      symmetry. apply sqrt_square, pos_INR.
Qed.

Lemma band_mismatch_sqrt (n : nat) (b : Z) :
  (0 <= b)%Z -> (band_mismatch n b = true <-> INR n <> sqrt (IZR b)).
Proof.
  intros Hb. unfold band_mismatch.
  destruct (Z.ltb_spec b 0); [lia|].
  destruct (Req_dec_T (INR n) (sqrt (IZR b))); split; intros; try tauto; discriminate.
Qed.

Lemma endswith_mat_not_txt (s : string) :
  endswith s ".mat" = true -> endswith s ".txt" = false.
Proof.
  unfold endswith. cbn [String.length].
  destruct (4 <=? String.length s)%nat; [|reflexivity]. cbn [andb].
  intros H. apply String.eqb_eq in H. now rewrite H.
Qed.

Section PushbroomConstruction.

Context {ext : Collaborators}.

Lemma init_pushbroom_mismatch (config : Config.t) (file path : string)
  (wl fwhm : vector) (D : MatFile) :
  Config.wavelength_file config = Some file ->
  load_wavelen file = Ok (wl, fwhm) ->
  Config.SNR config = None ->
  Config.noise_file config = Some path ->
  endswith path ".mat" = true ->
  loadmat path = Ok D ->
  bands D <> Z.of_nat (length wl * length wl) ->
  __init__ config = Err ValueError.
Proof.
  intros Hfile Hload Hsnr Hnoise Hmat HD Hbands.
  pose proof (endswith_mat_not_txt path Hmat) as Htxt.
  apply band_mismatch_iff in Hbands.
  unfold __init__. rewrite Hfile. cbn [getitem bind]. rewrite Hload. cbn [bind].
  unfold init_noise. rewrite Hsnr, Hnoise. cbn [getitem bind].
  rewrite Htxt, Hmat, HD. cbn [bind]. now rewrite Hbands.
Qed.

Lemma init_pushbroom_match (config : Config.t) (file path : string)
  (wl fwhm : vector) (D : MatFile) (k : R) (bv : vector) :
  Config.wavelength_file config = Some file ->
  load_wavelen file = Ok (wl, fwhm) ->
  Config.SNR config = None ->
  Config.noise_file config = Some path ->
  endswith path ".mat" = true ->
  loadmat path = Ok D ->
  bands D = Z.of_nat (length wl * length wl) ->
  length (covariances D) = (columns D * length wl * length wl)%nat ->
  Config.integrations config = Some k ->
  init_bval config (length wl) = Ok bv ->
  exists (self : Instrument) (covs : list matrix),
    __init__ config = Ok self
    /\ n_chan self = length wl
    /\ model_type self = Some (pushbroom (columns D) covs)
    /\ length covs = columns D
    /\ well_shaped (n_chan self) covs
    /\ concat (concat covs) = covariances D.
Proof.
  intros Hfile Hload Hsnr Hnoise Hmat HD Hbands Hlen Hk Hbv.
  pose proof (endswith_mat_not_txt path Hmat) as Htxt.
  assert (Hmatch : band_mismatch (length wl) (bands D) = false).
  { destruct (band_mismatch (length wl) (bands D)) eqn:E; [|reflexivity].
    apply band_mismatch_iff in E. contradiction. }
  destruct (reshape3_ok (columns D) (length wl) (covariances D) Hlen)
    as (covs & Hreshape & Hcols & Hshape & Hflat).
  eexists. exists covs. split.
  - unfold __init__. rewrite Hfile. cbn [getitem bind]. rewrite Hload. cbn [bind].
    unfold init_noise. rewrite Hsnr, Hnoise. cbn [getitem bind].
    rewrite Htxt, Hmat, HD. cbn [bind]. rewrite Hmatch, Hreshape. cbn [bind].
    rewrite Hk. cbn [getitem bind]. rewrite Hbv. cbn [bind]. reflexivity.
  - cbn. auto.
Qed.

(** C8.  For a configuration without [SNR] whose noise file is a matrix
    container: if the declared band count differs from [n_chan^2] the
    constructor raises [ValueError] and no object is built; if it equals
    [n_chan^2] and the container holds [columns * n_chan * n_chan]
    covariances, then, the number of integrations being configured and the
    bias magnitudes being assembled, the constructor returns an object under
    the pushbroom model whose covariance stack has [columns] slices of
    [n_chan] by [n_chan], holding the container's numbers in row-major
    order. *)
Theorem init_pushbroom_band_count (config : Config.t) (file path : string)
  (wl fwhm : vector) (D : MatFile) :
  Config.wavelength_file config = Some file ->
  load_wavelen file = Ok (wl, fwhm) ->
  Config.SNR config = None ->
  Config.noise_file config = Some path ->
  endswith path ".mat" = true ->
  loadmat path = Ok D ->
  (bands D <> Z.of_nat (length wl * length wl) ->
     __init__ config = Err ValueError)
  /\ (bands D = Z.of_nat (length wl * length wl) ->
      length (covariances D) = (columns D * length wl * length wl)%nat ->
      forall (k : R) (bv : vector),
        Config.integrations config = Some k ->
        init_bval config (length wl) = Ok bv ->
        exists (self : Instrument) (covs : list matrix),
          __init__ config = Ok self
          /\ n_chan self = length wl
          /\ model_type self = Some (pushbroom (columns D) covs)
          /\ length covs = columns D
          /\ well_shaped (n_chan self) covs
          /\ concat (concat covs) = covariances D).
Proof.
  intros Hfile Hload Hsnr Hnoise Hmat HD. split.
  - now apply (init_pushbroom_mismatch config file path wl fwhm D).
  - intros Hbands Hlen k bv Hk Hbv.
    now apply (init_pushbroom_match config file path wl fwhm D k bv).
Qed.

End PushbroomConstruction.

Lemma init_pushbroom_band_count_example :
  (bands nine_bands <> Z.of_nat (length [500; 510; 520] * length [500; 510; 520]) ->
     __init__ (ext := example_collaborators) (pushbroom_config "nine_bands.mat")
     = Err ValueError)
  /\ (bands nine_bands = Z.of_nat (length [500; 510; 520] * length [500; 510; 520]) ->
      length (covariances nine_bands)
      = (columns nine_bands * length [500; 510; 520] * length [500; 510; 520])%nat ->
      forall (k : R) (bv : vector),
        Config.integrations (pushbroom_config "nine_bands.mat") = Some k ->
        init_bval (ext := example_collaborators) (pushbroom_config "nine_bands.mat")
          (length [500; 510; 520]) = Ok bv ->
        exists (self : Instrument) (covs : list matrix),
          __init__ (ext := example_collaborators) (pushbroom_config "nine_bands.mat")
          = Ok self
          /\ n_chan self = length [500; 510; 520]
          /\ model_type self = Some (pushbroom (columns nine_bands) covs)
          /\ length covs = columns nine_bands
          /\ well_shaped (n_chan self) covs
          /\ concat (concat covs) = covariances nine_bands).
Proof.
  apply (init_pushbroom_band_count (ext := example_collaborators)
           (pushbroom_config "nine_bands.mat") "wavelengths.txt" "nine_bands.mat"
           [500; 510; 520] [10; 10; 10] nine_bands);
    reflexivity.
Defined.

(** The two containers of the example: nine bands for three channels build an
    object with two slices of ones, four bands abort the construction. *)
Lemma init_pushbroom_nine_bands :
  option_map model_type
    (match __init__ (ext := example_collaborators) (pushbroom_config "nine_bands.mat") with
     | Ok self => Some self
     | Err _ => None
     end)
  = Some (Some (pushbroom 2 [ [[1; 1; 1]; [1; 1; 1]; [1; 1; 1]];
                              [[1; 1; 1]; [1; 1; 1]; [1; 1; 1]] ])).
Proof.
  assert (Hmatch : band_mismatch 3 9 = false).
  { destruct (band_mismatch 3 9) eqn:E; [|reflexivity].
    apply band_mismatch_iff in E. now contradiction E. }
  unfold __init__. cbn -[band_mismatch]. rewrite Hmatch. reflexivity.
Qed.

Lemma init_pushbroom_four_bands :
  __init__ (ext := example_collaborators) (pushbroom_config "four_bands.mat")
  = Err ValueError.
Proof.
  apply (init_pushbroom_mismatch (ext := example_collaborators)
           (pushbroom_config "four_bands.mat") "wavelengths.txt" "four_bands.mat"
           [500; 510; 520] [10; 10; 10] four_bands);
    try reflexivity.
  simpl. lia.
Qed.

(** ** The bias magnitudes *)

Lemma py_pos_last_but_one (n : nat) : py_pos (n + 2) (-2) = Ok n.
Proof.
  unfold py_pos. cbn [Z.ltb Z.compare].
  destruct (Z.leb_spec 0 (-2 + Z.of_nat (n + 2))); [|lia].
  destruct (Z.ltb_spec (-2 + Z.of_nat (n + 2)) (Z.of_nat (n + 2))); [|lia].
  cbn [andb]. f_equal. lia.
Qed.

Lemma py_pos_last (n : nat) : py_pos (n + 2) (-1) = Ok (n + 1)%nat.
Proof.
  unfold py_pos. cbn [Z.ltb Z.compare].
  destruct (Z.leb_spec 0 (-1 + Z.of_nat (n + 2))); [|lia].
  destruct (Z.ltb_spec (-1 + Z.of_nat (n + 2)) (Z.of_nat (n + 2))); [|lia].
  cbn [andb]. f_equal. lia.
Qed.

Lemma py_index_last_but_one (v : vector) (n : nat) :
  length v = (n + 2)%nat -> py_index v (-2) = Ok (nth n v 0).
Proof.
  intros Hlen. unfold py_index. rewrite Hlen, py_pos_last_but_one. cbn [bind].
  now rewrite (nth_error_nth' v 0) by lia.
Qed.

Lemma py_index_last (v : vector) (n : nat) :
  length v = (n + 2)%nat -> py_index v (-1) = Ok (nth (n + 1) v 0).
Proof.
  intros Hlen. unfold py_index. rewrite Hlen, py_pos_last. cbn [bind].
  now rewrite (nth_error_nth' v 0) by lia.
Qed.

Lemma lookup_mem {A : Type} (k : string) (d : list (string * A)) (a : A) :
  lookup k d = Some a -> mem k (map fst d) = true.
Proof.
  unfold mem. induction d as [|[k' a'] d IH]; simpl; [discriminate|].
  destruct (String.eqb k k'); [reflexivity|exact IH].
Qed.

Section Bias.

Context {ext : Collaborators}.

Lemma accumulate_length (rad : vector) (u : ndarray) (s : vector) :
  accumulate rad u = Ok s -> length s = length rad.
Proof.
  unfold accumulate. destruct u as [r|v|rows].
  - intros H. injection H as <-. apply length_map.
  - intros H. inv_bind H.
    destruct (Nat.eqb_spec (length a) (length rad)); [|discriminate].
    now injection H as <-.
  - destruct rows as [|[|x [|y row]] [|row' rows]]; try discriminate.
    intros H. injection H as <-. apply length_map.
Qed.

(** The loop over the unknowns writes to [bval[:n_chan]] only. *)
Lemma rss_loop_frame (n : nat) (items : list (string * Config.unknown))
  (bv bv' : vector) :
  length bv = (n + 2)%nat ->
  rss_loop n items bv = Ok bv' ->
  length bv' = (n + 2)%nat /\ skipn n bv' = skipn n bv.
Proof.
  revert bv; induction items as [|[key val] items IH]; intros bv Hlen H;
    cbn [rss_loop] in H.
  - injection H as <-. auto.
  - destruct (mem key special_unknowns); [now apply IH|].
    inv_bind H. inv_bind H.
    apply accumulate_length in Ha0. rewrite length_firstn in Ha0.
    assert (Hs : length a0 = n) by lia.
    destruct (IH (a0 ++ skipn n bv)) as [Hlen' Hskip]; auto.
    + rewrite length_app, length_skipn. lia.
    + split; [exact Hlen'|]. rewrite Hskip.
      rewrite skipn_app, Hs, Nat.sub_diag.
      rewrite skipn_all2 by lia. reflexivity.
Qed.

Lemma assign_scalar_spec (bv bv' : vector) (n : nat) (k : Z) (c : nat)
  (val : Config.unknown) :
  length bv = (n + 2)%nat ->
  py_pos (n + 2) k = Ok c ->
  (c < n + 2)%nat ->
  assign_scalar bv k val = Ok bv' ->
  exists v, val = Config.Value v
            /\ length bv' = (n + 2)%nat
            /\ nth c bv' 0 = v
            /\ forall j, j <> c -> nth j bv' 0 = nth j bv 0.
Proof.
  intros Hlen Hpos Hc H. unfold assign_scalar in H.
  destruct val as [path|v]; [discriminate|].
  rewrite Hlen, Hpos in H. cbn [bind] in H. injection H as <-.
  exists v. split; [reflexivity|]. split; [now rewrite set_nth_length|]. split.
  - apply set_nth_same. lia.
  - intros j Hj. apply set_nth_other. auto.
Qed.

Lemma nth_skipn_zero (n : nat) (bv : vector) (j : nat) :
  skipn n bv = skipn n (zeros (n + 2)) -> (n <= j)%nat -> nth j bv 0 = 0.
Proof.
  intros Hskip Hj.
  replace j with (n + (j - n))%nat by lia.
  rewrite <- nth_skipn, Hskip, nth_skipn. apply zeros_nth.
Qed.

(** The state of [bval] after the loop and the square root: the two scalar
    slots are still zero. *)
Lemma init_bval_inv (config : Config.t) (n : nat)
  (unknowns : list (string * Config.unknown)) (bv : vector) :
  Config.unknowns config = Some unknowns ->
  init_bval config n = Ok bv ->
  exists b1 b2 : vector,
    length b1 = (n + 2)%nat /\ nth n b1 0 = 0 /\ nth (n + 1) b1 0 = 0
    /\ (if mem "wavelength_calibration_uncertainty" (map fst unknowns) then
          val <- getitem (lookup "wavelength_calibration_uncertainty" unknowns) ;;
          assign_scalar b1 (-2) val
        else Ok b1) = Ok b2
    /\ (if Config.contains config "stray_srf_uncertainty" then
          val <- getitem (lookup "stray_srf_uncertainty" unknowns) ;;
          assign_scalar b2 (-1) val
        else Ok b2) = Ok bv.
Proof.
  intros Hunk H. unfold init_bval in H. rewrite Hunk in H.
  inv_bind H. inv_bind H.
  destruct (rss_loop_frame n unknowns (zeros (n + 2)) a) as [Hlen Hskip];
    auto using zeros_length.
  set (b1 := map sqrt (firstn n a) ++ skipn n a) in *.
  assert (Hlen1 : length b1 = (n + 2)%nat).
  { unfold b1. rewrite length_app, length_map, length_firstn, length_skipn. lia. }
  assert (Hhigh : forall j, (n <= j)%nat -> nth j b1 0 = 0).
  { intros j Hj. unfold b1.
    rewrite app_nth2 by (rewrite length_map, length_firstn; lia).
    rewrite length_map, length_firstn, Nat.min_l by lia.
    rewrite nth_skipn. apply (nth_skipn_zero n); [exact Hskip|lia]. }
  exists b1, a0. repeat split; auto. apply Hhigh. lia.
Qed.

(** The half of the intent that the constructor meets: a
    wavelength-calibration uncertainty among the unknowns is copied to
    [bval[n_chan]], and the slot stays zero without one. *)
Lemma init_bval_spectral (config : Config.t) (n : nat)
  (unknowns : list (string * Config.unknown)) (bv : vector) :
  Config.unknowns config = Some unknowns ->
  init_bval config n = Ok bv ->
  length bv = (n + 2)%nat
  /\ (forall v, lookup "wavelength_calibration_uncertainty" unknowns
                = Some (Config.Value v) -> nth n bv 0 = v)
  /\ (lookup "wavelength_calibration_uncertainty" unknowns = None -> nth n bv 0 = 0).
Proof.
  intros Hunk H.
  destruct (init_bval_inv config n unknowns bv Hunk H)
    as (b1 & b2 & Hlen1 & Hn & Hn1 & H2 & H3).
  assert (Hb2 : length b2 = (n + 2)%nat
                /\ (forall v, lookup "wavelength_calibration_uncertainty" unknowns
                              = Some (Config.Value v) -> nth n b2 0 = v)
                /\ (lookup "wavelength_calibration_uncertainty" unknowns = None ->
                    nth n b2 0 = 0)).
  { destruct (mem "wavelength_calibration_uncertainty" (map fst unknowns)) eqn:Hmem.
    - inv_bind H2.
      destruct (lookup "wavelength_calibration_uncertainty" unknowns) as [val|] eqn:Hl;
        [|discriminate].
      injection Ha as <-.
      destruct (assign_scalar_spec b1 b2 n (-2) n val Hlen1
                  (py_pos_last_but_one n) ltac:(lia) H2)
        as (v & -> & Hlen2 & Hv & _).
      split; [exact Hlen2|]. split; [|discriminate].
      intros v' Hv'. congruence.
    - injection H2 as <-. split; [exact Hlen1|]. split; [|auto].
      intros v Hv. apply lookup_mem in Hv. congruence. }
  destruct Hb2 as (Hlen2 & Hsome & Hnone).
  destruct (Config.contains config "stray_srf_uncertainty").
  - inv_bind H3.
    destruct (assign_scalar_spec b2 bv n (-1) (n + 1) a Hlen2
                (py_pos_last n) ltac:(lia) H3)
      as (v & -> & Hlen3 & _ & Hother).
    split; [exact Hlen3|].
    split; intros; rewrite Hother by lia; auto.
  - injection H3 as <-. auto.
Qed.

(** The stray-light slot is written only when the key is found in the
    top-level dictionary. *)
Lemma init_bval_stray_untouched (config : Config.t) (n : nat)
  (unknowns : list (string * Config.unknown)) (bv : vector) :
  Config.unknowns config = Some unknowns ->
  Config.contains config "stray_srf_uncertainty" = false ->
  init_bval config n = Ok bv ->
  length bv = (n + 2)%nat /\ nth (n + 1) bv 0 = 0.
Proof.
  intros Hunk Htop H.
  destruct (init_bval_inv config n unknowns bv Hunk H)
    as (b1 & b2 & Hlen1 & Hn & Hn1 & H2 & H3).
  rewrite Htop in H3. injection H3 as <-.
  destruct (mem "wavelength_calibration_uncertainty" (map fst unknowns)).
  - inv_bind H2.
    destruct (assign_scalar_spec b1 b2 n (-2) n a Hlen1
                (py_pos_last_but_one n) ltac:(lia) H2)
      as (v & -> & Hlen2 & _ & Hother).
    split; [exact Hlen2|]. rewrite Hother by lia. exact Hn1.
  - injection H2 as <-. auto.
Qed.

(** C9.  When the stray-light uncertainty is given in the [unknowns] section,
    and the top-level dictionary has no key of that name, the constructor
    leaves [bval[n_chan + 1]] at zero: the test at line 107 looks the key up in
    [config], not in [config['unknowns']].  The value is not copied. *)
Theorem init_drops_stray_srf_uncertainty (config : Config.t)
  (unknowns : list (string * Config.unknown)) (v : R) (self : Instrument) :
  Config.unknowns config = Some unknowns ->
  lookup "stray_srf_uncertainty" unknowns = Some (Config.Value v) ->
  Config.contains config "stray_srf_uncertainty" = false ->
  __init__ config = Ok self ->
  length (bval self) = (n_chan self + 2)%nat
  /\ nth (n_chan self + 1) (bval self) 0 = 0
  /\ py_index (bval self) (-1) = Ok 0.
Proof.
  intros Hunk Hstray Htop Hinit.
  destruct (init_inv config self Hinit)
    as (file & wl & fwhm & nf & mt & k & bv & H).
  decompose [and] H. clear H.
  match goal with
  | Hb : init_bval config (length wl) = Ok bv,
    Hn : n_chan self = length wl,
    Hv : bval self = bv |- _ =>
      rewrite Hv, Hn;
      destruct (init_bval_stray_untouched config (length wl) unknowns bv Hunk Htop Hb)
        as [Hlen Hzero]
  end.
  repeat split; auto.
  rewrite (py_index_last bv (length wl)) by exact Hlen. now rewrite Hzero.
Qed.

End Bias.

Lemma stray_instrument_constructed :
  __init__ (ext := example_collaborators) stray_config = Ok stray_instrument.
Proof. reflexivity. Qed.

Lemma init_drops_stray_srf_uncertainty_example :
  lookup "stray_srf_uncertainty"
    [("wavelength_calibration_uncertainty", Config.Value 0.02);
     ("stray_srf_uncertainty", Config.Value 0.01)] = Some (Config.Value 0.01)
  /\ length (bval stray_instrument) = (n_chan stray_instrument + 2)%nat
  /\ nth (n_chan stray_instrument + 1) (bval stray_instrument) 0 = 0
  /\ py_index (bval stray_instrument) (-1) = Ok 0.
Proof.
  split; [reflexivity|].
  apply (init_drops_stray_srf_uncertainty (ext := example_collaborators)
           stray_config
           [("wavelength_calibration_uncertainty", Config.Value 0.02);
            ("stray_srf_uncertainty", Config.Value 0.01)]
           0.01 stray_instrument); reflexivity.
Defined.

(** What the constructor builds in the example: the stray-light value has gone
    into the radiometric slots by root-sum-square, the wavelength-calibration
    value is in its slot, and the stray-light slot is zero. *)
Lemma stray_instrument_bval :
  bval stray_instrument = [0.01; 0.01; 0.01; 0.02; 0].
Proof.
  assert (H : sqrt (0 + (1 * 0.01) ^ 2) = 0.01).
  { replace (0 + (1 * 0.01) ^ 2) with (0.01 * 0.01) by (simpl; lra).
    apply sqrt_square. lra. }
  unfold stray_instrument. cbn [bval]. now rewrite H.
Qed.

(** ** The Jacobian of the fixed biases *)

Lemma col_written_map (c : nat) (r : R) (J : matrix) :
  col_written c J (map (fun row => set_nth row c r) J).
Proof.
  split; [apply length_map|]. intros i j Hj. unfold get.
  destruct (Nat.lt_ge_cases i (length J)) as [Hi|Hi].
  - rewrite (nth_map_lt _ _ i _ []) by exact Hi. now apply set_nth_other.
  - rewrite !(nth_overflow _ []) by (rewrite ?length_map; exact Hi). reflexivity.
Qed.

Lemma col_written_map2 (c : nat) (v : vector) (J : matrix) :
  length v = length J ->
  col_written c J (map2 (fun row r => set_nth row c r) J v).
Proof.
  intros Hlen. split; [rewrite map2_length; lia|]. intros i j Hj. unfold get.
  destruct (Nat.lt_ge_cases i (length J)) as [Hi|Hi].
  - rewrite (map2_nth _ _ _ i [] 0 []) by lia. now apply set_nth_other.
  - rewrite !(nth_overflow _ []) by (rewrite ?map2_length; lia). reflexivity.
Qed.

Lemma assign_col_written (ncols : nat) (J J' : matrix) (k : Z) (value : ndarray) :
  assign_col ncols J k value = Ok J' ->
  exists c, py_pos ncols k = Ok c /\ col_written c J J'.
Proof.
  unfold assign_col. intros H. inv_bind H. exists a. split; [exact Ha|].
  destruct value as [r|v|rows].
  - injection H as <-. apply col_written_map.
  - destruct v as [|r [|r' v]].
    + destruct (Nat.eqb_spec (length (@nil R)) (length J)) as [Hlen|]; [|discriminate].
      injection H as <-. now apply col_written_map2.
    + injection H as <-. apply col_written_map.
    + destruct (Nat.eqb_spec (length (r :: r' :: v)) (length J)) as [Hlen|];
        [|discriminate].
      injection H as <-. now apply col_written_map2.
  - destruct rows as [|row rows]; [discriminate|].
    destruct row as [|r [|r' row]]; destruct rows as [|row' rows];
      try discriminate.
    + destruct (Nat.eqb_spec (length (@nil R)) (length J)) as [Hlen|]; [|discriminate].
      injection H as <-. now apply col_written_map2.
    + injection H as <-. apply col_written_map.
    + destruct (Nat.eqb_spec (length (r :: r' :: row)) (length J)) as [Hlen|];
        [|discriminate].
      injection H as <-. now apply col_written_map2.
Qed.

(** A 1-d value with one entry per row can always be assigned. *)
Lemma assign_col_Vec (ncols : nat) (J : matrix) (k : Z) (c : nat) (v : vector) :
  py_pos ncols k = Ok c ->
  length v = length J ->
  exists J', assign_col ncols J k (Vec v) = Ok J'.
Proof.
  intros Hpos Hlen. unfold assign_col. rewrite Hpos. cbn [bind].
  destruct v as [|r [|r' v]]; [|eauto|]; rewrite Hlen, Nat.eqb_refl; eauto.
Qed.

Lemma hstack_diag (v : vector) (n : nat) (J : matrix) :
  hstack (diagflat v) (zeros2 n 2) = Ok J ->
  length v = n
  /\ length J = n
  /\ (forall i j, (i < n)%nat -> (j < n)%nat ->
        get J i j = if (i =? j)%nat then nth i v 0 else 0)
  /\ (forall i j, (i < n)%nat -> (n <= j)%nat -> get J i j = 0).
Proof.
  unfold hstack. rewrite diagflat_length, zeros2_length.
  destruct (Nat.eqb_spec (length v) n) as [Hlen|]; [|discriminate].
  intros H. injection H as <-.
  assert (Hrow : forall i, (i < n)%nat ->
             nth i (map2 (@app R) (diagflat v) (zeros2 n 2)) []
             = nth i (diagflat v) [] ++ zeros 2).
  { intros i Hi.
    rewrite (map2_nth _ _ _ i [] [] [])
      by (rewrite ?diagflat_length, ?zeros2_length; lia).
    f_equal. unfold zeros2. now apply nth_repeat_lt. }
  assert (Hwidth : forall i, (i < n)%nat -> length (nth i (diagflat v) []) = n).
  { intros i Hi. pose proof (diagflat_rows v) as Hall. rewrite Forall_forall in Hall.
    rewrite <- Hlen. apply Hall, nth_In. rewrite diagflat_length. lia. }
  split; [exact Hlen|]. split.
  { rewrite map2_length, diagflat_length, zeros2_length. lia. }
  split.
  - intros i j Hi Hj. unfold get. rewrite Hrow by exact Hi.
    rewrite app_nth1 by (rewrite Hwidth; lia).
    apply diagflat_get; lia.
  - intros i j Hi Hj. unfold get. rewrite Hrow by exact Hi.
    rewrite app_nth2 by (rewrite Hwidth; lia).
    apply zeros_nth.
Qed.

Lemma hstack_diag_ok (v : vector) (n : nat) :
  length v = n -> exists J, hstack (diagflat v) (zeros2 n 2) = Ok J.
Proof.
  intros Hlen. unfold hstack.
  rewrite diagflat_length, zeros2_length, Hlen, Nat.eqb_refl. eauto.
Qed.

Lemma Rgtb_false (x y : R) : ~ x > y -> Rgtb x y = false.
Proof.
  intros H. unfold Rgtb. apply Rltb_false. exact H.
Qed.

Section BiasJacobian.

Context {ext : Collaborators}.

(** Whenever [dmeas_dinstrumentb] returns, for any state, grid and radiance:
    the measurement has one entry per channel, the leading square block of the
    result is the diagonal matrix of the measurement, and each of the two
    trailing columns is zero unless its bias magnitude exceeds [1e-6]. *)
Lemma dmeas_dinstrumentb_columns (self : Instrument) (x wl_hi : vector)
  (rdn_hi meas : ndarray) (J : matrix) :
  length (bval self) = (n_chan self + 2)%nat ->
  sample self x wl_hi rdn_hi = Ok meas ->
  dmeas_dinstrumentb self x wl_hi rdn_hi = Ok J ->
  length (ravel meas) = n_chan self
  /\ length J = n_chan self
  /\ (forall i j, (i < n_chan self)%nat -> (j < n_chan self)%nat ->
        get J i j = if (i =? j)%nat then nth i (ravel meas) 0 else 0)
  /\ (~ nth (n_chan self) (bval self) 0 > 1e-6 ->
      forall i, (i < n_chan self)%nat -> get J i (n_chan self) = 0)
  /\ (~ nth (n_chan self + 1) (bval self) 0 > 1e-6 ->
      forall i, (i < n_chan self)%nat -> get J i (n_chan self + 1) = 0).
Proof.
  intros Hbval Hmeas H. unfold dmeas_dinstrumentb in H.
  rewrite Hmeas in H. cbn [bind] in H.
  inv_bind H. rename a into J0.
  destruct (hstack_diag _ _ _ Ha) as (Hlen & HJ0 & Hdiag & Hzero).
  rewrite (py_index_last_but_one _ _ Hbval) in H. cbn [bind] in H.
  inv_bind H. rename a into J1.
  rewrite (py_index_last _ _ Hbval) in H. cbn [bind] in H.
  inv_bind H. rename a into J2. injection H as <-.
  set (n := n_chan self) in *.
  assert (H1 : length J1 = n
               /\ (forall i j, j <> n -> get J1 i j = get J0 i j)
               /\ (~ nth n (bval self) 0 > 1e-6 -> J1 = J0)).
  { destruct (Rgtb (nth n (bval self) 0) 1e-6) eqn:E.
    - inv_bind Ha0. inv_bind Ha0.
      destruct (assign_col_written _ _ _ _ _ Ha0) as (c & Hc & Hw1 & Hw2).
      rewrite py_pos_last_but_one in Hc. injection Hc as <-.
      repeat split; [lia|exact Hw2|].
      intros Hle. rewrite Rgtb_false in E by exact Hle. discriminate.
    - injection Ha0 as <-. auto. }
  destruct H1 as (HJ1 & Hframe1 & Hskip1).
  assert (H2 : length J2 = n
               /\ (forall i j, j <> (n + 1)%nat -> get J2 i j = get J1 i j)
               /\ (~ nth (n + 1) (bval self) 0 > 1e-6 -> J2 = J1)).
  { destruct (Rgtb (nth (n + 1) (bval self) 0) 1e-6) eqn:E.
    - inv_bind Ha1. inv_bind Ha1.
      destruct (assign_col_written _ _ _ _ _ Ha1) as (c & Hc & Hw1 & Hw2).
      rewrite py_pos_last in Hc. injection Hc as <-.
      repeat split; [lia|exact Hw2|].
      intros Hle. rewrite Rgtb_false in E by exact Hle. discriminate.
    - injection Ha1 as <-. auto. }
  destruct H2 as (HJ2 & Hframe2 & Hskip2).
  repeat split; auto.
  - intros i j Hi Hj. rewrite Hframe2, Hframe1 by lia. now apply Hdiag.
  - intros Hle i Hi. rewrite Hframe2 by lia. rewrite (Hskip1 Hle).
    apply Hzero; lia.
  - intros Hle i Hi. rewrite (Hskip2 Hle). rewrite Hframe1 by lia.
    apply Hzero; lia.
Qed.

(** With a measurement, a resampled first difference and a convolution of one
    entry per channel each, [dmeas_dinstrumentb] returns. *)
Lemma dmeas_dinstrumentb_returns (self : Instrument) (x wl_hi r m d : vector) :
  length (bval self) = (n_chan self + 2)%nat ->
  sample self x wl_hi (Vec r) = Ok (Vec m) ->
  length m = n_chan self ->
  sample self x wl_hi (Vec (diff r ++ [0])) = Ok (Vec d) ->
  length d = n_chan self ->
  length (convolve m (srf (arange (-10) 11) 0 4)) = n_chan self ->
  exists J, dmeas_dinstrumentb self x wl_hi (Vec r) = Ok J.
Proof.
  intros Hbval Hm Hlenm Hd Hlend Hconv. unfold dmeas_dinstrumentb.
  rewrite Hm. cbn [bind ravel].
  destruct (hstack_diag_ok m (n_chan self) Hlenm) as [J0 HJ0].
  rewrite HJ0. cbn [bind].
  destruct (hstack_diag _ _ _ HJ0) as (_ & HlenJ0 & _).
  rewrite (py_index_last_but_one _ _ Hbval). cbn [bind].
  assert (H1 : exists J1,
             (if Rgtb (nth (n_chan self) (bval self) 0) 1e-6
              then d0 <- diff_pad (Vec r) ;;
                   column <- sample self x wl_hi d0 ;;
                   assign_col (n_chan self + 2) J0 (-2) column
              else Ok J0) = Ok J1 /\ length J1 = n_chan self).
  { destruct (Rgtb (nth (n_chan self) (bval self) 0) 1e-6); [|eauto].
    cbn [diff_pad bind]. rewrite Hd. cbn [bind].
    destruct (assign_col_Vec (n_chan self + 2) J0 (-2) (n_chan self) d
                (py_pos_last_but_one _) ltac:(lia)) as [J1 HJ1].
    exists J1. split; [exact HJ1|].
    destruct (assign_col_written _ _ _ _ _ HJ1) as (c & _ & Hw & _). lia. }
  destruct H1 as (J1 & HJ1 & HlenJ1). rewrite HJ1. cbn [bind].
  rewrite (py_index_last _ _ Hbval). cbn [bind].
  destruct (Rgtb (nth (n_chan self + 1) (bval self) 0) 1e-6); [|cbn [bind]; eauto].
  cbn [convolve_same bind nd_zip].
  rewrite broadcast2_same_length by lia. cbn [bind].
  destruct (assign_col_Vec (n_chan self + 2) J1 (-1) (n_chan self + 1)
              (map2 Rminus (convolve m (srf (arange (-10) 11) 0 4)) m)
              (py_pos_last _) ltac:(rewrite map2_length; lia)) as [J2 HJ2].
  rewrite HJ2. cbn [bind]. eauto.
Qed.

(** C5.  For a state, a grid and a radiance spectrum for which the
    measurement [meas = sample(...)], the resampled first difference and the
    stray-light convolution have one entry per channel, [dmeas_dinstrumentb]
    returns a matrix of [n_chan] rows whose first [n_chan] columns are
    [diag(meas)]; column [n_chan] is zero unless [bval[n_chan]] exceeds
    [1e-6], and column [n_chan + 1] is zero unless [bval[n_chan + 1]] exceeds
    [1e-6]. *)
Theorem dmeas_dinstrumentb_diagonal (self : Instrument)
  (x wl_hi r m d : vector) :
  length (bval self) = (n_chan self + 2)%nat ->
  sample self x wl_hi (Vec r) = Ok (Vec m) ->
  length m = n_chan self ->
  sample self x wl_hi (Vec (diff r ++ [0])) = Ok (Vec d) ->
  length d = n_chan self ->
  length (convolve m (srf (arange (-10) 11) 0 4)) = n_chan self ->
  exists J : matrix,
    dmeas_dinstrumentb self x wl_hi (Vec r) = Ok J
    /\ length J = n_chan self
    /\ (forall i j, (i < n_chan self)%nat -> (j < n_chan self)%nat ->
          get J i j = if (i =? j)%nat then nth i m 0 else 0)
    /\ (~ nth (n_chan self) (bval self) 0 > 1e-6 ->
        forall i, (i < n_chan self)%nat -> get J i (n_chan self) = 0)
    /\ (~ nth (n_chan self + 1) (bval self) 0 > 1e-6 ->
        forall i, (i < n_chan self)%nat -> get J i (n_chan self + 1) = 0).
Proof.
  intros Hbval Hm Hlenm Hd Hlend Hconv.
  destruct (dmeas_dinstrumentb_returns self x wl_hi r m d) as [J HJ]; auto.
  exists J. split; [exact HJ|].
  destruct (dmeas_dinstrumentb_columns self x wl_hi (Vec r) (Vec m) J Hbval Hm HJ)
    as (_ & H).
  exact H.
Qed.

End BiasJacobian.

Lemma dmeas_dinstrumentb_diagonal_example :
  exists J : matrix,
    dmeas_dinstrumentb (ext := example_collaborators) biased_instrument [0]
      fine_grid (Vec fine_radiance) = Ok J
    /\ length J = n_chan biased_instrument
    /\ (forall i j, (i < n_chan biased_instrument)%nat ->
                    (j < n_chan biased_instrument)%nat ->
          get J i j =
          if (i =? j)%nat then nth i [(1 + 1) / 2; (1 + 1) / 2; (1 + 1) / 2] 0 else 0)
    /\ (~ nth (n_chan biased_instrument) (bval biased_instrument) 0 > 1e-6 ->
        forall i, (i < n_chan biased_instrument)%nat ->
          get J i (n_chan biased_instrument) = 0)
    /\ (~ nth (n_chan biased_instrument + 1) (bval biased_instrument) 0 > 1e-6 ->
        forall i, (i < n_chan biased_instrument)%nat ->
          get J i (n_chan biased_instrument + 1) = 0).
Proof.
  apply (dmeas_dinstrumentb_diagonal (ext := example_collaborators)
           biased_instrument [0] fine_grid fine_radiance
           [(1 + 1) / 2; (1 + 1) / 2; (1 + 1) / 2]
           [(2 - 1 + 0) / 2; (2 - 1 + 0) / 2; (2 - 1 + 0) / 2]);
    reflexivity.
Defined.

(** The Jacobian of the example: the measurement on the diagonal, the
    resampled first difference in the spectral column, and a stray-light
    column that stays zero. *)
Lemma dmeas_dinstrumentb_example_values :
  dmeas_dinstrumentb (ext := example_collaborators) biased_instrument [0]
    fine_grid (Vec fine_radiance)
  = Ok [[(1 + 1) / 2; 0; 0; (2 - 1 + 0) / 2; 0];
        [0; (1 + 1) / 2; 0; (2 - 1 + 0) / 2; 0];
        [0; 0; (1 + 1) / 2; (2 - 1 + 0) / 2; 0]].
Proof.
  cbv -[Rdiv IZR Q2R Rplus Rminus Rmult Rinv Rltb Z.pow_pos].
  rewrite (Rltb_true 1e-6 0.02) by lra.
  rewrite (Rltb_false 1e-6 0) by lra.
  reflexivity.
Qed.

(** * Further properties of the module *)

(** ** What the constructor establishes *)

Section ConstructorInvariants.

Context {ext : Collaborators}.

Lemma init_record (config : Config.t) (self : Instrument) :
  __init__ config = Ok self ->
  exists file wl fwhm nf mt k bv,
    Config.wavelength_file config = Some file
    /\ load_wavelen file = Ok (wl, fwhm)
    /\ init_noise config wl (length wl) = Ok (nf, mt)
    /\ Config.integrations config = Some k
    /\ init_bval config (length wl) = Ok bv
    /\ self =
       let entries :=
         match Config.statevector config with Some sv => sv | None => [] end in
       {| wl_init := wl; fwhm_init := fwhm; n_chan := length wl;
          bounds := map (fun e => Config.bounds (snd e)) entries;
          scale := map (fun e => Config.scale (snd e)) entries;
          statevec := map fst entries;
          init_val := map (fun e => Config.init (snd e)) entries;
          n_state := length (map fst entries);
          noise_file := nf; model_type := mt; integrations := k;
          bvec :=
            map (fun w => ("Cal_Relative_" ++ format_04i (int_of_float w))%string) wl
            ++ ["Cal_Spectral"; "Cal_Stray_SRF"];
          bval := bv;
          calibration_fixed :=
            negb (mem "FWHM_SCL" (map fst entries))
            && negb (mem "WL_SHIFT" (map fst entries));
          prior_sigma := None |}.
Proof.
  unfold __init__. intros H.
  inv_bind H. destruct (Config.wavelength_file config) as [file|]; [|discriminate].
  injection Ha as <-.
  inv_bind H. destruct a as [wl fwhm].
  inv_bind H. destruct a as [nf mt].
  inv_bind H. destruct (Config.integrations config) as [k|]; [|discriminate].
  injection Ha1 as <-.
  inv_bind H. injection H as <-.
  exists file, wl, fwhm, nf, mt, k, a. repeat split; auto.
Qed.



End ConstructorInvariants.


(** ** Calibration *)

Lemma mem_index_of (k : string) (l : list string) :
  mem k l = match index_of k l with Some _ => true | None => false end.
Proof.
  unfold mem. induction l as [|h t IH]; simpl; [reflexivity|].
  destruct (String.eqb k h); simpl; [reflexivity|].
  rewrite IH. now destruct (index_of k t).
Qed.

Lemma py_index_nat (x : vector) (i : nat) :
  (i < length x)%nat -> py_index x (Z.of_nat i) = Ok (nth i x 0).
Proof.
  intros Hi. rewrite (py_index_nonneg x (Z.of_nat i) 0) by lia.
  now rewrite Nat2Z.id.
Qed.

Lemma py_index_nat_out (x : vector) (i : nat) :
  (length x <= i)%nat -> py_index x (Z.of_nat i) = Err IndexError.
Proof.
  intros Hi. unfold py_index, py_pos.
  destruct (Z.ltb_spec (Z.of_nat i) 0); [lia|].
  destruct (Z.leb_spec 0 (Z.of_nat i)); [|lia].
  destruct (Z.ltb_spec (Z.of_nat i) (Z.of_nat (length x))); [lia|].
  reflexivity.
Qed.

Lemma map_plus_0 (l : vector) : map (fun w => w + 0) l = l.
Proof.
  rewrite <- (map_id l) at 2. apply map_ext. intros w. lra.
Qed.

(** One branch of [calibration]: the offset of a named state variable. *)
Lemma calibration_branch (self : Instrument) (x : vector) (name : string)
  (base : vector) :
  (forall i, index_of name (statevec self) = Some i -> (i < length x)%nat) ->
  (if mem name (statevec self) then
     ind <- match index_of name (statevec self) with
            | Some i => Ok i
            | None => Err ValueError
            end ;;
     v <- py_index x (Z.of_nat ind) ;;
     Ok (map (fun w => w + v) base)
   else Ok base)
  = Ok (map (fun w => w + state_value self x name) base).
Proof.
  intros Hin. unfold state_value. rewrite mem_index_of.
  destruct (index_of name (statevec self)) as [i|].
  - cbn [bind]. rewrite py_index_nat by auto. reflexivity.
  - now rewrite map_plus_0.
Qed.

(** X2.  When every retrieved calibration variable has its entry in the
    state vector, [calibration] returns the nominal wavelengths shifted by the
    [WL_SHIFT] entry and the nominal widths increased by the [FWHM_SCL] entry,
    channel by channel; a variable that is not retrieved contributes nothing. *)
Theorem calibration_offsets (self : Instrument) (x : vector) :
  (forall i, index_of "FWHM_SCL" (statevec self) = Some i -> (i < length x)%nat) ->
  (forall i, index_of "WL_SHIFT" (statevec self) = Some i -> (i < length x)%nat) ->
  calibration self x
  = Ok (map (fun w => w + state_value self x "WL_SHIFT") (wl_init self),
        map (fun f => f + state_value self x "FWHM_SCL") (fwhm_init self)).
Proof.
  intros Hf Hw. unfold calibration.
  rewrite (calibration_branch self x "FWHM_SCL" (fwhm_init self) Hf). cbn [bind].
  rewrite (calibration_branch self x "WL_SHIFT" (wl_init self) Hw). reflexivity.
Qed.

Lemma calibration_offsets_example :
  calibration shift_instrument [0.5]
  = Ok (map (fun w => w + state_value shift_instrument [0.5] "WL_SHIFT")
            (wl_init shift_instrument),
        map (fun f => f + state_value shift_instrument [0.5] "FWHM_SCL")
            (fwhm_init shift_instrument)).
Proof.
  apply (calibration_offsets shift_instrument [0.5]).
  - intros i H. discriminate H.
  - intros i H. injection H as <-. simpl. lia.
Defined.

(** X3.  A state vector that is too short for a retrieved calibration
    variable makes [calibration] raise [IndexError]. *)
Theorem calibration_short_state (self : Instrument) (x : vector) (name : string)
  (i : nat) :
  name = "FWHM_SCL" \/ name = "WL_SHIFT" ->
  index_of name (statevec self) = Some i ->
  (length x <= i)%nat ->
  calibration self x = Err IndexError.
Proof.
  intros Hname Hidx Hshort. unfold calibration.
  destruct Hname as [-> | ->].
  - rewrite mem_index_of, Hidx. cbn [bind].
    now rewrite py_index_nat_out.
  - rewrite (mem_index_of "FWHM_SCL").
    destruct (index_of "FWHM_SCL" (statevec self)) as [j|]; cbn [bind].
    + destruct (Nat.lt_ge_cases j (length x)) as [Hj|Hj].
      * rewrite py_index_nat by exact Hj. cbn [bind].
        rewrite mem_index_of, Hidx. cbn [bind].
        now rewrite py_index_nat_out.
      * now rewrite py_index_nat_out.
    + rewrite mem_index_of, Hidx. cbn [bind].
      now rewrite py_index_nat_out.
Qed.

Lemma calibration_short_state_example :
  calibration shift_instrument [] = Err IndexError.
Proof.
  apply (calibration_short_state shift_instrument [] "WL_SHIFT" 0%nat).
  - now right.
  - reflexivity.
  - simpl. lia.
Defined.

Section FixedCalibration.

Context {ext : Collaborators}.

(** X4.  For a constructed object, [calibration_fixed] holds exactly when
    neither [FWHM_SCL] nor [WL_SHIFT] is a key of [config['statevector']], and
    then [calibration] returns the nominal wavelengths and widths for every
    state vector, the empty one included. *)
Theorem calibration_fixed_nominal (config : Config.t) (self : Instrument) :
  __init__ config = Ok self ->
  (calibration_fixed self = true <->
   mem "FWHM_SCL" (statevec self) = false /\ mem "WL_SHIFT" (statevec self) = false)
  /\ (calibration_fixed self = true ->
      forall x, calibration self x = Ok (wl_init self, fwhm_init self)).
Proof.
  intros Hinit.
  destruct (init_record config self Hinit)
    as (file & wl & fwhm & nf & mt & k & bv & _ & _ & _ & _ & _ & ->).
  cbn [calibration_fixed statevec wl_init fwhm_init].
  set (names := map fst _).
  assert (Hiff : negb (mem "FWHM_SCL" names) && negb (mem "WL_SHIFT" names) = true <->
                 mem "FWHM_SCL" names = false /\ mem "WL_SHIFT" names = false).
  { rewrite andb_true_iff, !negb_true_iff. tauto. }
  split; [exact Hiff|].
  intros Hfixed x. apply Hiff in Hfixed. destruct Hfixed as [Hf Hw].
  unfold calibration. cbn [statevec wl_init fwhm_init]. fold names.
  now rewrite Hf, Hw.
Qed.

End FixedCalibration.

Lemma calibration_fixed_nominal_example :
  (calibration_fixed stray_instrument = true <->
   mem "FWHM_SCL" (statevec stray_instrument) = false
   /\ mem "WL_SHIFT" (statevec stray_instrument) = false)
  /\ (calibration_fixed stray_instrument = true ->
      forall x, calibration stray_instrument x
                = Ok (wl_init stray_instrument, fwhm_init stray_instrument)).
Proof.
  apply (calibration_fixed_nominal (ext := example_collaborators)
           stray_config stray_instrument).
  reflexivity.
Defined.

(** ** Sampling, further *)

Lemma mapM_Ok {A B : Type} (f : A -> result B) (l : list A) (out : list B) :
  mapM f l = Ok out ->
  length out = length l
  /\ forall k da db, (k < length l)%nat -> f (nth k l da) = Ok (nth k out db).
Proof.
  revert out; induction l as [|a l IH]; intros out H; simpl in H.
  - injection H as <-. split; [reflexivity|]. intros k da db Hk. simpl in Hk. lia.
  - inv_bind H. inv_bind H. injection H as <-.
    destruct (IH a1 Ha0) as [Hlen Hnth]. split; [simpl; lia|].
    intros [|k] da db Hk; simpl; [exact Ha|]. apply Hnth. simpl in Hk. lia.
Qed.

Lemma mapM_all_Ok {A B : Type} (f : A -> result B) (l : list A) (da : A) :
  (forall k, (k < length l)%nat -> exists b, f (nth k l da) = Ok b) ->
  exists out, mapM f l = Ok out.
Proof.
  induction l as [|a l IH]; intros Hall; simpl; [eauto|].
  destruct (Hall 0%nat ltac:(simpl; lia)) as [b Hb]. simpl in Hb. rewrite Hb.
  destruct IH as [out Hout].
  { intros k Hk. apply (Hall (S k)). simpl. lia. }
  rewrite Hout. cbn [bind]. eauto.
Qed.

Section SamplingFurther.

Context {ext : Collaborators}.

(** The test at the head of [sample] depends on the object and the grid only. *)
Lemma sample_cases (self : Instrument) (x wl_hi : vector) :
  (forall rdn_hi, sample self x wl_hi rdn_hi = Ok rdn_hi)
  \/ (exists e, forall rdn_hi, sample self x wl_hi rdn_hi = Err e)
  \/ (exists wl fwhm,
        calibration self x = Ok (wl, fwhm)
        /\ forall rdn_hi,
             sample self x wl_hi rdn_hi =
             match rdn_hi with
             | Vec r => v <- resample_spectrum r wl_hi wl fwhm ;; Ok (Vec v)
             | Mat rows =>
                 resamp <- mapM (fun r => resample_spectrum r wl_hi wl fwhm) rows ;;
                 Ok (Mat resamp)
             | Scalar _ => Err TypeError
             end).
Proof.
  unfold sample.
  destruct (if calibration_fixed self
            then d <- broadcast2 Rminus (wl_init self) wl_hi ;;
                 Ok (forallb (fun e => Rltb e wl_tol) d)
            else Ok false) as [[|]|e]; cbn [bind].
  - left. reflexivity.
  - destruct (calibration self x) as [[wl fwhm]|e]; cbn [bind].
    + right. right. exists wl, fwhm. split; reflexivity.
    + right. left. exists e. reflexivity.
  - right. left. exists e. reflexivity.
Qed.

(** X5.  Sampling a matrix of spectra agrees with sampling its rows one by
    one: when [sample] returns on a 2-d radiance it returns a matrix with as
    many rows, in the same order, and row [k] of the result is what [sample]
    returns on row [k] alone; and when [sample] returns on every row of a
    non-empty matrix, it returns on the matrix. *)
Theorem sample_rows (self : Instrument) (x wl_hi : vector) (rows : matrix) :
  (forall out, sample self x wl_hi (Mat rows) = Ok out ->
     exists outs,
       out = Mat outs
       /\ length outs = length rows
       /\ forall k, (k < length rows)%nat ->
            sample self x wl_hi (Vec (nth k rows [])) = Ok (Vec (nth k outs [])))
  /\ (rows <> [] ->
      (forall k, (k < length rows)%nat ->
         exists v, sample self x wl_hi (Vec (nth k rows [])) = Ok (Vec v)) ->
      exists outs, sample self x wl_hi (Mat rows) = Ok (Mat outs)).
Proof.
  destruct (sample_cases self x wl_hi)
    as [Hfast | [[e Herr] | (wl & fwhm & _ & Hgen)]].
  - split.
    + intros out H. rewrite Hfast in H. injection H as <-.
      exists rows. repeat split. intros k _. apply Hfast.
    + intros _ _. exists rows. apply Hfast.
  - split.
    + intros out H. rewrite Herr in H. discriminate.
    + intros Hne Hall. destruct rows as [|row rows]; [contradiction|].
      destruct (Hall 0%nat ltac:(simpl; lia)) as [v Hv].
      rewrite Herr in Hv. discriminate.
  - split.
    + intros out H. rewrite Hgen in H. inv_bind H. injection H as <-.
      destruct (mapM_Ok _ _ _ Ha) as [Hlen Hnth].
      exists a. repeat split; [exact Hlen|].
      intros k Hk. rewrite Hgen.
      pose proof (Hnth k [] [] Hk) as Hrow. cbv beta in Hrow.
      unfold vector in Hrow. now rewrite Hrow.
    + intros _ Hall.
      destruct (mapM_all_Ok (fun r => resample_spectrum r wl_hi wl fwhm) rows [])
        as [outs Houts].
      { intros k Hk. destruct (Hall k Hk) as [v Hv]. rewrite Hgen in Hv.
        inv_bind Hv. eexists. exact Ha. }
      exists outs. rewrite Hgen, Houts. reflexivity.
Qed.

(** X6.  With a fixed calibration [sample] subtracts the grid from the
    instrument's wavelengths before anything else: a grid whose length is
    neither the number of wavelengths nor one, for an instrument with other
    than one wavelength, makes it raise [ValueError], whatever the radiance. *)
Theorem sample_fixed_grid_mismatch (self : Instrument) (x wl_hi : vector)
  (rdn_hi : ndarray) :
  calibration_fixed self = true ->
  length wl_hi <> length (wl_init self) ->
  length wl_hi <> 1%nat ->
  length (wl_init self) <> 1%nat ->
  sample self x wl_hi rdn_hi = Err ValueError.
Proof.
  intros Hfixed Hne Hhi Hinit. unfold sample. rewrite Hfixed. unfold broadcast2.
  destruct (Nat.eqb_spec (length (wl_init self)) (length wl_hi)) as [Heq|_];
    [congruence|].
  destruct (wl_init self) as [|a [|a' l]]; destruct wl_hi as [|b [|b' l']];
    simpl in *; try reflexivity; congruence.
Qed.

(** X7.  When the calibration is not fixed [sample] never takes the short
    cut: for a 1-d radiance and a state vector that holds the retrieved
    variables, it is [resample_spectrum] applied to the radiance, the grid,
    the shifted wavelengths and the widened widths. *)
Theorem sample_resamples_calibrated (self : Instrument) (x wl_hi r : vector) :
  calibration_fixed self = false ->
  (forall i, index_of "FWHM_SCL" (statevec self) = Some i -> (i < length x)%nat) ->
  (forall i, index_of "WL_SHIFT" (statevec self) = Some i -> (i < length x)%nat) ->
  sample self x wl_hi (Vec r)
  = (v <- resample_spectrum r wl_hi
            (map (fun w => w + state_value self x "WL_SHIFT") (wl_init self))
            (map (fun f => f + state_value self x "FWHM_SCL") (fwhm_init self)) ;;
     Ok (Vec v)).
Proof.
  intros Hfixed Hf Hw. unfold sample. rewrite Hfixed. cbn [bind].
  unfold calibration.
  rewrite (calibration_branch self x "FWHM_SCL" (fwhm_init self) Hf). cbn [bind].
  rewrite (calibration_branch self x "WL_SHIFT" (wl_init self) Hw). reflexivity.
Qed.

End SamplingFurther.

Lemma sample_fixed_grid_mismatch_example :
  sample (ext := example_collaborators) snr_instrument [] fine_grid
    (Vec fine_radiance) = Err ValueError.
Proof.
  apply (sample_fixed_grid_mismatch (ext := example_collaborators)
           snr_instrument [] fine_grid (Vec fine_radiance));
    [reflexivity | discriminate | discriminate | discriminate].
Defined.

Lemma sample_resamples_calibrated_example :
  sample (ext := example_collaborators) shift_instrument [0.5] fine_grid
    (Vec fine_radiance)
  = (v <- resample_spectrum (Collaborators := example_collaborators)
            fine_radiance fine_grid
            (map (fun w => w + state_value shift_instrument [0.5] "WL_SHIFT")
                 (wl_init shift_instrument))
            (map (fun f => f + state_value shift_instrument [0.5] "FWHM_SCL")
                 (fwhm_init shift_instrument)) ;;
     Ok (Vec v)).
Proof.
  apply (sample_resamples_calibrated (ext := example_collaborators)
           shift_instrument [0.5] fine_grid fine_radiance).
  - reflexivity.
  - intros i H. discriminate H.
  - intros i H. injection H as <-. simpl. lia.
Defined.

(** ** The noise covariance, further *)

Lemma diag_sq_get (v : vector) (i j : nat) :
  (i < length v)%nat -> (j < length v)%nat ->
  get (mat_pow (diagflat v) 2) i j = if (i =? j)%nat then nth i v 0 ^ 2 else 0.
Proof.
  intros Hi Hj.
  assert (Hrow : length (nth i (diagflat v) []) = length v).
  { pose proof (diagflat_rows v) as Hall. rewrite Forall_forall in Hall.
    apply Hall, nth_In. rewrite diagflat_length. lia. }
  rewrite mat_pow_get by (rewrite ?diagflat_length, ?Hrow; lia).
  rewrite diagflat_get by lia.
  destruct (i =? j)%nat; [reflexivity|simpl; lra].
Qed.

Lemma diag_sq_symmetric (v : vector) (i j : nat) :
  (i < length v)%nat -> (j < length v)%nat ->
  get (mat_pow (diagflat v) 2) i j = get (mat_pow (diagflat v) 2) j i.
Proof.
  intros Hi Hj. rewrite !diag_sq_get by assumption.
  destruct (Nat.eqb_spec i j) as [->|Hne].
  - now rewrite Nat.eqb_refl.
  - destruct (Nat.eqb_spec j i); [congruence|reflexivity].
Qed.

(** The value [Sy] returns under the signal-to-noise model. *)
Lemma Sy_snr_value (self : Instrument) (snr : R) (meas : loc) (geom : Geometry)
  (st : store) :
  model_type self = Some (SNR snr) ->
  snr <> 0 ->
  fst (Sy self meas geom st)
  = Ok (Mat (mat_pow
               (diagflat
                  (map (fun x => 1 / snr * x)
                       (map (fun x => if Rlt_dec x 1e-5 then 1e-5 else x) (st meas))))
               2)).
Proof.
  intros Hmodel Hsnr. unfold Sy. rewrite Hmodel.
  now destruct (Req_dec_T snr 0).
Qed.

Lemma Sy_snr_diag_entry (snr : R) (m : vector) (i : nat) :
  (i < length m)%nat ->
  nth i (map (fun x => 1 / snr * x)
             (map (fun x => if Rlt_dec x 1e-5 then 1e-5 else x) m)) 0
  = Rmax (nth i m 0) 1e-5 / snr.
Proof.
  intros Hi.
  rewrite (nth_map_lt _ _ i _ 0) by (rewrite length_map; exact Hi).
  rewrite (nth_map_lt _ _ i _ 0) by exact Hi.
  rewrite clamp_Rmax. unfold Rdiv. ring.
Qed.

(** X8.  Under the signal-to-noise model with a non-zero ratio the covariance
    is symmetric and every diagonal entry is at least [(1e-5 / snr)^2], hence
    positive, whatever the measurement holds: negative and zero radiances
    included. *)
Theorem Sy_snr_positive (self : Instrument) (snr : R) (meas : loc)
  (geom : Geometry) (st : store) :
  model_type self = Some (SNR snr) ->
  snr <> 0 ->
  exists S : matrix,
    fst (Sy self meas geom st) = Ok (Mat S)
    /\ (forall i j, (i < length (st meas))%nat -> (j < length (st meas))%nat ->
          get S i j = get S j i)
    /\ (forall i, (i < length (st meas))%nat ->
          0 < (1e-5 / snr) ^ 2 <= get S i i).
Proof.
  intros Hmodel Hsnr. eexists. split; [now apply (Sy_snr_value self snr)|].
  set (m := st meas).
  set (nedl := map _ (map _ m)).
  assert (Hlen : length nedl = length m) by (unfold nedl; now rewrite !length_map).
  split.
  - intros i j Hi Hj. apply diag_sq_symmetric; lia.
  - intros i Hi. rewrite diag_sq_get by lia. rewrite Nat.eqb_refl.
    unfold nedl. rewrite Sy_snr_diag_entry by exact Hi.
    set (c := 1e-5).
    assert (Hc : 0 < c) by (unfold c; lra).
    assert (Hmax : c <= Rmax (nth i m 0) c) by apply Rmax_r.
    assert (Hinv : 0 < (/ snr) ^ 2).
    { simpl. rewrite Rmult_1_r. apply Rsqr_pos_lt. now apply Rinv_neq_0_compat. }
    assert (Hsq : forall a, (a / snr) ^ 2 = a ^ 2 * (/ snr) ^ 2)
      by (intros a; unfold Rdiv; ring).
    rewrite !Hsq. split.
    + apply Rmult_lt_0_compat; [simpl; nra|exact Hinv].
    + apply Rmult_le_compat_r; [lra|].
      apply pow_incr. lra.
Qed.

Lemma Sy_snr_positive_example :
  exists S : matrix,
    fst (Sy snr_instrument 1%nat nadir caller_store) = Ok (Mat S)
    /\ (forall i j, (i < length (caller_store 1%nat))%nat ->
                    (j < length (caller_store 1%nat))%nat ->
          get S i j = get S j i)
    /\ (forall i, (i < length (caller_store 1%nat))%nat ->
          0 < (1e-5 / 100) ^ 2 <= get S i i).
Proof.
  apply (Sy_snr_positive snr_instrument 100 1%nat nadir caller_store).
  - reflexivity.
  - lra.
Defined.

(** X9.  Under the signal-to-noise model a larger positive ratio gives a
    strictly smaller variance in every channel, for the same measurement. *)
Theorem Sy_snr_decreasing (self1 self2 : Instrument) (snr1 snr2 : R)
  (meas : loc) (geom : Geometry) (st : store) :
  model_type self1 = Some (SNR snr1) ->
  model_type self2 = Some (SNR snr2) ->
  0 < snr1 < snr2 ->
  exists S1 S2 : matrix,
    fst (Sy self1 meas geom st) = Ok (Mat S1)
    /\ fst (Sy self2 meas geom st) = Ok (Mat S2)
    /\ forall i, (i < length (st meas))%nat -> get S2 i i < get S1 i i.
Proof.
  intros Hmodel1 Hmodel2 [Hpos Hlt].
  eexists. eexists.
  split; [apply (Sy_snr_value self1 snr1); [exact Hmodel1|lra]|].
  split; [apply (Sy_snr_value self2 snr2); [exact Hmodel2|lra]|].
  intros i Hi.
  rewrite !diag_sq_get by (rewrite !length_map; exact Hi).
  rewrite Nat.eqb_refl, !Sy_snr_diag_entry by exact Hi.
  assert (Hmax : 0 < Rmax (nth i (st meas) 0) 1e-5).
  { apply Rlt_le_trans with 1e-5; [lra|apply Rmax_r]. }
  set (M := Rmax (nth i (st meas) 0) 1e-5) in *.
  assert (Hinv : / snr2 < / snr1) by (apply Rinv_lt_contravar; [nra|lra]).
  assert (Hinv2 : 0 < / snr2) by (apply Rinv_0_lt_compat; lra).
  assert (Hquot : 0 < M / snr2 < M / snr1) by (unfold Rdiv; split; nra).
  simpl. nra.
Qed.

Lemma Sy_snr_decreasing_example :
  exists S1 S2 : matrix,
    fst (Sy snr_instrument 0%nat nadir caller_store) = Ok (Mat S1)
    /\ fst (Sy sensitive_instrument 0%nat nadir caller_store) = Ok (Mat S2)
    /\ forall i, (i < length (caller_store 0%nat))%nat -> get S2 i i < get S1 i i.
Proof.
  apply (Sy_snr_decreasing snr_instrument sensitive_instrument 100 400
           0%nat nadir caller_store).
  - reflexivity.
  - reflexivity.
  - lra.
Defined.

Lemma clamp_idempotent (m : vector) :
  map (fun x => if Rlt_dec x 1e-5 then 1e-5 else x)
      (map (fun x => if Rlt_dec x 1e-5 then 1e-5 else x) m)
  = map (fun x => if Rlt_dec x 1e-5 then 1e-5 else x) m.
Proof.
  rewrite map_map. apply map_ext. intros x.
  destruct (Rlt_dec x 1e-5) as [Hlt|Hge].
  - destruct (Rlt_dec 1e-5 1e-5); [lra|reflexivity].
  - destruct (Rlt_dec x 1e-5); [contradiction|reflexivity].
Qed.

(** X10.  Calling [Sy] a second time with the same arguments changes nothing:
    it returns (or raises) what the first call did and leaves the caller's
    arrays as the first call left them, under every noise model. *)
Theorem Sy_twice (self : Instrument) (meas : loc) (geom : Geometry) (st : store) :
  fst (Sy self meas geom (snd (Sy self meas geom st))) = fst (Sy self meas geom st)
  /\ forall l, snd (Sy self meas geom (snd (Sy self meas geom st))) l
               = snd (Sy self meas geom st) l.
Proof.
  destruct (model_type self) as [[snr|noise|ncols covs]|] eqn:Hmodel.
  - rewrite !(Sy_snr_store self snr) by exact Hmodel.
    rewrite upd_same, clamp_idempotent. split.
    + unfold Sy. rewrite Hmodel.
      destruct (Req_dec_T snr 0); cbn [fst]; [reflexivity|].
      now rewrite upd_same, clamp_idempotent.
    + intros l. unfold upd. now destruct (l =? meas)%nat.
  - rewrite !Sy_other_store by (intros snr; rewrite Hmodel; discriminate).
    auto.
  - rewrite !Sy_other_store by (intros snr; rewrite Hmodel; discriminate).
    auto.
  - rewrite !Sy_other_store by (intros snr; rewrite Hmodel; discriminate).
    auto.
Qed.

(** X11.  With a signal-to-noise ratio of zero [Sy] raises
    [ZeroDivisionError], and by then the caller's measurement has already been
    clamped. *)
Theorem Sy_snr_zero (self : Instrument) (meas : loc) (geom : Geometry) (st : store) :
  model_type self = Some (SNR 0) ->
  fst (Sy self meas geom st) = Err ZeroDivisionError
  /\ snd (Sy self meas geom st) meas = map (fun x => Rmax x 1e-5) (st meas).
Proof.
  intros Hmodel. split.
  - unfold Sy. rewrite Hmodel. destruct (Req_dec_T 0 0); [reflexivity|lra].
  - rewrite (Sy_snr_store self 0) by exact Hmodel. rewrite upd_same.
    apply map_ext. intros x. apply clamp_Rmax.
Qed.

Lemma Sy_snr_zero_example :
  fst (Sy blind_instrument 1%nat nadir caller_store) = Err ZeroDivisionError
  /\ snd (Sy blind_instrument 1%nat nadir caller_store) 1%nat
     = map (fun x => Rmax x 1e-5) (caller_store 1%nat).
Proof.
  apply (Sy_snr_zero blind_instrument 1%nat nadir caller_store).
  reflexivity.
Defined.



Lemma broadcast2_mismatch (f : R -> R -> R) (a b : vector) :
  length a <> length b -> length a <> 1%nat -> length b <> 1%nat ->
  broadcast2 f a b = Err ValueError.
Proof.
  intros Hne Ha Hb. unfold broadcast2.
  destruct (Nat.eqb_spec (length a) (length b)); [contradiction|].
  destruct a as [|x [|x' a]]; destruct b as [|y [|y' b]];
    simpl in *; try reflexivity; congruence.
Qed.

(** X13.  Under the parametric model [Sy] raises [IndexError] for an
    instrument without channels, whose coefficient table is 1-d, and
    [ValueError] for a measurement whose length is neither the number of
    channels nor one (the instrument having other than one channel); the
    caller's arrays are left alone in both cases. *)
Theorem Sy_parametric_shape_errors (self : Instrument) (noise : list (R * R * R))
  (meas : loc) (geom : Geometry) (st : store) :
  model_type self = Some (parametric noise) ->
  (noise = [] -> Sy self meas geom st = (Err IndexError, st))
  /\ (length (st meas) <> length noise ->
      length (st meas) <> 1%nat ->
      length noise <> 1%nat ->
      noise <> [] ->
      Sy self meas geom st = (Err ValueError, st)).
Proof.
  intros Hmodel. unfold Sy. rewrite Hmodel. split.
  - intros ->. reflexivity.
  - intros Hlen Hone Hchan Hne. unfold parametric_nedl.
    destruct noise as [|row noise]; [contradiction|].
    rewrite broadcast2_mismatch by (rewrite ?length_map; auto).
    reflexivity.
Qed.

Lemma Sy_parametric_shape_errors_example :
  (noise_table = [] ->
   Sy (parametric_instrument 4) 1%nat nadir caller_store = (Err IndexError, caller_store))
  /\ (length (caller_store 1%nat) <> length noise_table ->
      length (caller_store 1%nat) <> 1%nat ->
      length noise_table <> 1%nat ->
      noise_table <> [] ->
      Sy (parametric_instrument 4) 1%nat nadir caller_store
      = (Err ValueError, caller_store)).
Proof.
  apply (Sy_parametric_shape_errors (parametric_instrument 4) noise_table
           1%nat nadir caller_store).
  reflexivity.
Defined.

(** X14.  Under the pushbroom model the column follows Python's indexing: a
    column from [-ncols] to [-1] selects the slice counted from the end of the
    stack, and a column outside [-ncols .. ncols - 1] raises [IndexError]. *)
Theorem Sy_pushbroom_column_index (self : Instrument) (ncols : nat)
  (covs : list matrix) (meas : loc) (geom : Geometry) (st : store) (column : Z) :
  model_type self = Some (pushbroom ncols covs) ->
  pushbroom_column geom = Some column ->
  ((- Z.of_nat (length covs) <= column < 0)%Z ->
     fst (Sy self meas geom st) =
     Ok (Mat (map (map (fun x => x / sqrt (integrations self)))
                  (nth (length covs - Z.to_nat (- column)) covs []))))
  /\ ((column < - Z.of_nat (length covs) \/ Z.of_nat (length covs) <= column)%Z ->
      fst (Sy self meas geom st) = Err IndexError).
Proof.
  intros Hmodel Hcol. unfold Sy. rewrite Hmodel, Hcol. cbn [fst].
  unfold py_index, py_pos. split.
  - intros Hrange.
    destruct (Z.ltb_spec column 0); [|lia].
    destruct (Z.leb_spec 0 (column + Z.of_nat (length covs))); [|lia].
    destruct (Z.ltb_spec (column + Z.of_nat (length covs)) (Z.of_nat (length covs)));
      [|lia].
    cbn [andb bind].
    replace (Z.to_nat (column + Z.of_nat (length covs)))
      with (length covs - Z.to_nat (- column))%nat by lia.
    rewrite (nth_error_nth' covs []) by lia. reflexivity.
  - intros [Hlow|Hhigh].
    + destruct (Z.ltb_spec column 0); [|lia].
      destruct (Z.leb_spec 0 (column + Z.of_nat (length covs))); [lia|].
      reflexivity.
    + destruct (Z.ltb_spec column 0); [lia|].
      destruct (Z.leb_spec 0 column); [|lia].
      destruct (Z.ltb_spec column (Z.of_nat (length covs))); [lia|].
      reflexivity.
Qed.

Lemma Sy_pushbroom_column_index_example :
  ((- Z.of_nat (length pushbroom_covs) <= -1 < 0)%Z ->
     fst (Sy pushbroom_instrument 0%nat last_column caller_store) =
     Ok (Mat (map (map (fun x => x / sqrt (integrations pushbroom_instrument)))
                  (nth (length pushbroom_covs - Z.to_nat (- -1)) pushbroom_covs []))))
  /\ ((-1 < - Z.of_nat (length pushbroom_covs)
       \/ Z.of_nat (length pushbroom_covs) <= -1)%Z ->
      fst (Sy pushbroom_instrument 0%nat last_column caller_store) = Err IndexError).
Proof.
  apply (Sy_pushbroom_column_index pushbroom_instrument 2 pushbroom_covs
           0%nat last_column caller_store (-1)%Z); reflexivity.
Defined.

Section NoModel.

Context {ext : Collaborators}.

(** X15.  A configuration without [SNR] whose noise file ends in neither
    [.txt] nor [.mat] is accepted by the constructor, which reads no file for
    it and assigns no noise model; every later call of [Sy] on the object
    raises [AttributeError] and leaves the caller's arrays alone. *)
Theorem Sy_without_model (config : Config.t) (path : string) (self : Instrument) :
  Config.SNR config = None ->
  Config.noise_file config = Some path ->
  endswith path ".txt" = false ->
  endswith path ".mat" = false ->
  __init__ config = Ok self ->
  noise_file self = Some path
  /\ model_type self = None
  /\ forall meas geom st, Sy self meas geom st = (Err AttributeError, st).
Proof.
  intros Hsnr Hnoise Htxt Hmat Hinit.
  destruct (init_record config self Hinit)
    as (file & wl & fwhm & nf & mt & k & bv & _ & _ & Hn & _ & _ & ->).
  unfold init_noise in Hn. rewrite Hsnr, Hnoise in Hn. cbn [getitem bind] in Hn.
  rewrite Htxt, Hmat in Hn. injection Hn as <- <-.
  cbn. repeat split.
Qed.

End NoModel.

Lemma csv_instrument_constructed :
  __init__ (ext := example_collaborators) csv_config = Ok csv_instrument.
Proof. reflexivity. Qed.

Lemma Sy_without_model_example :
  noise_file csv_instrument = Some "noise.csv"
  /\ model_type csv_instrument = None
  /\ forall meas geom st, Sy csv_instrument meas geom st = (Err AttributeError, st).
Proof.
  apply (Sy_without_model (ext := example_collaborators) csv_config "noise.csv"
           csv_instrument); reflexivity.
Defined.

(** ** The measurement simulator *)

Section SimulatorProperties.

Variable rng : Type.
Variable mvn : rng -> vector -> ndarray -> result vector * rng.

Lemma broadcast2_nth (f : R -> R -> R) (a b : vector) :
  length a = length b ->
  exists out, broadcast2 f a b = Ok out
              /\ length out = length a
              /\ forall i, (i < length a)%nat -> nth i out 0 = f (nth i a 0) (nth i b 0).
Proof.
  intros Hlen. rewrite broadcast2_same_length by exact Hlen.
  eexists. split; [reflexivity|]. split; [rewrite map2_length; lia|].
  intros i Hi. apply map2_nth; lia.
Qed.

(** X16.  Under the signal-to-noise model with a non-zero ratio,
    [simulate_measurement] asks the generator for one draw, with a zero mean
    of the length of the measurement and the covariance [Sy] has returned, and
    adds the draw to the measurement as [Sy] has left it: entry [i] of the
    result is [max(meas[i], 1e-5)] plus the noise, not [meas[i]] plus the
    noise, and the caller's array holds the clamped values afterwards. *)
Theorem simulate_measurement_snr (self : Instrument) (snr : R) (meas : loc)
  (geom : Geometry) (st : store) (g g' : rng) (C : ndarray) (noise : vector) :
  model_type self = Some (SNR snr) ->
  snr <> 0 ->
  fst (Sy self meas geom st) = Ok C ->
  mvn g (zeros (length (st meas))) C = (Ok noise, g') ->
  length noise = length (st meas) ->
  exists out : vector,
    simulate_measurement rng mvn self meas geom st g
    = (Ok out, snd (Sy self meas geom st), g')
    /\ length out = length (st meas)
    /\ (forall i, (i < length (st meas))%nat ->
          nth i out 0 = Rmax (nth i (st meas) 0) 1e-5 + nth i noise 0)
    /\ snd (Sy self meas geom st) meas = map (fun x => Rmax x 1e-5) (st meas).
Proof.
  intros Hmodel Hsnr HC Hdraw Hlen.
  assert (Hstore : snd (Sy self meas geom st) meas
                   = map (fun x => Rmax x 1e-5) (st meas)).
  { rewrite (Sy_snr_store self snr) by exact Hmodel. rewrite upd_same.
    apply map_ext. intros x. apply clamp_Rmax. }
  unfold simulate_measurement.
  destruct (Sy self meas geom st) as [r st'] eqn:HSy. cbn [fst snd] in *.
  subst r. rewrite Hstore, length_map, Hdraw.
  destruct (broadcast2_nth Rplus (map (fun x => Rmax x 1e-5) (st meas)) noise)
    as (out & Hout & Hlen_out & Hnth); [rewrite length_map; lia|].
  rewrite length_map in Hlen_out, Hnth.
  exists out. rewrite Hout. repeat split; auto.
  intros i Hi. rewrite Hnth by exact Hi.
  now rewrite (nth_map_lt _ _ i _ 0) by exact Hi.
Qed.

(** When [Sy] raises, [simulate_measurement] raises the same exception
    without drawing from the generator; when the generator raises, its
    exception is the result.  In both cases the caller's arrays are as [Sy]
    left them. *)
Lemma simulate_measurement_errors (self : Instrument) (meas : loc)
  (geom : Geometry) (st : store) (g : rng) :
  (forall e, fst (Sy self meas geom st) = Err e ->
     simulate_measurement rng mvn self meas geom st g
     = (Err e, snd (Sy self meas geom st), g))
  /\ (forall C e g',
        fst (Sy self meas geom st) = Ok C ->
        mvn g (zeros (length (snd (Sy self meas geom st) meas))) C = (Err e, g') ->
        simulate_measurement rng mvn self meas geom st g
        = (Err e, snd (Sy self meas geom st), g')).
Proof.
  unfold simulate_measurement.
  destruct (Sy self meas geom st) as [r st'] eqn:HSy. cbn [fst snd]. split.
  - intros e ->. reflexivity.
  - intros C e g' -> Hdraw. now rewrite Hdraw.
Qed.

End SimulatorProperties.

Lemma simulate_measurement_snr_example :
  exists out : vector,
    simulate_measurement nat counting_mvn snr_instrument 1%nat nadir caller_store 0%nat
    = (Ok out, snd (Sy snr_instrument 1%nat nadir caller_store), 1%nat)
    /\ length out = length (caller_store 1%nat)
    /\ (forall i, (i < length (caller_store 1%nat))%nat ->
          nth i out 0 = Rmax (nth i (caller_store 1%nat) 0) 1e-5
                        + nth i [0.25; 0.25; 0.25] 0)
    /\ snd (Sy snr_instrument 1%nat nadir caller_store) 1%nat
       = map (fun x => Rmax x 1e-5) (caller_store 1%nat).
Proof.
  apply (simulate_measurement_snr nat counting_mvn snr_instrument 100 1%nat nadir
           caller_store 0%nat 1%nat
           (Mat (mat_pow
                   (diagflat
                      (map (fun x => 1 / 100 * x)
                           (map (fun x => if Rlt_dec x 1e-5 then 1e-5 else x)
                                (caller_store 1%nat))))
                   2))
           [0.25; 0.25; 0.25]).
  - reflexivity.
  - lra.
  - apply (Sy_snr_value snr_instrument 100); [reflexivity|lra].
  - reflexivity.
  - reflexivity.
Defined.

(** ** The Jacobians, further *)

Lemma assign_col_Vec_spec (ncols : nat) (J : matrix) (k : Z) (c : nat) (v : vector) :
  py_pos ncols k = Ok c ->
  length v = length J ->
  exists J',
    assign_col ncols J k (Vec v) = Ok J'
    /\ length J' = length J
    /\ (forall i, length (nth i J' []) = length (nth i J []))
    /\ (forall i j, j <> c -> get J' i j = get J i j)
    /\ (forall i, (i < length J)%nat -> (c < length (nth i J []))%nat ->
          get J' i c = nth i v 0).
Proof.
  intros Hpos Hlen.
  assert (Hmap2 : exists J',
             J' = map2 (fun row r => set_nth row c r) J v
             /\ length J' = length J
             /\ (forall i, length (nth i J' []) = length (nth i J []))
             /\ (forall i j, j <> c -> get J' i j = get J i j)
             /\ (forall i, (i < length J)%nat -> (c < length (nth i J []))%nat ->
                   get J' i c = nth i v 0)).
  { eexists. split; [reflexivity|].
    destruct (col_written_map2 c v J Hlen) as [Hl Hframe].
    split; [exact Hl|]. split; [|split; [exact Hframe|]].
    - intros i. destruct (Nat.lt_ge_cases i (length J)) as [Hi|Hi].
      + rewrite (map2_nth _ _ _ i [] 0 []) by lia. apply set_nth_length.
      + rewrite !(nth_overflow _ []) by (rewrite ?map2_length; lia). reflexivity.
    - intros i Hi Hc. unfold get.
      rewrite (map2_nth _ _ _ i [] 0 []) by lia. now apply set_nth_same. }
  destruct Hmap2 as (J' & HJ' & Hspec). subst J'.
  unfold assign_col. rewrite Hpos. cbn [bind].
  destruct v as [|r [|r' v]].
  - rewrite Hlen, Nat.eqb_refl. eexists. split; [reflexivity|exact Hspec].
  - eexists. split; [|exact Hspec]. f_equal.
    destruct J as [|row [|row' J]]; simpl in Hlen; try discriminate. reflexivity.
  - rewrite Hlen, Nat.eqb_refl. eexists. split; [reflexivity|exact Hspec].
Qed.

Lemma hstack_diag_rows (v : vector) (n : nat) (J : matrix) :
  hstack (diagflat v) (zeros2 n 2) = Ok J ->
  forall i, (i < n)%nat -> length (nth i J []) = (n + 2)%nat.
Proof.
  unfold hstack. rewrite diagflat_length, zeros2_length.
  destruct (Nat.eqb_spec (length v) n) as [Hlen|]; [|discriminate].
  intros H i Hi. injection H as <-.
  rewrite (map2_nth _ _ _ i [] [] [])
    by (rewrite ?diagflat_length, ?zeros2_length; lia).
  rewrite length_app. unfold zeros2. rewrite nth_repeat_lt by exact Hi.
  rewrite zeros_length.
  pose proof (diagflat_rows v) as Hall. rewrite Forall_forall in Hall.
  rewrite (Hall (nth i (diagflat v) [])) by (apply nth_In; rewrite diagflat_length; lia).
  lia.
Qed.

Lemma Rgtb_true (x y : R) : x > y -> Rgtb x y = true.
Proof.
  intros H. unfold Rgtb. apply Rltb_true. exact H.
Qed.

Section BiasJacobianFurther.

Context {ext : Collaborators}.

(** X17.  Under the shape conditions of the bias Jacobian, every row of the
    result has [n_chan + 2] entries; when [bval[n_chan]] exceeds [1e-6],
    column [n_chan] is [sample] applied to the first difference of the
    radiance padded with a zero; when [bval[n_chan + 1]] exceeds [1e-6],
    column [n_chan + 1] is the measurement convolved with the stray-light
    kernel, minus the measurement. *)
Theorem dmeas_dinstrumentb_bias_columns (self : Instrument)
  (x wl_hi r m d : vector) :
  length (bval self) = (n_chan self + 2)%nat ->
  sample self x wl_hi (Vec r) = Ok (Vec m) ->
  length m = n_chan self ->
  sample self x wl_hi (Vec (diff r ++ [0])) = Ok (Vec d) ->
  length d = n_chan self ->
  length (convolve m (srf (arange (-10) 11) 0 4)) = n_chan self ->
  exists J : matrix,
    dmeas_dinstrumentb self x wl_hi (Vec r) = Ok J
    /\ (forall i, (i < n_chan self)%nat -> length (nth i J []) = (n_chan self + 2)%nat)
    /\ (nth (n_chan self) (bval self) 0 > 1e-6 ->
        forall i, (i < n_chan self)%nat -> get J i (n_chan self) = nth i d 0)
    /\ (nth (n_chan self + 1) (bval self) 0 > 1e-6 ->
        forall i, (i < n_chan self)%nat ->
          get J i (n_chan self + 1)
          = nth i (convolve m (srf (arange (-10) 11) 0 4)) 0 - nth i m 0).
Proof.
  intros Hbval Hm Hlenm Hd Hlend Hconv. unfold dmeas_dinstrumentb.
  set (n := n_chan self) in *.
  rewrite Hm. cbn [bind ravel].
  destruct (hstack_diag_ok m n Hlenm) as [J0 HJ0].
  rewrite HJ0. cbn [bind].
  destruct (hstack_diag _ _ _ HJ0) as (_ & HlenJ0 & _).
  pose proof (hstack_diag_rows _ _ _ HJ0) as Hrows0.
  rewrite (py_index_last_but_one _ _ Hbval). cbn [bind].
  assert (H1 : exists J1,
             (if Rgtb (nth n (bval self) 0) 1e-6
              then d0 <- diff_pad (Vec r) ;;
                   column <- sample self x wl_hi d0 ;;
                   assign_col (n + 2) J0 (-2) column
              else Ok J0) = Ok J1
             /\ length J1 = n
             /\ (forall i, length (nth i J1 []) = length (nth i J0 []))
             /\ (nth n (bval self) 0 > 1e-6 ->
                 forall i, (i < n)%nat -> get J1 i n = nth i d 0)).
  { destruct (Rlt_dec 1e-6 (nth n (bval self) 0)) as [Hgt|Hle].
    - rewrite Rgtb_true by exact Hgt. cbn [diff_pad bind]. rewrite Hd. cbn [bind].
      destruct (assign_col_Vec_spec (n + 2) J0 (-2) n d (py_pos_last_but_one _)
                  ltac:(lia)) as (J1 & HJ1 & Hl & Hw & _ & Hcol).
      exists J1. repeat split; auto; [lia|].
      intros _ i Hi. apply Hcol; [lia|]. rewrite Hrows0 by exact Hi. lia.
    - rewrite Rgtb_false by exact Hle. exists J0. repeat split; auto.
      intros Hgt. contradiction. }
  destruct H1 as (J1 & HJ1 & HlenJ1 & Hrows1 & Hcol1). rewrite HJ1. cbn [bind].
  rewrite (py_index_last _ _ Hbval). cbn [bind].
  destruct (Rlt_dec 1e-6 (nth (n + 1) (bval self) 0)) as [Hgt|Hle].
  - rewrite Rgtb_true by exact Hgt. cbn [convolve_same bind nd_zip].
    rewrite broadcast2_same_length by lia. cbn [bind].
    destruct (assign_col_Vec_spec (n + 2) J1 (-1) (n + 1)
                (map2 Rminus (convolve m (srf (arange (-10) 11) 0 4)) m)
                (py_pos_last _) ltac:(rewrite map2_length; lia))
      as (J2 & HJ2 & Hl & Hw & Hframe & Hcol).
    rewrite HJ2. cbn [bind]. exists J2. split; [reflexivity|]. split; [|split].
    + intros i Hi. rewrite Hw, Hrows1. now apply Hrows0.
    + intros Hspec i Hi. rewrite Hframe by lia. now apply Hcol1.
    + intros _ i Hi. rewrite Hcol; [|lia|rewrite Hrows1, Hrows0 by exact Hi; lia].
      apply map2_nth; lia.
  - rewrite Rgtb_false by exact Hle. cbn [bind].
    exists J1. split; [reflexivity|]. split; [|split].
    + intros i Hi. rewrite Hrows1. now apply Hrows0.
    + exact Hcol1.
    + intros Hgt. contradiction.
Qed.

(** X18.  A measurement that does not have one entry per channel makes
    [dmeas_dinstrumentb] raise [ValueError]: the diagonal matrix of the
    measurement cannot be stacked beside the two bias columns. *)
Theorem dmeas_dinstrumentb_wrong_length (self : Instrument) (x wl_hi : vector)
  (rdn_hi meas : ndarray) :
  sample self x wl_hi rdn_hi = Ok meas ->
  length (ravel meas) <> n_chan self ->
  dmeas_dinstrumentb self x wl_hi rdn_hi = Err ValueError.
Proof.
  intros Hmeas Hlen. unfold dmeas_dinstrumentb. rewrite Hmeas. cbn [bind].
  unfold hstack. rewrite diagflat_length, zeros2_length.
  destruct (Nat.eqb_spec (length (ravel meas)) (n_chan self)); [contradiction|].
  reflexivity.
Qed.

(** X19.  [dmeas_dinstrument] returns a Jacobian exactly when the instrument
    retrieves no calibration state, and the Jacobian then has [n_chan] rows and
    no column; the state, the grid and the radiance are not looked at. *)
Theorem dmeas_dinstrument_returns_iff (self : Instrument) (x wl_hi : vector)
  (rdn_hi : ndarray) :
  ((exists J, dmeas_dinstrument self x wl_hi rdn_hi = Ok J) <-> n_state self = 0%nat)
  /\ (forall J, dmeas_dinstrument self x wl_hi rdn_hi = Ok J ->
        length J = n_chan self /\ Forall (fun row => row = []) J).
Proof.
  unfold dmeas_dinstrument.
  destruct (Nat.eqb_spec (n_state self) 0) as [Hz|Hnz].
  - rewrite Hz. split.
    + split; [reflexivity|]. intros _. eauto.
    + intros J H. injection H as <-. split; [apply repeat_length|].
      apply Forall_forall. intros row Hin. now apply repeat_spec in Hin.
  - split.
    + split; [|contradiction]. intros [J H].
      destruct (sample self x wl_hi rdn_hi); discriminate.
    + intros J H. destruct (sample self x wl_hi rdn_hi); discriminate.
Qed.

End BiasJacobianFurther.

Lemma dmeas_dinstrumentb_bias_columns_example :
  exists J : matrix,
    dmeas_dinstrumentb (ext := example_collaborators) biased_instrument [0]
      fine_grid (Vec fine_radiance) = Ok J
    /\ (forall i, (i < n_chan biased_instrument)%nat ->
          length (nth i J []) = (n_chan biased_instrument + 2)%nat)
    /\ (nth (n_chan biased_instrument) (bval biased_instrument) 0 > 1e-6 ->
        forall i, (i < n_chan biased_instrument)%nat ->
          get J i (n_chan biased_instrument)
          = nth i [(2 - 1 + 0) / 2; (2 - 1 + 0) / 2; (2 - 1 + 0) / 2] 0)
    /\ (nth (n_chan biased_instrument + 1) (bval biased_instrument) 0 > 1e-6 ->
        forall i, (i < n_chan biased_instrument)%nat ->
          get J i (n_chan biased_instrument + 1)
          = nth i (convolve (Collaborators := example_collaborators)
                     [(1 + 1) / 2; (1 + 1) / 2; (1 + 1) / 2]
                     (srf (Collaborators := example_collaborators)
                        (arange (-10) 11) 0 4)) 0
            - nth i [(1 + 1) / 2; (1 + 1) / 2; (1 + 1) / 2] 0).
Proof.
  apply (dmeas_dinstrumentb_bias_columns (ext := example_collaborators)
           biased_instrument [0] fine_grid fine_radiance
           [(1 + 1) / 2; (1 + 1) / 2; (1 + 1) / 2]
           [(2 - 1 + 0) / 2; (2 - 1 + 0) / 2; (2 - 1 + 0) / 2]);
    reflexivity.
Defined.

Lemma dmeas_dinstrumentb_wrong_length_example :
  dmeas_dinstrumentb (ext := example_collaborators) snr_instrument []
    [500; 510; 520] (Vec [0.2; 0.3; 0.4; 0.5]) = Err ValueError.
Proof.
  apply (dmeas_dinstrumentb_wrong_length (ext := example_collaborators)
           snr_instrument [] [500; 510; 520] (Vec [0.2; 0.3; 0.4; 0.5])
           (Vec [0.2; 0.3; 0.4; 0.5])).
  - apply sample_within_tolerance; [reflexivity|reflexivity|].
    intros i Hi. unfold wl_tol.
    destruct i as [|[|[|i]]]; simpl in *; try lra; lia.
  - discriminate.
Defined.

(** ** The constructor, further *)

Lemma map2_repeat (rad : vector) (c : R) :
  map2 Rplus rad (repeat c (length rad)) = map (fun b => b + c) rad.
Proof.
  induction rad as [|b rad IH]; simpl; [reflexivity|]. now rewrite IH.
Qed.

Lemma stray_instrument_both_constructed :
  __init__ (ext := example_collaborators) stray_both_config = Ok stray_both_instrument.
Proof. reflexivity. Qed.

Lemma rss_instrument_constructed :
  __init__ (ext := example_collaborators) rss_config = Ok rss_instrument.
Proof. reflexivity. Qed.

Section ConstructorFurther.

Context {ext : Collaborators}.

Lemma accumulate_value (n : nat) (rad : vector) (v : R) :
  length rad = n ->
  accumulate rad (Vec (map (fun o => o * v) (ones n)))
  = Ok (map (fun b => b + v ^ 2) rad).
Proof.
  intros <-. unfold accumulate, ones.
  rewrite broadcast2_same_length by (now rewrite !length_map, repeat_length).
  cbn [bind]. rewrite map2_length, !length_map, repeat_length, Nat.min_id.
  rewrite Nat.eqb_refl. f_equal.
  rewrite !map_repeat, map2_repeat. apply map_ext. intros b. simpl. ring.
Qed.

(** The loop over unknowns that are all numbers adds the sum of the squares
    of those it does not skip to every radiometric slot. *)
Lemma rss_loop_values (n : nat) (items : list (string * Config.unknown))
  (bv : vector) :
  Forall (fun kv => is_number (snd kv)) items ->
  length bv = (n + 2)%nat ->
  rss_loop n items bv
  = Ok (map (fun b => b + radiometric_sum_sq items) (firstn n bv) ++ skipn n bv).
Proof.
  intros Hall; revert bv.
  induction Hall as [|[key val] items [v Hv] _ IH]; intros bv Hlen;
    cbn [rss_loop].
  - unfold radiometric_sum_sq. cbn.
    rewrite map_plus_0. now rewrite firstn_skipn.
  - simpl in Hv. subst val. unfold radiometric_sum_sq. cbn [filter fst].
    destruct (mem key special_unknowns); cbn [negb].
    + now apply IH.
    + cbn [load_unknown bind].
      assert (Hfirst : length (firstn n bv) = n) by (rewrite length_firstn; lia).
      rewrite (accumulate_value n) by exact Hfirst. cbn [bind].
      rewrite IH by (rewrite length_app, length_map, length_skipn; lia).
      rewrite firstn_app, length_map, Hfirst, Nat.sub_diag, firstn_O, app_nil_r.
      rewrite firstn_all2 by (rewrite length_map; lia).
      rewrite skipn_app, length_map, Hfirst, Nat.sub_diag.
      rewrite skipn_all2 by (rewrite length_map; lia).
      cbn [skipn app]. rewrite map_map. do 2 f_equal.
      apply map_ext. intros b. unfold radiometric_sum_sq. cbn. ring.
Qed.

Lemma rss_loop_app (n : nat) (a b : list (string * Config.unknown)) (bv : vector) :
  rss_loop n (a ++ b) bv = (r <- rss_loop n a bv ;; rss_loop n b r).
Proof.
  revert bv; induction a as [|[key val] a IH]; intros bv; cbn [rss_loop app bind].
  - reflexivity.
  - destruct (mem key special_unknowns); [apply IH|].
    destruct (load_unknown n val) as [u|e]; cbn [bind]; [|reflexivity].
    destruct (accumulate (firstn n bv) u) as [s|e]; cbn [bind]; [|reflexivity].
    apply IH.
Qed.

(** X20.  Root sum square: when every unknown is a number, each of the
    [n_chan] radiometric slots of [bval] of the constructed object is the
    square root of the sum of the squares of the unknowns other than
    [wavelength_calibration_uncertainty] (a [stray_srf_uncertainty] among them
    is counted as radiometric too). *)
Theorem init_root_sum_square (config : Config.t)
  (unknowns : list (string * Config.unknown)) (self : Instrument) :
  Config.unknowns config = Some unknowns ->
  Forall (fun kv => is_number (snd kv)) unknowns ->
  __init__ config = Ok self ->
  forall c, (c < n_chan self)%nat ->
    nth c (bval self) 0 = sqrt (radiometric_sum_sq unknowns).
Proof.
  intros Hunk Hall Hinit c Hc.
  destruct (init_record config self Hinit)
    as (file & wl & fwhm & nf & mt & k & bv & _ & _ & _ & _ & Hbv & ->).
  cbn [n_chan bval] in *. set (n := length wl) in *.
  unfold init_bval in Hbv. rewrite Hunk in Hbv.
  rewrite (rss_loop_values n unknowns (zeros (n + 2)) Hall (zeros_length _)) in Hbv.
  cbn [bind] in Hbv.
  set (S := radiometric_sum_sq unknowns) in *.
  set (b0 := map (fun b => b + S) (firstn n (zeros (n + 2))) ++ skipn n (zeros (n + 2)))
    in *.
  assert (Hlen0 : length b0 = (n + 2)%nat).
  { unfold b0. rewrite length_app, length_map, length_firstn, length_skipn, zeros_length.
    lia. }
  set (b1 := map sqrt (firstn n b0) ++ skipn n b0) in *.
  assert (Hlen1 : length b1 = (n + 2)%nat).
  { unfold b1. rewrite length_app, length_map, length_firstn, length_skipn. lia. }
  assert (Hb1 : nth c b1 0 = sqrt S).
  { unfold b1. rewrite app_nth1 by (rewrite length_map, length_firstn; lia).
    rewrite (nth_map_lt _ _ c _ 0) by (rewrite length_firstn; lia).
    f_equal. rewrite nth_firstn. destruct (Nat.ltb_spec c n); [|lia].
    unfold b0. rewrite app_nth1
      by (rewrite length_map, length_firstn, zeros_length; lia).
    rewrite (nth_map_lt _ _ c _ 0) by (rewrite length_firstn, zeros_length; lia).
    rewrite nth_firstn. destruct (Nat.ltb_spec c n); [|lia].
    rewrite zeros_nth. lra. }
  inv_bind Hbv.
  assert (Ha1 : length a = (n + 2)%nat /\ nth c a 0 = sqrt S).
  { destruct (mem "wavelength_calibration_uncertainty" (map fst unknowns)).
    - inv_bind Ha.
      destruct (assign_scalar_spec b1 a n (-2) n a0 Hlen1
                  (py_pos_last_but_one n) ltac:(lia) Ha)
        as (v & _ & Hl & _ & Hframe).
      split; [exact Hl|]. rewrite Hframe by lia. exact Hb1.
    - injection Ha as <-. auto. }
  destruct Ha1 as [Hlena Hca].
  destruct (Config.contains config "stray_srf_uncertainty").
  - inv_bind Hbv.
    destruct (assign_scalar_spec a bv n (-1) (n + 1) a0 Hlena
                (py_pos_last n) ltac:(lia) Hbv)
      as (v & _ & _ & _ & Hframe).
    rewrite Hframe by lia. exact Hca.
  - injection Hbv as <-. exact Hca.
Qed.

(** X21.  The spectral slot of a constructed object: without an [unknowns]
    section all of [bval] is zero; with one, [bval[n_chan]] is the
    [wavelength_calibration_uncertainty] when that key is present and zero
    when it is absent. *)
Theorem init_spectral_slot (config : Config.t) (self : Instrument) :
  __init__ config = Ok self ->
  (Config.unknowns config = None -> bval self = zeros (n_chan self + 2))
  /\ (forall unknowns, Config.unknowns config = Some unknowns ->
        (forall v, lookup "wavelength_calibration_uncertainty" unknowns
                   = Some (Config.Value v) ->
           nth (n_chan self) (bval self) 0 = v)
        /\ (lookup "wavelength_calibration_uncertainty" unknowns = None ->
            nth (n_chan self) (bval self) 0 = 0)).
Proof.
  intros Hinit.
  destruct (init_record config self Hinit)
    as (file & wl & fwhm & nf & mt & k & bv & _ & _ & _ & _ & Hbv & ->).
  cbn [n_chan bval]. split.
  - intros Hnone. unfold init_bval in Hbv. rewrite Hnone in Hbv.
    now injection Hbv as <-.
  - intros unknowns Hunk.
    destruct (init_bval_spectral config (length wl) unknowns bv Hunk Hbv)
      as (_ & Hsome & Hnone).
    auto.
Qed.


(** X23.  A radiometric unknown given by a file that holds a 1-d array makes
    the constructor raise [IndexError] ([u.shape[1]] on a 1-d array), the
    unknowns before it being numbers. *)
Theorem init_unknown_file_1d (config : Config.t) (file path key : string)
  (wl fwhm u : vector) (nm : option string * option noise_model) (k : R)
  (before after : list (string * Config.unknown)) :
  Config.wavelength_file config = Some file ->
  load_wavelen file = Ok (wl, fwhm) ->
  init_noise config wl (length wl) = Ok nm ->
  Config.integrations config = Some k ->
  Config.unknowns config = Some (before ++ (key, Config.File path) :: after) ->
  Forall (fun kv => is_number (snd kv)) before ->
  mem key special_unknowns = false ->
  loadtxt path None = Ok (Vec u) ->
  __init__ config = Err IndexError.
Proof.
  intros Hfile Hload Hnoise Hk Hunk Hbefore Hkey Htxt.
  unfold __init__. rewrite Hfile. cbn [getitem bind]. rewrite Hload. cbn [bind].
  rewrite Hnoise. cbn [bind]. destruct nm as [nf mt].
  rewrite Hk. cbn [getitem bind].
  unfold init_bval. rewrite Hunk, rss_loop_app.
  rewrite (rss_loop_values _ before _ Hbefore (zeros_length _)). cbn [bind rss_loop].
  rewrite Hkey. cbn [load_unknown]. rewrite Htxt. reflexivity.
Qed.

(** X24.  Missing keys: the constructor raises [KeyError] when
    [wavelength_file] is absent; when the wavelengths load but neither [SNR]
    nor [noise_file] is present; and when the noise model is in place but
    [integrations] is absent. *)
Theorem init_missing_keys (config : Config.t) :
  (Config.wavelength_file config = None -> __init__ config = Err KeyError)
  /\ (forall file wl fwhm,
        Config.wavelength_file config = Some file ->
        load_wavelen file = Ok (wl, fwhm) ->
        Config.SNR config = None ->
        Config.noise_file config = None ->
        __init__ config = Err KeyError)
  /\ (forall file wl fwhm nm,
        Config.wavelength_file config = Some file ->
        load_wavelen file = Ok (wl, fwhm) ->
        init_noise config wl (length wl) = Ok nm ->
        Config.integrations config = None ->
        __init__ config = Err KeyError).
Proof.
  unfold __init__. repeat split.
  - intros ->. reflexivity.
  - intros file wl fwhm -> Hload Hsnr Hnoise. cbn [getitem bind].
    rewrite Hload. cbn [bind]. unfold init_noise. now rewrite Hsnr, Hnoise.
  - intros file wl fwhm [nf mt] -> Hload Hnoise Hk. cbn [getitem bind].
    rewrite Hload. cbn [bind]. rewrite Hnoise. cbn [bind]. now rewrite Hk.
Qed.

(** X25.  [SNR] takes precedence: when the key is present the object is under
    the signal-to-noise model with that ratio and has no [noise_file]
    attribute, and the constructor returns the same whatever [noise_file] the
    configuration names, no noise file being read. *)
Theorem init_snr_precedence (config : Config.t) (v : R) :
  Config.SNR config = Some v ->
  (forall self, __init__ config = Ok self ->
     model_type self = Some (SNR v) /\ noise_file self = None)
  /\ (forall file, __init__ (with_noise_file config file) = __init__ config).
Proof.
  intros Hsnr. split.
  - intros self Hinit.
    destruct (init_record config self Hinit)
      as (file & wl & fwhm & nf & mt & k & bv & _ & _ & Hn & _ & _ & ->).
    unfold init_noise in Hn. rewrite Hsnr in Hn. injection Hn as <- <-.
    cbn. auto.
  - intros file. unfold __init__, init_noise, init_bval, with_noise_file.
    cbn [Config.wavelength_file Config.statevector Config.SNR Config.noise_file
         Config.integrations Config.unknowns Config.other_keys].
    rewrite Hsnr.
    replace (Config.contains _ "stray_srf_uncertainty")
      with (Config.contains config "stray_srf_uncertainty"); [reflexivity|].
    unfold Config.contains. cbn. reflexivity.
Qed.

Lemma table_column_ok (rows : matrix) (k : nat) :
  Forall (fun row => (k < length row)%nat) rows ->
  table_column (Mat rows) k = Ok (map (fun row => nth k row 0) rows).
Proof.
  intros Hall. unfold table_column.
  induction Hall as [|row rows Hrow _ IH]; cbn [mapM map]; [reflexivity|].
  rewrite (nth_error_nth' row 0) by exact Hrow. cbn [bind].
  rewrite IH. reflexivity.
Qed.

(** X26.  A configuration without [SNR] whose noise file ends in [.txt] and
    holds a table of at least four columns gives an object under the
    parametric model with one row of coefficients per wavelength: the three
    interpolants of columns 1, 2 and 3 against column 0, evaluated at that
    wavelength. *)
Theorem init_parametric (config : Config.t) (file path : string)
  (wl fwhm bv : vector) (rows : matrix) (p_a p_b p_c : R -> R) (k : R) :
  Config.wavelength_file config = Some file ->
  load_wavelen file = Ok (wl, fwhm) ->
  Config.SNR config = None ->
  Config.noise_file config = Some path ->
  endswith path ".txt" = true ->
  loadtxt path (Some " ") = Ok (Mat rows) ->
  Forall (fun row => (3 < length row)%nat) rows ->
  interp1d (map (fun row => nth 0 row 0) rows) (map (fun row => nth 1 row 0) rows)
  = Ok p_a ->
  interp1d (map (fun row => nth 0 row 0) rows) (map (fun row => nth 2 row 0) rows)
  = Ok p_b ->
  interp1d (map (fun row => nth 0 row 0) rows) (map (fun row => nth 3 row 0) rows)
  = Ok p_c ->
  Config.integrations config = Some k ->
  init_bval config (length wl) = Ok bv ->
  exists (self : Instrument) (noise : list (R * R * R)),
    __init__ config = Ok self
    /\ model_type self = Some (parametric noise)
    /\ length noise = n_chan self
    /\ forall c, (c < n_chan self)%nat ->
         nth c noise (0, 0, 0)
         = (p_a (nth c (wl_init self) 0), p_b (nth c (wl_init self) 0),
            p_c (nth c (wl_init self) 0)).
Proof.
  intros Hfile Hload Hsnr Hnoise Htxt Htable Hrows Ha Hb Hc Hk Hbv.
  assert (Hcol : forall j, (j <= 3)%nat ->
             table_column (Mat rows) j = Ok (map (fun row => nth j row 0) rows)).
  { intros j Hj. apply table_column_ok.
    eapply Forall_impl; [|exact Hrows]. intros row Hrow. simpl in Hrow. lia. }
  eexists. exists (map (fun w => (p_a w, p_b w, p_c w)) wl). split.
  - unfold __init__. rewrite Hfile. cbn [getitem bind]. rewrite Hload. cbn [bind].
    unfold init_noise. rewrite Hsnr, Hnoise. cbn [getitem bind].
    rewrite Htxt, Htable. cbn [bind].
    rewrite !Hcol by lia. cbn [bind]. rewrite Ha. cbn [bind].
    rewrite Hb. cbn [bind]. rewrite Hc. cbn [bind].
    rewrite Hk. cbn [getitem bind]. rewrite Hbv. cbn [bind]. reflexivity.
  - cbn. split; [reflexivity|]. split; [apply length_map|].
    intros c Hc'. now rewrite (nth_map_lt _ _ c _ 0).
Qed.

End ConstructorFurther.

Lemma init_root_sum_square_example :
  n_chan rss_instrument = 3%nat
  /\ forall c, (c < n_chan rss_instrument)%nat ->
       nth c (bval rss_instrument) 0
       = sqrt (radiometric_sum_sq
                 [("flat_field", Config.Value 0.03);
                  ("wavelength_calibration_uncertainty", Config.Value 0.02);
                  ("linearity", Config.Value 0.04)]).
Proof.
  split; [reflexivity|].
  apply (init_root_sum_square (ext := example_collaborators) rss_config
           [("flat_field", Config.Value 0.03);
            ("wavelength_calibration_uncertainty", Config.Value 0.02);
            ("linearity", Config.Value 0.04)]
           rss_instrument).
  - reflexivity.
  - repeat constructor; eexists; reflexivity.
  - reflexivity.
Defined.

(** The example in numbers: 0.03 and 0.04 combine to 0.05. *)
Lemma rss_instrument_bval :
  bval rss_instrument = [0.05; 0.05; 0.05; 0.02; 0].
Proof.
  assert (H : sqrt (0 + (1 * 0.03) ^ 2 + (1 * 0.04) ^ 2) = 0.05).
  { replace (0 + (1 * 0.03) ^ 2 + (1 * 0.04) ^ 2) with (0.05 * 0.05) by (simpl; lra).
    apply sqrt_square. lra. }
  unfold rss_instrument. cbn [bval]. now rewrite H.
Qed.

Lemma init_spectral_slot_example :
  (Config.unknowns rss_config = None ->
   bval rss_instrument = zeros (n_chan rss_instrument + 2))
  /\ (forall unknowns, Config.unknowns rss_config = Some unknowns ->
        (forall v, lookup "wavelength_calibration_uncertainty" unknowns
                   = Some (Config.Value v) ->
           nth (n_chan rss_instrument) (bval rss_instrument) 0 = v)
        /\ (lookup "wavelength_calibration_uncertainty" unknowns = None ->
            nth (n_chan rss_instrument) (bval rss_instrument) 0 = 0)).
Proof.
  apply (init_spectral_slot (ext := example_collaborators) rss_config rss_instrument).
  reflexivity.
Defined.


Lemma init_unknown_file_1d_example :
  __init__ (ext := table_collaborators) file_unknown_config = Err IndexError.
Proof.
  apply (init_unknown_file_1d (ext := table_collaborators) file_unknown_config
           "wavelengths.txt" "uncertainty.txt" "channelized"
           [500; 510; 520] [10; 10; 10] [0.01; 0.01; 0.01]
           (None, Some (SNR 100)) 1
           [("flat_field", Config.Value 0.03)] []).
  - reflexivity.
  - reflexivity.
  - reflexivity.
  - reflexivity.
  - reflexivity.
  - repeat constructor. eexists. reflexivity.
  - reflexivity.
  - reflexivity.
Defined.

Lemma init_snr_precedence_example :
  (forall self, __init__ (ext := example_collaborators) shift_config = Ok self ->
     model_type self = Some (SNR 100) /\ noise_file self = None)
  /\ (forall file,
        __init__ (ext := example_collaborators) (with_noise_file shift_config file)
        = __init__ (ext := example_collaborators) shift_config).
Proof.
  apply (init_snr_precedence (ext := example_collaborators) shift_config 100).
  reflexivity.
Defined.

Lemma init_parametric_example :
  exists (self : Instrument) (noise : list (R * R * R)),
    __init__ (ext := table_collaborators) parametric_config = Ok self
    /\ model_type self = Some (parametric noise)
    /\ length noise = n_chan self
    /\ forall c, (c < n_chan self)%nat ->
         nth c noise (0, 0, 0)
         = ((fun _ : R => (1 + 3) / 2) (nth c (wl_init self) 0),
            (fun _ : R => (0 + 2) / 2) (nth c (wl_init self) 0),
            (fun _ : R => (0.5 + 1.5) / 2) (nth c (wl_init self) 0)).
Proof.
  apply (init_parametric (ext := table_collaborators) parametric_config
           "wavelengths.txt" "noise.txt" [500; 510; 520] [10; 10; 10]
           [0; 0; 0; 0; 0]
           [[400; 1; 0; 0.5]; [600; 3; 2; 1.5]]
           (fun _ => (1 + 3) / 2) (fun _ => (0 + 2) / 2) (fun _ => (0.5 + 1.5) / 2) 4);
    try reflexivity.
  repeat constructor; simpl; lia.
Defined.

(** ** The pushbroom model, further *)

Lemma entry_sum_symmetric (n : nat) (covs : list matrix) (i j : nat) :
  Forall (symmetric n) covs -> (i < n)%nat -> (j < n)%nat ->
  entry_sum covs i j = entry_sum covs j i.
Proof.
  intros Hall Hi Hj. unfold entry_sum.
  induction Hall as [|slice covs Hslice _ IH]; simpl; [reflexivity|].
  rewrite IH. now rewrite (Hslice i j Hi Hj).
Qed.

Lemma Sy_pushbroom_mean_entry (self : Instrument) (ncols : nat)
  (covs : list matrix) (meas : loc) (geom : Geometry) (st : store) :
  model_type self = Some (pushbroom ncols covs) ->
  well_shaped (n_chan self) covs ->
  pushbroom_column geom = None ->
  exists C, fst (Sy self meas geom st) = Ok C
            /\ forall i j, (i < n_chan self)%nat -> (j < n_chan self)%nat ->
                 entry C i j
                 = Some (entry_sum covs i j / INR (length covs)
                         / sqrt (integrations self)).
Proof.
  intros Hmodel Hshape Hcol. unfold Sy. rewrite Hmodel, Hcol. cbn [fst bind].
  eexists. split; [reflexivity|]. intros i j Hi Hj.
  rewrite entry_nd_map.
  rewrite (entry_squeeze (n_chan self)) by (auto using mean_axis0_square).
  now rewrite mean_axis0_get by assumption.
Qed.

Lemma Sy_pushbroom_slice_entry (self : Instrument) (ncols : nat)
  (covs : list matrix) (meas : loc) (geom : Geometry) (st : store) (column : Z) :
  model_type self = Some (pushbroom ncols covs) ->
  well_shaped (n_chan self) covs ->
  pushbroom_column geom = Some column ->
  (0 <= column < Z.of_nat (length covs))%Z ->
  exists C, fst (Sy self meas geom st) = Ok C
            /\ forall i j, (i < n_chan self)%nat -> (j < n_chan self)%nat ->
                 entry C i j
                 = Some (get (nth (Z.to_nat column) covs []) i j
                         / sqrt (integrations self)).
Proof.
  intros Hmodel Hshape Hcol Hrange. unfold Sy. rewrite Hmodel, Hcol. cbn [fst].
  rewrite (py_index_nonneg covs column []) by exact Hrange. cbn [bind].
  eexists. split; [reflexivity|]. intros i j Hi Hj.
  rewrite entry_nd_map.
  assert (Hsq : square (n_chan self) (nth (Z.to_nat column) covs [])).
  { unfold well_shaped in Hshape. rewrite Forall_forall in Hshape.
    apply Hshape, nth_In. lia. }
  now rewrite (entry_Mat (n_chan self)) by assumption.
Qed.

(** X27.  Under the pushbroom model, when every measured covariance of a
    non-empty, well-shaped stack is symmetric, so is what [Sy] returns, both
    for the column mean and for a named column of the stack. *)
Theorem Sy_pushbroom_symmetric (self : Instrument) (ncols : nat)
  (covs : list matrix) (meas : loc) (geom : Geometry) (st : store) :
  model_type self = Some (pushbroom ncols covs) ->
  well_shaped (n_chan self) covs ->
  covs <> [] ->
  Forall (symmetric (n_chan self)) covs ->
  (pushbroom_column geom = None
   \/ exists column, pushbroom_column geom = Some column
                     /\ (0 <= column < Z.of_nat (length covs))%Z) ->
  exists C, fst (Sy self meas geom st) = Ok C
            /\ forall i j, (i < n_chan self)%nat -> (j < n_chan self)%nat ->
                 entry C i j <> None /\ entry C i j = entry C j i.
Proof.
  intros Hmodel Hshape Hne Hsym [Hcol | (column & Hcol & Hrange)].
  - destruct (Sy_pushbroom_mean_entry self ncols covs meas geom st Hmodel Hshape Hcol)
      as (C & HC & Hentry).
    exists C. split; [exact HC|]. intros i j Hi Hj.
    rewrite !Hentry by assumption. split; [discriminate|].
    now rewrite (entry_sum_symmetric (n_chan self) covs i j).
  - destruct (Sy_pushbroom_slice_entry self ncols covs meas geom st column
                Hmodel Hshape Hcol Hrange) as (C & HC & Hentry).
    exists C. split; [exact HC|]. intros i j Hi Hj.
    rewrite !Hentry by assumption. split; [discriminate|].
    rewrite Forall_forall in Hsym.
    rewrite (Hsym (nth (Z.to_nat column) covs [])); auto.
    apply nth_In. lia.
Qed.

(** X28.  Under the pushbroom model with a single spatial column, naming no
    column and naming column 0 give the same entries: the one measured
    covariance, every entry divided by [sqrt(integrations)]. *)
Theorem Sy_pushbroom_single_column (self : Instrument) (ncols : nat)
  (slice : matrix) (meas : loc) (st : store) (geom0 geom1 : Geometry) :
  model_type self = Some (pushbroom ncols [slice]) ->
  square (n_chan self) slice ->
  pushbroom_column geom0 = None ->
  pushbroom_column geom1 = Some 0%Z ->
  exists C0 C1,
    fst (Sy self meas geom0 st) = Ok C0
    /\ fst (Sy self meas geom1 st) = Ok C1
    /\ forall i j, (i < n_chan self)%nat -> (j < n_chan self)%nat ->
         entry C0 i j = Some (get slice i j / sqrt (integrations self))
         /\ entry C1 i j = Some (get slice i j / sqrt (integrations self)).
Proof.
  intros Hmodel Hsq Hnone Hzero.
  assert (Hshape : well_shaped (n_chan self) [slice]) by (repeat constructor; apply Hsq).
  destruct (Sy_pushbroom_mean_entry self ncols [slice] meas geom0 st Hmodel Hshape Hnone)
    as (C0 & HC0 & Hentry0).
  destruct (Sy_pushbroom_slice_entry self ncols [slice] meas geom1 st 0%Z
              Hmodel Hshape Hzero ltac:(simpl; lia)) as (C1 & HC1 & Hentry1).
  exists C0, C1. split; [exact HC0|]. split; [exact HC1|].
  intros i j Hi Hj. split.
  - rewrite Hentry0 by assumption. unfold entry_sum. simpl. do 2 f_equal. lra.
  - now rewrite Hentry1 by assumption.
Qed.

Lemma Sy_pushbroom_symmetric_example :
  exists C, fst (Sy pushbroom_instrument 0%nat nadir caller_store) = Ok C
            /\ forall i j, (i < n_chan pushbroom_instrument)%nat ->
                           (j < n_chan pushbroom_instrument)%nat ->
                 entry C i j <> None /\ entry C i j = entry C j i.
Proof.
  apply (Sy_pushbroom_symmetric pushbroom_instrument 2 pushbroom_covs
           0%nat nadir caller_store).
  - reflexivity.
  - exact pushbroom_covs_well_shaped.
  - discriminate.
  - repeat constructor; intros [|[|i]] [|[|j]] Hi Hj; simpl in *; try lia; reflexivity.
  - left. reflexivity.
Defined.

Lemma Sy_pushbroom_single_column_example :
  exists C0 C1,
    fst (Sy single_column_instrument 0%nat nadir caller_store) = Ok C0
    /\ fst (Sy single_column_instrument 0%nat first_column caller_store) = Ok C1
    /\ forall i j, (i < n_chan single_column_instrument)%nat ->
                   (j < n_chan single_column_instrument)%nat ->
         entry C0 i j
         = Some (get [[4; 2]; [2; 6]] i j / sqrt (integrations single_column_instrument))
         /\ entry C1 i j
            = Some (get [[4; 2]; [2; 6]] i j
                    / sqrt (integrations single_column_instrument)).
Proof.
  apply (Sy_pushbroom_single_column single_column_instrument 1 [[4; 2]; [2; 6]]
           0%nat caller_store nadir first_column).
  - reflexivity.
  - repeat constructor.
  - reflexivity.
  - reflexivity.
Defined.
